(** * DhartiQ crop advisor: the turn orchestrator of [app/graph.py]

    A shallow embedding of the routing function, the context merge, the
    staleness tests, the response coercers and the per-turn driver of
    [app/graph.py], [app/models.py] and [app/tools.py], followed by the
    properties the design document states about them.

    Conventions.
    - A Python [str] is the list of its code points ([str], [char]).
    - What the interpreter decides from its Unicode tables (which characters
      are white space or decimal digits, lower-casing, case-insensitive
      matching) and [datetime.fromisoformat] are the fields of a [Runtime];
      a theorem holds for every runtime unless it names [ascii_runtime],
      the one used to evaluate examples.
    - A Python [float] is a binary64 value, [spec_float] of the Standard
      Library.
    - An exception is a value: fallible code returns a [result]. *)

From Stdlib Require Import ZArith NArith List Strings.String Strings.Ascii Lia.
From Stdlib Require Import Floats.SpecFloat.
From stdpp Require Import base list gmap.

(* ===================================================================== *)
(** * Part I: the program                                                 *)
(* ===================================================================== *)

(** ** Text *)

Abbreviation char := N (only parsing).
Abbreviation str := (list N) (only parsing).

(** The code points of a UTF-8 byte sequence. *)
Fixpoint utf8_decode (bs : list N) : str :=
  match bs with
  | [] => []
  | b :: r =>
      if (b <? 128)%N then b :: utf8_decode r
      else if (b <? 224)%N then
        match r with
        | c1 :: r' => ((b - 192) * 64 + (c1 - 128))%N :: utf8_decode r'
        | _ => []
        end
      else if (b <? 240)%N then
        match r with
        | c1 :: c2 :: r' =>
            ((b - 224) * 4096 + (c1 - 128) * 64 + (c2 - 128))%N :: utf8_decode r'
        | _ => []
        end
      else
        match r with
        | c1 :: c2 :: c3 :: r' =>
            ((b - 240) * 262144 + (c1 - 128) * 4096 + (c2 - 128) * 64 + (c3 - 128))%N
              :: utf8_decode r'
        | _ => []
        end
  end.

(** A string literal of the source, as code points. *)
Definition py (s : string) : str :=
  utf8_decode (map N_of_ascii (list_ascii_of_string s)).

Definition str_eqb (a b : str) : bool := bool_decide (a = b).

(** [x in xs] for a tuple or set of strings. *)
Definition str_in (x : str) (xs : list str) : bool := existsb (str_eqb x) xs.

Fixpoint starts_with (p s : str) : bool :=
  match p, s with
  | [], _ => true
  | a :: p', b :: s' => N.eqb a b && starts_with p' s'
  | _ :: _, [] => false
  end.

(** [k in t] for two strings: [k] occurs in [t]. *)
Fixpoint contains (k t : str) : bool :=
  starts_with k t || match t with [] => false | _ :: t' => contains k t' end.

Fixpoint drop_while (p : char -> bool) (s : str) : str :=
  match s with
  | [] => []
  | c :: s' => if p c then drop_while p s' else s
  end.

(** [s.split(sep)] for a one-character separator: never an empty list. *)
Fixpoint split_on (d : char -> bool) (s : str) : list str :=
  match s with
  | [] => [[]]
  | c :: s' =>
      if d c then [] :: split_on d s'
      else match split_on d s' with
           | p :: ps => (c :: p) :: ps
           | [] => [[c]]
           end
  end.

(** [re.split] on a pattern [[...]+]: the pieces between maximal runs of
    delimiter characters. [prev] tells that the previous character was a
    delimiter. *)
Fixpoint split_runs (d : char -> bool) (prev : bool) (s : str) : list str :=
  match s with
  | [] => [[]]
  | c :: s' =>
      if d c then
        if prev then split_runs d true s' else [] :: split_runs d true s'
      else match split_runs d false s' with
           | p :: ps => (c :: p) :: ps
           | [] => [[c]]
           end
  end.

Definition NEWLINE : char := 10%N.
Definition is_newline (c : char) : bool := N.eqb c NEWLINE.

(** ** Exceptions *)

(** The exceptions of the interpreter, [ToolError] of [tools.py],
    [GraphRecursionError] of the graph library, and the [ValidationError]
    of the data model. *)
Inductive exn :=
  | KeyError | TypeError | ValueError | RuntimeError | ToolError
  | GraphRecursionError | ValidationError.

Inductive result (A : Type) :=
  | Ok (a : A)
  | Raise (e : exn).
Arguments Ok {A} a.
Arguments Raise {A} e.

Definition rbind {A B} (r : result A) (k : A -> result B) : result B :=
  match r with Ok a => k a | Raise e => Raise e end.

(** ** Floats and instants *)

Abbreviation float := spec_float (only parsing).

Definition SF64div := SFdiv 53 1024.
Definition SF64leb := SFleb.

Definition float_of_Z (z : Z) : float := binary_normalize 53 1024 z 0 false.

(** Truth value of a float: zero (of either sign) is false. *)
Definition float_truthy (f : float) : bool :=
  match f with S754_zero _ => false | _ => true end.

(** [a and b] for two optional floats, as a condition. *)
Definition both_truthy (a b : option float) : bool :=
  match a, b with
  | Some x, Some y => float_truthy x && float_truthy y
  | _, _ => false
  end.

(** A [datetime]: naive, or aware with its instant in microseconds UTC. *)
Inductive datetime :=
  | Naive (us : Z)
  | Aware (us : Z).

(** [timedelta(hours=h)] and [timedelta(days=d)], in microseconds. *)
Definition timedelta_hours (h : Z) : Z := (h * 3600 * 1000000)%Z.
Definition timedelta_days (d : Z) : Z := (d * 86400 * 1000000)%Z.

(** ** The interpreter's tables *)

Record Runtime := {
  (** [str.isspace] on one character; also [\s] and what [strip] removes *)
  isspace : char -> bool;
  (** [str.lower] *)
  lower : str -> str;
  (** under [re.IGNORECASE]: does the pattern letter match the character *)
  ci_eq : char -> char -> bool;
  (** the digit value of a decimal digit character ([\d], [float]) *)
  todecimal : char -> option N;
  (** [str.title] *)
  title : str -> str;
  (** [datetime.fromisoformat]; [None] when it raises *)
  fromisoformat : str -> option datetime;
}.

(** ** Regular expressions

    The backtracking matcher of [re], for the constructs the three patterns
    of the program use. Matching is written in continuation-passing style:
    the continuation receives the rest of the subject and the groups
    captured so far, and [None] makes the matcher backtrack. *)

Inductive re :=
  | Eps
  | Chr (p : char -> bool)                               (* one character of a class *)
  | Rep (p : char -> bool) (lo : nat) (hi : option nat)  (* greedy [c{lo,hi}] on a class *)
  | Cat (a b : re)
  | Opt (a : re)                                         (* greedy [(?:a)?] *)
  | Grp (n : nat) (a : re)                               (* capturing group *)
  | Eos.                                                 (* [$] *)

Definition re_seq (rs : list re) : re := fold_right Cat Eps rs.

Fixpoint rep_exec {A} (p : char -> bool) (lo : nat) (hi : option nat)
    (s : str) (k : str -> option A) : option A :=
  let stop := match lo with O => k s | S _ => None end in
  match s with
  | c :: s' =>
      if p c && negb (bool_decide (hi = Some O)) then
        match rep_exec p (pred lo) (pred <$> hi) s' k with
        | Some r => Some r
        | None => stop
        end
      else stop
  | [] => stop
  end.

Fixpoint exec (r : re) (s : str) (cs : list (nat * str))
    (k : str -> list (nat * str) -> option (list (nat * str)))
    : option (list (nat * str)) :=
  match r with
  | Eps => k s cs
  | Chr p =>
      match s with
      | c :: s' => if p c then k s' cs else None
      | [] => None
      end
  | Rep p lo hi => rep_exec p lo hi s (fun s' => k s' cs)
  | Cat a b => exec a s cs (fun s' cs' => exec b s' cs' k)
  | Opt a =>
      match exec a s cs k with
      | Some m => Some m
      | None => k s cs
      end
  | Grp n a =>
      exec a s cs (fun s' cs' => k s' ((n, take (length s - length s') s) :: cs'))
  | Eos =>
      match s with
      | [] => k s cs
      | [c] => if is_newline c then k s cs else None
      | _ => None
      end
  end.

(** [pattern.match(s)]: a match starting at the first character. *)
Definition re_match (r : re) (s : str) : option (list (nat * str)) :=
  exec r s [] (fun _ cs => Some cs).

(** [pattern.search(s)]: the leftmost match. *)
Fixpoint re_search (r : re) (s : str) : option (list (nat * str)) :=
  match re_match r s with
  | Some m => Some m
  | None => match s with [] => None | _ :: s' => re_search r s' end
  end.

(** [m.group(n)] of a group that took part in the match. *)
Fixpoint group (n : nat) (m : list (nat * str)) : str :=
  match m with
  | [] => []
  | (i, g) :: m' => if Nat.eqb i n then g else group n m'
  end.

Definition is_char (a : string) (c : char) : bool := str_eqb [c] (py a).

(** ** Constants of [graph.py] *)

Definition ACTION_PREFIX : str := py "__ACTION__:".
Definition ACTION_SCHEMES : str := py "__ACTION__:SCHEMES".
Definition ACTION_MARKET : str := py "__ACTION__:MARKET".
Definition ACTION_DIGEST : str := py "__ACTION__:DIGEST".
Definition ACTION_CROP_RECO : str := py "__ACTION__:CROP_RECO".
Definition ACTION_BUY : str := py "__ACTION__:BUY".

Definition _ALLOWED_STAGES : list str :=
  map py ["unknown"; "pre_sowing"; "sowing"; "germination"; "vegetative";
          "flowering"; "fruiting"; "maturity"; "harvest"; "post_harvest"]%string.

Definition URGENCY_LEVELS : list str := map py ["low"; "medium"; "high"]%string.
Definition CONFIDENCE_LEVELS : list str := map py ["low"; "medium"; "high"]%string.

(** The key phrases of [_user_wants_crop_reco]: English, Hindi, Marathi. *)
Definition CROP_RECO_PHRASES : list str :=
  map py ["recommend crop"; "suggest crop"; "which crop"; "what crop";
          "crop suggestion"; "crop recommendations";
          "कौन सी फसल"; "फसल सुझाव"; "फसल बताओ"; "फसल recommend";
          "कोणते पीक"; "पीक सुचवा"; "पीक recommendation"; "पीक सुचना"]%string.

Section Text.

Variable rt : Runtime.

(** [s.strip()] *)
Definition strip (s : str) : str :=
  rev (drop_while (isspace rt) (rev (drop_while (isspace rt) s))).

(** Truth value of a string. *)
Definition nonempty (s : str) : bool :=
  match s with [] => false | _ => true end.

(** [o and o.strip()] as a condition, for an optional string. *)
Definition present (o : option str) : bool :=
  match o with
  | Some s => nonempty s && nonempty (strip s)
  | None => false
  end.

Definition digit (c : char) : bool :=
  match todecimal rt c with Some _ => true | None => false end.

(** A word of the pattern under [re.IGNORECASE]. *)
Definition ci_word (w : string) : re :=
  re_seq (map (fun l => Chr (ci_eq rt l)) (py w)).

(** [[a-z_]] under [re.IGNORECASE]. *)
Definition stage_char (c : char) : bool :=
  existsb (fun l => ci_eq rt l c) (map N.of_nat (seq 97 26)) || is_char "_" c.

(** [^\s*my\s+stage\s+is\s+([a-z_]+)\.?\s*$], used with [match]. *)
Definition _STAGE_UPDATE_RE : re :=
  re_seq [ Rep (isspace rt) 0 None; ci_word "my"; Rep (isspace rt) 1 None;
           ci_word "stage"; Rep (isspace rt) 1 None; ci_word "is";
           Rep (isspace rt) 1 None; Grp 1 (Rep stage_char 1 None);
           Rep (is_char ".") 0 (Some 1%nat); Rep (isspace rt) 0 None; Eos ].

(** [^\s*stage\s*:\s*([a-z_]+)\s*$], used with [match]. *)
Definition _STAGE_INLINE_RE : re :=
  re_seq [ Rep (isspace rt) 0 None; ci_word "stage"; Rep (isspace rt) 0 None;
           Chr (is_char ":"); Rep (isspace rt) 0 None;
           Grp 1 (Rep stage_char 1 None); Rep (isspace rt) 0 None; Eos ].

(** [-?\d{1,3}(?:\.\d+)?], the numeral of a coordinate. *)
Definition coordinate : re :=
  re_seq [ Rep (is_char "-") 0 (Some 1%nat); Rep digit 1 (Some 3%nat);
           Opt (Cat (Chr (is_char ".")) (Rep digit 1 None)) ].

Definition LAT : nat := 1.
Definition LON : nat := 2.

(** [(?P<lat>...)\s*[, ]\s*(?P<lon>...)] of [tools.py]. *)
Definition _LATLON_RE : re :=
  re_seq [ Grp LAT coordinate; Rep (isspace rt) 0 None;
           Chr (fun c => is_char "," c || is_char " " c);
           Rep (isspace rt) 0 None; Grp LON coordinate ].

(** The number a run of decimal digits denotes. *)
Fixpoint digits_value (acc : Z) (s : str) : option Z :=
  match s with
  | [] => Some acc
  | c :: s' =>
      match todecimal rt c with
      | Some d => digits_value (10 * acc + Z.of_N d)%Z s'
      | None => None
      end
  end.

(** [float(s)] for a numeral [-?digits(.digits)?], the only texts the
    program passes to it: the binary64 nearest to the decimal value, ties
    to even. Any other text is answered with [ValueError] here. *)
Definition float_of_numeral (s : str) : result float :=
  let '(neg, body) :=
    match s with
    | c :: s' => if is_char "-" c then (true, s') else (false, s)
    | [] => (false, s)
    end in
  let '(int_part, frac_part, well_formed) :=
    match split_on (is_char ".") body with
    | [i] => (i, [], nonempty i)
    | [i; f] => (i, f, nonempty i && nonempty f)
    | _ => ([], [], false)
    end in
  if negb well_formed then Raise ValueError else
  match digits_value 0 (int_part ++ frac_part) with
  | None => Raise ValueError
  | Some n =>
      match n with
      | Zpos m =>
          Ok (SF64div (S754_finite neg m 0)
                      (S754_finite false (Z.to_pos (10 ^ Z.of_nat (length frac_part))) 0))
      | _ => Ok (S754_zero neg)
      end
  end.

End Text.

(** ** JSON values

    What [json.loads] returns: the untyped input of the coercion layer. A
    dict is kept as the list of its items; [dict_get] reads the first item
    of a key. *)

#[local] Set Warnings "-register-all".

Inductive jval :=
  | JNull
  | JBool (b : bool)
  | JInt (z : Z)
  | JFloat (f : float)
  | JStr (s : str)
  | JList (l : list jval)
  | JDict (d : list (str * jval)).

(** [d.get(k)]: the value, or [None]. *)
Fixpoint dict_get (d : list (str * jval)) (k : str) : jval :=
  match d with
  | [] => JNull
  | (k', v) :: d' => if str_eqb k' k then v else dict_get d' k
  end.

(** Truth value of a JSON value. *)
Definition truthy (v : jval) : bool :=
  match v with
  | JNull => false
  | JBool b => b
  | JInt z => negb (Z.eqb z 0)
  | JFloat f => float_truthy f
  | JStr s => match s with [] => false | _ => true end
  | JList l => match l with [] => false | _ => true end
  | JDict d => match d with [] => false | _ => true end
  end.

(** [d.get(k)] for a key written in the source. *)
Definition get_key (d : list (str * jval)) (k : string) : jval := dict_get d (py k).

(** [a or b] *)
Definition py_or (a b : jval) : jval := if truthy a then a else b.

(** ** The data model of [models.py] *)

Record FarmerContext := {
  farmer_name : option str;
  crop : option str;
  stage : str;
  land_size : option float;
  land_unit : option str;
  location_text : option str;
  lat : option float;
  lon : option float;
  sowing_date : option str;
  irrigation : option str;
  soil_type : option str;
  notes : option str;
  language : str;
}.

Record Observation := {
  symptoms : list str;
  pests_seen : list str;
  urgency : str;
}.

Record WeatherSnapshot := {
  weather_fetched_at_utc : str;
  summary : str;
  alerts : list str;
  daily : list jval;
}.

Record WebContext := {
  web_fetched_at_utc : str;
  web_query : str;
  web_snippets : list str;
  web_urls : list str;
}.

Record SchemesContext := {
  schemes_fetched_at_utc : str;
  schemes_query : str;
  schemes_snippets : list str;
  schemes_urls : list str;
}.

Record MarketContext := {
  market_fetched_at_utc : str;
  market_query : str;
  market_location : option str;
  market_crop : option str;
  market_snippets : list str;
  market_urls : list str;
}.

Record ImageAsset := {
  file_path : str;
  telegram_file_id : option str;
  caption : option str;
  created_at_utc : str;
}.

Record ImageDiagnosis := {
  issue : str;
  likely_causes : list str;
  diag_actions_now : list str;
  diag_watch_out_for : list str;
  diag_confidence : str;
  diag_needs_human_review : bool;
}.

Record Advisory := {
  headline : str;
  adv_stage : str;
  actions_now : list str;
  watch_out_for : list str;
  rationale_brief : str;
  safety_notes : list str;
  confidence : str;
  needs_human_review : bool;
}.

(** An entry of the message log, a dict with the keys [role] and
    [content]. Only two things are ever read from it: whether [role] is a
    given string, and the text of [content], or the empty string when it
    is missing or false. So [role] is the string under
    that key ([None] when it is missing or not a string) and [content] is
    that text. *)
Record message := {
  role : option str;
  content : str;
}.

(** The session state. The message log is the one part that is updated in
    place, so its type is a parameter: the list itself in a state taken as
    a value, a reference to a list object in a state that lives on the
    heap. *)
Record GraphState_ (M : Type) := {
  chat_id : str;
  turn_count : Z;
  last_node : option str;
  messages : M;
  context : FarmerContext;
  observation : Observation;
  weather : option WeatherSnapshot;
  web : option WebContext;
  schemes : option SchemesContext;
  market : option MarketContext;
  last_image : option ImageAsset;
  image_diagnosis : option ImageDiagnosis;
  advisory : option Advisory;
}.
Arguments chat_id {M} _.
Arguments turn_count {M} _.
Arguments last_node {M} _.
Arguments messages {M} _.
Arguments context {M} _.
Arguments observation {M} _.
Arguments weather {M} _.
Arguments web {M} _.
Arguments schemes {M} _.
Arguments market {M} _.
Arguments last_image {M} _.
Arguments image_diagnosis {M} _.
Arguments advisory {M} _.

Abbreviation GraphState := (GraphState_ (list message)).

(** [IntakeExtraction] of [graph.py], after validation. *)
Record IntakeExtraction := {
  upd_farmer_name : option str;
  upd_land_size : option float;
  upd_land_unit : option str;
  upd_crop : option str;
  upd_stage : option str;
  upd_location_text : option str;
  upd_sowing_date : option str;
  upd_irrigation : option str;
  upd_soil_type : option str;
  upd_notes : option str;
  upd_symptoms : list str;
  upd_pests_seen : list str;
  upd_urgency : option str;
}.

(** Assignments to one field of a state. *)
Definition set_messages {M M'} (s : GraphState_ M) (m : M') : GraphState_ M' :=
  {| chat_id := chat_id s; turn_count := turn_count s; last_node := last_node s;
     messages := m; context := context s; observation := observation s;
     weather := weather s; web := web s; schemes := schemes s;
     market := market s; last_image := last_image s;
     image_diagnosis := image_diagnosis s; advisory := advisory s |}.

Definition set_turn_count {M} (s : GraphState_ M) (n : Z) : GraphState_ M :=
  {| chat_id := chat_id s; turn_count := n; last_node := last_node s;
     messages := messages s; context := context s; observation := observation s;
     weather := weather s; web := web s; schemes := schemes s;
     market := market s; last_image := last_image s;
     image_diagnosis := image_diagnosis s; advisory := advisory s |}.

Definition set_last_node {M} (s : GraphState_ M) (n : option str) : GraphState_ M :=
  {| chat_id := chat_id s; turn_count := turn_count s; last_node := n;
     messages := messages s; context := context s; observation := observation s;
     weather := weather s; web := web s; schemes := schemes s;
     market := market s; last_image := last_image s;
     image_diagnosis := image_diagnosis s; advisory := advisory s |}.

Definition set_context {M} (s : GraphState_ M) (c : FarmerContext) : GraphState_ M :=
  {| chat_id := chat_id s; turn_count := turn_count s; last_node := last_node s;
     messages := messages s; context := c; observation := observation s;
     weather := weather s; web := web s; schemes := schemes s;
     market := market s; last_image := last_image s;
     image_diagnosis := image_diagnosis s; advisory := advisory s |}.

Definition set_observation {M} (s : GraphState_ M) (o : Observation) : GraphState_ M :=
  {| chat_id := chat_id s; turn_count := turn_count s; last_node := last_node s;
     messages := messages s; context := context s; observation := o;
     weather := weather s; web := web s; schemes := schemes s;
     market := market s; last_image := last_image s;
     image_diagnosis := image_diagnosis s; advisory := advisory s |}.

Definition set_weather {M} (s : GraphState_ M) (w : option WeatherSnapshot) : GraphState_ M :=
  {| chat_id := chat_id s; turn_count := turn_count s; last_node := last_node s;
     messages := messages s; context := context s; observation := observation s;
     weather := w; web := web s; schemes := schemes s;
     market := market s; last_image := last_image s;
     image_diagnosis := image_diagnosis s; advisory := advisory s |}.

Definition set_web {M} (s : GraphState_ M) (w : option WebContext) : GraphState_ M :=
  {| chat_id := chat_id s; turn_count := turn_count s; last_node := last_node s;
     messages := messages s; context := context s; observation := observation s;
     weather := weather s; web := w; schemes := schemes s;
     market := market s; last_image := last_image s;
     image_diagnosis := image_diagnosis s; advisory := advisory s |}.

Definition set_schemes {M} (s : GraphState_ M) (w : option SchemesContext) : GraphState_ M :=
  {| chat_id := chat_id s; turn_count := turn_count s; last_node := last_node s;
     messages := messages s; context := context s; observation := observation s;
     weather := weather s; web := web s; schemes := w;
     market := market s; last_image := last_image s;
     image_diagnosis := image_diagnosis s; advisory := advisory s |}.

Definition set_market {M} (s : GraphState_ M) (w : option MarketContext) : GraphState_ M :=
  {| chat_id := chat_id s; turn_count := turn_count s; last_node := last_node s;
     messages := messages s; context := context s; observation := observation s;
     weather := weather s; web := web s; schemes := schemes s;
     market := w; last_image := last_image s;
     image_diagnosis := image_diagnosis s; advisory := advisory s |}.

Definition set_image_diagnosis {M} (s : GraphState_ M) (d : option ImageDiagnosis) : GraphState_ M :=
  {| chat_id := chat_id s; turn_count := turn_count s; last_node := last_node s;
     messages := messages s; context := context s; observation := observation s;
     weather := weather s; web := web s; schemes := schemes s;
     market := market s; last_image := last_image s;
     image_diagnosis := d; advisory := advisory s |}.

Definition set_advisory {M} (s : GraphState_ M) (a : option Advisory) : GraphState_ M :=
  {| chat_id := chat_id s; turn_count := turn_count s; last_node := last_node s;
     messages := messages s; context := context s; observation := observation s;
     weather := weather s; web := web s; schemes := schemes s;
     market := market s; last_image := last_image s;
     image_diagnosis := image_diagnosis s; advisory := a |}.

(** [c.model_copy(update={...})] on the context. *)
Definition set_stage (c : FarmerContext) (st : str) : FarmerContext :=
  {| farmer_name := farmer_name c; crop := crop c; stage := st;
     land_size := land_size c; land_unit := land_unit c;
     location_text := location_text c; lat := lat c; lon := lon c;
     sowing_date := sowing_date c; irrigation := irrigation c;
     soil_type := soil_type c; notes := notes c; language := language c |}.

Definition set_position (c : FarmerContext) (la lo : option float) (loc : option str)
    : FarmerContext :=
  {| farmer_name := farmer_name c; crop := crop c; stage := stage c;
     land_size := land_size c; land_unit := land_unit c;
     location_text := loc; lat := la; lon := lo;
     sowing_date := sowing_date c; irrigation := irrigation c;
     soil_type := soil_type c; notes := notes c; language := language c |}.

(** The defaults of the models. *)
Definition FarmerContext_default : FarmerContext :=
  {| farmer_name := None; crop := None; stage := py "unknown";
     land_size := None; land_unit := None; location_text := None;
     lat := None; lon := None; sowing_date := None; irrigation := None;
     soil_type := None; notes := None; language := py "en" |}.

Definition Observation_default : Observation :=
  {| symptoms := []; pests_seen := []; urgency := py "low" |}.

Definition GraphState_default : GraphState :=
  {| chat_id := []; turn_count := 0; last_node := None; messages := [];
     context := FarmerContext_default; observation := Observation_default;
     weather := None; web := None; schemes := None; market := None;
     last_image := None; image_diagnosis := None; advisory := None |}.

(** ** The response coercion layer *)

Section Coercion.

Variable rt : Runtime.

(** [str(v)] of a value that is not a string (the interpreter's rendering
    of numbers, [None], booleans, lists and dicts). *)
Variable py_repr : jval -> str.

Definition py_str (v : jval) : str :=
  match v with
  | JStr s => s
  | _ => py_repr v
  end.

(** [[str(x).strip() for x in l if str(x).strip()]] *)
Definition stripped_items (l : list jval) : list str :=
  filter (fun s => nonempty s = true) (map (fun x => strip rt (py_str x)) l).

(** [[x.strip() for x in parts if x.strip()]] *)
Definition stripped_parts (parts : list str) : list str :=
  filter (fun s => nonempty s = true) (map (strip rt) parts).

(** The three statements that bring a list field of the advisory to a
    list: [v = data.get(k) or []], a string is split at newlines, anything
    that is not a list becomes the empty list. *)
Definition advisory_list (data : list (str * jval)) (k : string) : list jval :=
  match py_or (get_key data k) (JList []) with
  | JStr s => map JStr (stripped_parts (split_on is_newline s))
  | JList l => l
  | _ => []
  end.

(** The confidence, the same in both coercers. *)
Definition coerce_confidence (data : list (str * jval)) : str :=
  let conf := lower rt (strip rt (py_str (py_or (get_key data "confidence") (JStr (py "medium"))))) in
  if str_in conf CONFIDENCE_LEVELS then conf else py "medium".

(** The review flag, the same in both coercers. *)
Definition coerce_needs_review (data : list (str * jval)) : bool :=
  match get_key data "needs_human_review" with
  | JStr s => str_in (lower rt (strip rt s)) (map py ["true"; "yes"; "1"]%string)
  | JBool b => b
  | _ => false
  end.

(** [safe_parse_advisory] of [models.py] *)
Definition safe_parse_advisory (data : jval) : result Advisory :=
  match data with
  | JDict d =>
      let headline := strip rt (py_str (py_or (get_key d "headline") (JStr []))) in
      let headline := if nonempty headline then headline else py "Advisory update" in
      let stage := lower rt (strip rt (py_str (py_or (get_key d "stage") (JStr (py "unknown"))))) in
      let actions_now := take 5 (stripped_items (advisory_list d "actions_now")) in
      let watch := take 3 (stripped_items (advisory_list d "watch_out_for")) in
      let conf := coerce_confidence d in
      let needs := coerce_needs_review d in
      let rationale := strip rt (py_str (py_or (get_key d "rationale_brief") (JStr []))) in
      let rationale := if (220 <? length rationale)%nat then take 220 rationale else rationale in
      let safety := take 2 (stripped_items (advisory_list d "safety_notes")) in
      Ok {| headline := headline;
            adv_stage := if nonempty stage then stage else py "unknown";
            actions_now := actions_now;
            watch_out_for := watch;
            rationale_brief := rationale;
            safety_notes := safety;
            confidence := conf;
            needs_human_review := needs |}
  | _ => Raise ValueError
  end.

(** The delimiters of [_split_lines_to_list]: newline, bullet, hyphen. *)
Definition is_line_delimiter (c : char) : bool :=
  is_newline c || is_char "•" c || is_char "-" c.

(** [_split_lines_to_list] of [graph.py] *)
Definition _split_lines_to_list (v : jval) : list str :=
  match v with
  | JNull => []
  | JList l => stripped_items l
  | JStr s => stripped_parts (split_runs is_line_delimiter false (strip rt s))
  | _ => []
  end.

(** The loop of [_coerce_image_diagnosis] over the keys that may hold the
    issue: the first one with a non-blank string. *)
Fixpoint first_issue (data : list (str * jval)) (keys : list str) : option str :=
  match keys with
  | [] => None
  | k :: keys' =>
      match dict_get data k with
      | JStr s => if nonempty (strip rt s) then Some (strip rt s) else first_issue data keys'
      | _ => first_issue data keys'
      end
  end.

Definition UNCLEAR_ISSUE : str :=
  py "Unclear issue from image (needs clearer photo or more details).".

(** [_coerce_image_diagnosis] of [graph.py] *)
Definition _coerce_image_diagnosis (data : list (str * jval)) : ImageDiagnosis :=
  let issue :=
    match first_issue data (map py ["issue"; "problem"; "disease"; "diagnosis";
                                    "issue_detected"; "observation"]%string) with
    | Some s => if nonempty s then s else UNCLEAR_ISSUE
    | None => UNCLEAR_ISSUE
    end in
  {| issue := issue;
     likely_causes :=
       take 3 (_split_lines_to_list (py_or (get_key data "likely_causes") (get_key data "causes")));
     diag_actions_now :=
       take 3 (_split_lines_to_list
                 (py_or (py_or (get_key data "actions_now") (get_key data "actions")) (get_key data "remedy")));
     diag_watch_out_for :=
       take 2 (_split_lines_to_list
                 (py_or (py_or (get_key data "watch_out_for") (get_key data "precautions")) (get_key data "watch")));
     diag_confidence := coerce_confidence data;
     diag_needs_human_review := coerce_needs_review data |}.

End Coercion.

(** ** The context merge engine, the staleness tests and the routing *)

Definition is_some {A} (o : option A) : bool :=
  match o with Some _ => true | None => false end.

Definition nonempty_list {A} (l : list A) : bool :=
  match l with [] => false | _ => true end.

(** Truth value of an optional string: [None] and the empty string are false. *)
Definition opt_truthy (o : option str) : bool :=
  match o with Some (_ :: _) => true | _ => false end.

(** The defaults of the keyword arguments of the staleness tests. *)
Definition WEATHER_MAX_AGE_HOURS : Z := 6.
Definition WEB_MAX_AGE_HOURS : Z := 24.
Definition SCHEMES_MAX_AGE_DAYS : Z := 7.
Definition MARKET_MAX_AGE_HOURS : Z := 12.

(** The dict [order] of [_merge_observation]; a missing key is a [KeyError]. *)
Definition order (u : str) : result Z :=
  if str_eqb u (py "low") then Ok 0%Z
  else if str_eqb u (py "medium") then Ok 1%Z
  else if str_eqb u (py "high") then Ok 2%Z
  else Raise KeyError.

Section Orchestrator.

Variable rt : Runtime.

(** One scalar field of [_merge_context]:
    [if upd.f and upd.f.strip(): data["f"] = g(upd.f.strip())]. *)
Definition overwrite (g : str -> str) (old upd : option str) : option str :=
  match upd with
  | Some s => if nonempty s && nonempty (strip rt s) then Some (g (strip rt s)) else old
  | None => old
  end.

(** [_merge_context]. The dump of the old context and the validation of
    the assigned dict are the identity on a context. *)
Definition _merge_context (old : FarmerContext) (upd : IntakeExtraction) : FarmerContext :=
  {| farmer_name := overwrite id (farmer_name old) (upd_farmer_name upd);
     land_size :=
       match upd_land_size upd with
       | Some x => Some x
       | None => land_size old
       end;
     land_unit := overwrite id (land_unit old) (upd_land_unit upd);
     crop := overwrite (lower rt) (crop old) (upd_crop upd);
     stage :=
       if present rt (upd_stage upd) then
         let stage' := lower rt (strip rt (default [] (upd_stage upd))) in
         if str_in stage' _ALLOWED_STAGES then stage' else stage old
       else stage old;
     location_text := overwrite id (location_text old) (upd_location_text upd);
     lat := lat old;
     lon := lon old;
     sowing_date := overwrite id (sowing_date old) (upd_sowing_date upd);
     irrigation := overwrite id (irrigation old) (upd_irrigation upd);
     soil_type := overwrite id (soil_type old) (upd_soil_type upd);
     notes := overwrite id (notes old) (upd_notes upd);
     language := language old |}.

(** One round of the loops of [_merge_observation]: the stripped item is
    appended unless it is empty or already there, compared in lower case. *)
Definition add_unique (acc : list str) (s : str) : list str :=
  let s := strip rt s in
  if nonempty s && negb (str_in (lower rt s) (map (lower rt) acc))
  then acc ++ [s] else acc.

(** The urgency of [_merge_observation]. *)
Definition merge_urgency (old : str) (upd : option str) : result str :=
  if opt_truthy upd then
    let u := lower rt (strip rt (default [] upd)) in
    if str_in u URGENCY_LEVELS then
      rbind (order u) (fun ou =>
      rbind (order old) (fun oold =>
      Ok (if (oold <? ou)%Z then u else old)))
    else Ok old
  else Ok old.

(** [_merge_observation] *)
Definition _merge_observation (old : Observation) (upd : IntakeExtraction)
    : result Observation :=
  let symptoms := fold_left add_unique (upd_symptoms upd) (symptoms old) in
  let pests := fold_left add_unique (upd_pests_seen upd) (pests_seen old) in
  rbind (merge_urgency (urgency old) (upd_urgency upd)) (fun urgency =>
  Ok {| symptoms := symptoms; pests_seen := pests; urgency := urgency |}).

(** The last two lines the four staleness tests share:
    [dt = _parse_iso_dt(fetched)] and
    [True if not dt else (_utc_now() - dt) > max_age]. Subtracting a naive
    datetime from the aware [now] is a [TypeError]. *)
Definition older_than (now : Z) (fetched : str) (max_age : Z) : result bool :=
  match fromisoformat rt fetched with
  | None => Ok true
  | Some (Aware t) => Ok (max_age <? now - t)%Z
  | Some (Naive _) => Raise TypeError
  end.

(** The staleness tests; [now] is what [_utc_now()] reads, in microseconds. *)
Definition _is_weather_stale (now : Z) (state : GraphState) (max_age_hours : Z)
    : result bool :=
  match weather state with
  | None => Ok true
  | Some w => older_than now (weather_fetched_at_utc w) (timedelta_hours max_age_hours)
  end.

Definition _is_web_stale (now : Z) (state : GraphState) (max_age_hours : Z)
    : result bool :=
  match web state with
  | None => Ok true
  | Some w => older_than now (web_fetched_at_utc w) (timedelta_hours max_age_hours)
  end.

Definition _is_schemes_stale (now : Z) (state : GraphState) (max_age_days : Z)
    : result bool :=
  match schemes state with
  | None => Ok true
  | Some w => older_than now (schemes_fetched_at_utc w) (timedelta_days max_age_days)
  end.

Definition _is_market_stale (now : Z) (state : GraphState) (max_age_hours : Z)
    : result bool :=
  match market state with
  | None => Ok true
  | Some w => older_than now (market_fetched_at_utc w) (timedelta_hours max_age_hours)
  end.

Definition is_user (m : message) : bool :=
  match role m with Some r => str_eqb r (py "user") | None => false end.

(** [_last_user_text] *)
Definition _last_user_text (state : GraphState) : str :=
  match find is_user (rev (messages state)) with
  | Some m => strip rt (content m)
  | None => []
  end.

Definition _is_action_message (text : str) : bool :=
  nonempty text && starts_with ACTION_PREFIX text.

Definition _extract_stage_from_text (text : str) : option str :=
  if negb (nonempty text) then None else
  let m :=
    match re_match (_STAGE_UPDATE_RE rt) text with
    | Some m => Some m
    | None => re_match (_STAGE_INLINE_RE rt) text
    end in
  match m with
  | None => None
  | Some m =>
      let stage := lower rt (strip rt (group 1 m)) in
      if str_in stage _ALLOWED_STAGES then Some stage else None
  end.

Definition _is_stage_update_message (text : str) : bool :=
  is_some (_extract_stage_from_text text).

Definition _user_wants_crop_reco (text : str) : bool :=
  if negb (nonempty text) then false else
  let t := lower rt (strip rt text) in
  if str_eqb t ACTION_CROP_RECO then true
  else existsb (fun k => contains k t) CROP_RECO_PHRASES.

Definition _wants_schemes (state : GraphState) : bool :=
  str_in (_last_user_text state) [ACTION_SCHEMES; ACTION_DIGEST].

Definition _wants_market (state : GraphState) : bool :=
  str_in (_last_user_text state) [ACTION_MARKET; ACTION_DIGEST].

Definition _wants_buy (state : GraphState) : bool :=
  str_eqb (_last_user_text state) ACTION_BUY.

(** [c.location_text and c.location_text.strip()] as a condition *)
Definition has_location_text (c : FarmerContext) : bool := present rt (location_text c).

Definition _needs_profile_questions (state : GraphState) : bool :=
  let c := context state in
  if negb (opt_truthy (farmer_name c)) then true
  else if negb (both_truthy (lat c) (lon c)) && negb (has_location_text c) then true
  else if negb (opt_truthy (crop c)) then true
  else if str_eqb (stage c) (py "unknown") then true
  else if negb (is_some (land_size c)) then true
  else false.

Definition _has_location (state : GraphState) : bool :=
  let c := context state in
  both_truthy (lat c) (lon c) || has_location_text c.

(** [a and b] where [b] may raise and is only evaluated when [a] holds. *)
Definition and_then (a : bool) (b : result bool) : result bool :=
  if a then b else Ok false.

(** [_route]: the name of the next step. *)
Definition _route (now : Z) (state : GraphState) : result str :=
  let c := context state in
  let last_user := _last_user_text state in
  if str_eqb last_user ACTION_BUY then Ok (py "buy")
  else if str_eqb last_user ACTION_CROP_RECO && _has_location state then Ok (py "crop_reco")
  else if _is_stage_update_message last_user then Ok (py "advice")
  else if negb (opt_truthy (crop c)) && _has_location state
          && negb (str_eqb last_user ACTION_DIGEST) then
    if negb (bool_decide (last_node state = Some (py "crop_reco")))
       || _user_wants_crop_reco last_user
    then Ok (py "crop_reco") else Ok (py "ask")
  else if is_some (last_image state) && negb (is_some (image_diagnosis state)) then
    Ok (py "vision")
  else if _needs_profile_questions state && negb (str_eqb last_user ACTION_DIGEST) then
    Ok (py "ask")
  else
    rbind (and_then (both_truthy (lat c) (lon c))
                    (_is_weather_stale now state WEATHER_MAX_AGE_HOURS)) (fun r7 =>
    if r7 then Ok (py "weather") else
    rbind (rbind (and_then (nonempty_list (symptoms (observation state)))
                           (_is_web_stale now state WEB_MAX_AGE_HOURS)) (fun a =>
           if a then Ok true
           else and_then (str_eqb last_user ACTION_DIGEST)
                         (_is_web_stale now state WEB_MAX_AGE_HOURS))) (fun r8 =>
    if r8 then Ok (py "web") else
    rbind (and_then (_wants_schemes state)
                    (_is_schemes_stale now state SCHEMES_MAX_AGE_DAYS)) (fun r9 =>
    if r9 then Ok (py "schemes") else
    rbind (and_then (_wants_market state)
                    (_is_market_stale now state MARKET_MAX_AGE_HOURS)) (fun r10 =>
    if r10 then Ok (py "market") else Ok (py "advice"))))).

End Orchestrator.

(** ** The world outside the program

    The providers of [tools.py], the language model, the file system, the
    clock and the JSON parser, as oracles. Each takes the number of steps
    the graph has run so far in the turn, so that an oracle may answer the
    same call differently at different times. [Raise ToolError] is a
    provider failure. *)

Record Env := {
  (** what [_utc_now()] reads during a step, in microseconds *)
  clock : nat -> Z;
  (** [tools.geocode(location_text)] *)
  geocode : nat -> str -> result (option float * option float * str);
  (** [tools.weather(lat, lon)] *)
  tools_weather : nat -> float -> float -> result WeatherSnapshot;
  (** [tools.web(query, time_range=...)] *)
  tools_web : nat -> str -> str -> result WebContext;
  (** [tools.schemes(location_text, crop)] *)
  tools_schemes : nat -> str -> option str -> result WebContext;
  (** [tools.market_prices(location_text, crop)] *)
  tools_market_prices : nat -> str -> option str -> result WebContext;
  (** [tools.buy_inputs(location_text, crop)] *)
  tools_buy_inputs : nat -> str -> str -> result WebContext;
  (** [_llm_json] on the intake prompt, built from the context, the
      observation and the message, then [IntakeExtraction.model_validate] *)
  llm_intake : nat -> FarmerContext -> Observation -> str -> result IntakeExtraction;
  (** [_llm_json] on the crop recommendation prompt, built from the state,
      the location text and the two lists of snippets *)
  llm_crop_reco : nat -> GraphState -> str -> list str -> list str
                  -> result (list (str * jval));
  (** [_llm_json] on the advice prompt, built from the state *)
  llm_advice : nat -> GraphState -> result (list (str * jval));
  (** [_data_url_from_file(path)] *)
  read_image : nat -> str -> result str;
  (** the text the model answers to the image prompt, built from the state
      and the data URL: [resp.output_text], or the empty string *)
  llm_vision : nat -> GraphState -> str -> result str;
  (** [json.loads] *)
  json_loads : str -> result jval;
}.

(** ** Formatting *)

(** [sep.join(parts)] *)
Fixpoint join (sep : str) (parts : list str) : str :=
  match parts with
  | [] => []
  | [p] => p
  | p :: ps => p ++ sep ++ join sep ps
  end.

(** The decimal digits of a natural number, most significant first. *)
Fixpoint digits_of (fuel : nat) (n : N) (acc : str) : str :=
  match fuel with
  | O => acc
  | S fuel' =>
      let acc' := (48 + n mod 10)%N :: acc in
      if (n <? 10)%N then acc' else digits_of fuel' (n / 10)%N acc'
  end.

Definition decimal (n : N) : str := digits_of (S (N.to_nat (N.log2 n))) n [].

Definition pad_zeros (width : nat) (s : str) : str :=
  repeat 48%N (width - length s) ++ s.

(** [f"{x:.4f}"]: the decimal with four places nearest to the value the
    float holds, ties to even. *)
Definition format_4f (x : float) : str :=
  match x with
  | S754_nan => py "nan"
  | S754_infinity s => if s then py "-inf" else py "inf"
  | S754_zero s => if s then py "-0.0000" else py "0.0000"
  | S754_finite s m e =>
      let num := (Zpos m * 10000 * 2 ^ Z.max e 0)%Z in
      let den := (2 ^ Z.max (- e) 0)%Z in
      let q := (num / den)%Z in
      let r := (num mod den)%Z in
      let rounded :=
        match (2 * r ?= den)%Z with
        | Lt => q
        | Gt => (q + 1)%Z
        | Eq => if Z.even q then q else (q + 1)%Z
        end in
      (if s then py "-" else [])
        ++ decimal (Z.to_N (rounded / 10000))
        ++ py "."
        ++ pad_zeros 4 (decimal (Z.to_N (rounded mod 10000)))
  end.

(** ** The message log *)

Definition user_message (text : str) : message :=
  {| role := Some (py "user"); content := text |}.

Definition assistant_message (text : str) : message :=
  {| role := Some (py "assistant"); content := text |}.

(** [ms[-k:]] *)
Definition last_items {A} (k : nat) (ms : list A) : list A :=
  match k with
  | O => ms
  | S _ => drop (length ms - k) ms
  end.

(** The list [compact_messages] leaves in [self.messages]. *)
Definition compacted (keep_last : nat) (ms : list message) : list message :=
  if (keep_last <? length ms)%nat then last_items keep_last ms else ms.

Definition KEEP_LAST : nat := 16.

(** ** The graph of [_build_compiled_graph] *)

Inductive node :=
  | Intake | Plan | Ask | CropReco | Buy | Vision | Weather | Web | Schemes
  | Market | Advice.

(** The names under which the nodes are added to the graph. *)
Definition node_name (n : node) : str :=
  match n with
  | Intake => py "intake" | Plan => py "plan" | Ask => py "ask"
  | CropReco => py "crop_reco" | Buy => py "buy" | Vision => py "vision"
  | Weather => py "weather" | Web => py "web" | Schemes => py "schemes"
  | Market => py "market" | Advice => py "advice"
  end.

(** The mapping of the conditional edges leaving [plan]. *)
Definition route_edges (name : str) : option node :=
  find (fun n => str_eqb (node_name n) name)
       [Ask; CropReco; Buy; Vision; Weather; Web; Schemes; Market; Advice].

(** The fixed edges; [None] is [END]. [plan] has no fixed edge. *)
Definition edge (n : node) : option node :=
  match n with
  | Intake => Some Plan
  | Vision | Weather | Web | Schemes | Market => Some Plan
  | Plan | CropReco | Buy | Ask | Advice => None
  end.

(** A step that ends the turn. *)
Definition terminal (n : node) : bool :=
  match n with
  | Ask | CropReco | Buy | Advice => true
  | _ => false
  end.

(** The number of steps after which LangGraph gives up on a run with
    [GraphRecursionError]: its default, which the program does not change. *)
Definition RECURSION_LIMIT : nat := 25.

(** ** [tools.py]: coordinates written in a message *)

Section Tools.

Variable rt : Runtime.

(** [extract_lat_lon] *)
Definition extract_lat_lon (text : str) : option float * option float :=
  if negb (nonempty text) then (None, None) else
  match re_search (_LATLON_RE rt) (strip rt text) with
  | None => (None, None)
  | Some m =>
      match float_of_numeral rt (group LAT m), float_of_numeral rt (group LON m) with
      | Ok lat, Ok lon =>
          if negb (SF64leb (float_of_Z (-90)) lat && SF64leb lat (float_of_Z 90)
                   && SF64leb (float_of_Z (-180)) lon && SF64leb lon (float_of_Z 180))
          then (None, None)
          else (Some lat, Some lon)
      | _, _ => (None, None)
      end
  end.

End Tools.

(** ** The step executors *)

Section Graph.

Variable rt : Runtime.
Variable py_repr : jval -> str.
Variable env : Env.

(** [_t] *)
Definition _t (lang en hi mr : str) : str :=
  if str_eqb lang (py "hi") then hi
  else if str_eqb lang (py "mr") then mr
  else en.

(** [en if lang == "en" else (hi if lang == "hi" else mr)] of [ask_node] *)
Definition ask_text (lang : str) (en hi mr : string) : str :=
  if str_eqb lang (py "en") then py en
  else if str_eqb lang (py "hi") then py hi
  else py mr.

(** [old or new] for a coordinate of the context *)
Definition float_or (old : option float) (new : float) : option float :=
  match old with
  | Some x => if float_truthy x then Some x else Some new
  | None => Some new
  end.

(** [o] or the empty string, for an optional string *)
Definition or_empty (o : option str) : str := default [] o.

Definition intake_node (i : nat) (state : GraphState) : result GraphState :=
  let last_node' := Some (py "intake") in
  let last_user := _last_user_text rt state in
  let stage_direct := _extract_stage_from_text rt last_user in
  if opt_truthy stage_direct then
    Ok (set_last_node
          (set_context state (set_stage (context state) (or_empty stage_direct)))
          last_node')
  else if _is_action_message last_user then
    Ok (set_last_node state last_node')
  else
    let c := context state in
    let ctx :=
      match extract_lat_lon rt last_user with
      | (Some la, Some lo) =>
          set_position c (float_or (lat c) la) (float_or (lon c) lo) (location_text c)
      | _ => c
      end in
    match llm_intake env i ctx (observation state) last_user with
    | Raise _ => Ok (set_last_node (set_context state ctx) last_node')
    | Ok upd =>
        let ctx' := _merge_context rt ctx upd in
        rbind (_merge_observation rt (observation state) upd) (fun obs' =>
        Ok (set_last_node (set_observation (set_context state ctx') obs') last_node'))
    end.

Definition plan_node (state : GraphState) : GraphState :=
  set_last_node state (Some (py "plan")).

(** The question [ask_node] picks. *)
Definition ask_question (c : FarmerContext) : str :=
  let lang := language c in
  if negb (opt_truthy (farmer_name c)) then
    ask_text lang "Name?" "नाम?" "नाव?"
  else if negb (both_truthy (lat c) (lon c)) && negb (has_location_text rt c) then
    ask_text lang "Location (city/village or lat,lon)?"
      "स्थान (गांव/शहर या lat,lon)?" "ठिकाण (गाव/शहर किंवा lat,lon)?"
  else if negb (opt_truthy (crop c)) then
    ask_text lang "Pick one crop from the suggestions (reply: Crop: ___)."
      "सुझाव से एक फसल चुनें (उत्तर: Crop: ___)."
      "सुचनांमधून एक पीक निवडा (उत्तर: Crop: ___)."
  else if str_eqb (stage c) (py "unknown") then
    ask_text lang
      "Stage? (sowing/germination/vegetative/flowering/fruiting/maturity/harvest)"
      "चरण? (बुवाई/अंकुरण/वृद्धि/फूल/फल/पकना/कटाई)"
      "अवस्था? (पेरणी/अंकुरण/वाढ/फुलोरा/फळ/पक्वता/कापणी)"
  else if negb (is_some (land_size c)) then
    ask_text lang "Land size? (acres/hectare)" "जमीन? (एकड़/हेक्टेयर)" "जमीन? (एकर/हेक्टर)"
  else
    ask_text lang "Send symptoms or photo." "लक्षण या फोटो भेजें।" "लक्षणं किंवा फोटो पाठवा.".

Definition ask_node (state : GraphState) : GraphState :=
  let msg := ask_question (context state) in
  let ms := compacted KEEP_LAST (messages state ++ [assistant_message msg]) in
  set_advisory (set_last_node (set_messages state ms) (Some (py "ask"))) None.

(** The location a step writes into its queries: the location text, or
    the coordinates with four decimals. *)
Definition location_or_coordinates (c : FarmerContext) : str :=
  let loc := strip rt (or_empty (location_text c)) in
  if negb (nonempty loc) && both_truthy (lat c) (lon c) then
    match lat c, lon c with
    | Some la, Some lo => format_4f la ++ py "," ++ format_4f lo
    | _, _ => loc
    end
  else loc.

Definition crop_reco_node (i : nat) (state : GraphState) : result GraphState :=
  let last_node' := Some (py "crop_reco") in
  let c0 := context state in
  (* geocoding, when only a location text is known *)
  rbind
    (if negb (both_truthy (lat c0) (lon c0)) && opt_truthy (location_text c0) then
       match geocode env i (or_empty (location_text c0)) with
       | Ok (Some la, Some lo, resolved) => Ok (set_position c0 (Some la) (Some lo) (Some resolved))
       | Ok _ => Ok c0
       | Raise ToolError => Ok c0
       | Raise e => Raise e
       end
     else Ok c0) (fun c =>
  let s := set_context state c in
  let loc_text := location_or_coordinates c in
  (* weather, when the coordinates are known and the snapshot is stale *)
  rbind (and_then (both_truthy (lat c) (lon c))
                  (_is_weather_stale rt (clock env i) s WEATHER_MAX_AGE_HOURS)) (fun stale =>
  rbind
    (if stale then
       match lat c, lon c with
       | Some la, Some lo =>
           match tools_weather env i la lo with
           | Ok snap => Ok (Some snap)
           | Raise ToolError => Ok (weather s)
           | Raise e => Raise e
           end
       | _, _ => Ok (weather s)
       end
     else Ok (weather s)) (fun weather' =>
  let s := set_weather s weather' in
  (* the two web searches *)
  rbind
    (match tools_web env i (py "typical soil pH in " ++ loc_text ++ py " agriculture") (py "year") with
     | Ok soil_ctx => Ok (take 3 (web_snippets soil_ctx))
     | Raise ToolError => Ok []
     | Raise e => Raise e
     end) (fun soil_snips =>
  rbind
    (match tools_web env i (py "best crops suitable for climate in " ++ loc_text ++ py " India") (py "year") with
     | Ok crops_ctx => Ok (take 4 (web_snippets crops_ctx), Some crops_ctx)
     | Raise ToolError => Ok ([], web s)
     | Raise e => Raise e
     end) (fun '(crop_snips, web') =>
  let s := set_web s web' in
  (* the recommendation *)
  match rbind (llm_crop_reco env i s loc_text soil_snips crop_snips)
              (fun data => safe_parse_advisory rt py_repr (JDict data)) with
  | Raise _ =>
      let ms := messages s ++ [assistant_message (py "Share location and ask: recommend crops.")] in
      Ok (set_last_node (set_advisory (set_messages state ms) None) last_node')
  | Ok adv =>
      let ms := compacted KEEP_LAST (messages s ++ [assistant_message (headline adv)]) in
      Ok (set_last_node
            (set_messages
               (set_advisory (set_web (set_weather (set_context state c) weather') web') (Some adv))
               ms)
            last_node')
  end))))).

(** The dict [buy_node] hands to [safe_parse_advisory]. *)
Definition buy_data (c : FarmerContext) (headline : str) (actions watch : list str)
    (rationale : str) (conf : string) : jval :=
  JDict [ (py "headline", JStr headline);
          (py "stage", JStr (if nonempty (stage c) then stage c else py "pre_sowing"));
          (py "actions_now", JList (map JStr actions));
          (py "watch_out_for", JList (map JStr watch));
          (py "safety_notes", JList []);
          (py "rationale_brief", JStr rationale);
          (py "confidence", JStr (py conf));
          (py "needs_human_review", JBool false) ].

(** The end of every branch of [buy_node]: the advisory is stored, its
    headline is appended to the log, the log is compacted. *)
Definition buy_reply (state : GraphState) (data : jval) : result GraphState :=
  rbind (safe_parse_advisory rt py_repr data) (fun adv =>
  let ms := compacted KEEP_LAST (messages state ++ [assistant_message (headline adv)]) in
  Ok (set_last_node (set_messages (set_advisory state (Some adv)) ms) (Some (py "buy")))).

(** The bullets of [buy_node]: two links for each label. *)
Definition buy_bullets (seed_lbl fert_lbl prot_lbl : str) (urls : list str) : list str :=
  map (fun '(lbl, u) => lbl ++ py ": " ++ u)
      (zip [seed_lbl; seed_lbl; fert_lbl; fert_lbl; prot_lbl; prot_lbl] urls).

Definition buy_node (i : nat) (state : GraphState) : result GraphState :=
  let c := context state in
  let lang := language c in
  let crop := lower rt (strip rt (or_empty (crop c))) in
  let loc := location_or_coordinates c in
  if negb (nonempty crop) then
    buy_reply state
      (buy_data c
         (_t lang (py "Set crop first (reply: Crop: rice) then tap Buy Inputs.")
                  (py "पहले फसल सेट करें (उत्तर: Crop: rice) फिर खरीद लिंक दबाएँ।")
                  (py "आधी पीक सेट करा (उत्तर: Crop: rice) मग खरेदी लिंक दाबा."))
         [] [] [] "high")
  else if negb (nonempty loc) then
    buy_reply state
      (buy_data c
         (_t lang (py "Set location first (send city/village or share GPS), then tap Buy Inputs.")
                  (py "पहले स्थान सेट करें (शहर/गाँव या GPS भेजें) फिर खरीद लिंक दबाएँ।")
                  (py "आधी ठिकाण सेट करा (शहर/गाव किंवा GPS) मग खरेदी लिंक दाबा."))
         [] [] [] "high")
  else
    match tools_buy_inputs env i loc crop with
    | Raise ToolError =>
        buy_reply state
          (buy_data c
             (_t lang (py "Buying links not available right now. Try again in a minute.")
                      (py "खरीद लिंक अभी उपलब्ध नहीं। 1 मिनट बाद फिर प्रयास करें।")
                      (py "खरेदी लिंक्स आत्ता मिळत नाहीत. 1 मिनिटाने पुन्हा प्रयत्न करा."))
             [] [] [] "medium")
    | Raise e => Raise e
    | Ok ctx =>
        let seed_lbl := _t lang (py "Seeds") (py "बीज") (py "बियाणे") in
        let fert_lbl := _t lang (py "Fertilizer") (py "उर्वरक") (py "खते") in
        let prot_lbl := _t lang (py "Crop protection") (py "फसल सुरक्षा") (py "पीक संरक्षण") in
        let note_lbl := _t lang (py "Tip: compare prices + seller ratings.")
                                (py "टिप: कीमत + रेटिंग तुलना करें।")
                                (py "टिप: किंमत + रेटिंग तुलना करा.") in
        let urls := take 6 (web_urls ctx) in
        let bullets := buy_bullets seed_lbl fert_lbl prot_lbl urls in
        let headline :=
          _t lang (py "Buy inputs for " ++ title rt crop ++ py " (" ++ loc ++ py ")")
                  (title rt crop ++ py " के लिए खरीद लिंक (" ++ loc ++ py ")")
                  (title rt crop ++ py " साठी खरेदी लिंक्स (" ++ loc ++ py ")") in
        buy_reply state
          (buy_data c headline
             (if nonempty_list (take 6 bullets) then take 6 bullets else [note_lbl])
             [_t lang (py "Avoid unknown sellers; check expiry date.")
                      (py "अनजान विक्रेता से बचें; एक्सपायरी देखें।")
                      (py "अनोळखी विक्रेते टाळा; एक्सपायरी तपासा.")]
             note_lbl "high")
    end.

Definition weather_node (i : nat) (state : GraphState) : result GraphState :=
  let last_node' := Some (py "weather") in
  let c0 := context state in
  rbind
    (if negb (both_truthy (lat c0) (lon c0)) && opt_truthy (location_text c0) then
       match geocode env i (or_empty (location_text c0)) with
       | Ok (Some la, Some lo, resolved) => Ok (set_position c0 (Some la) (Some lo) (Some resolved))
       | Ok _ => Ok c0
       | Raise ToolError => Ok c0
       | Raise e => Raise e
       end
     else Ok c0) (fun c =>
  let unchanged := Ok (set_last_node (set_context state c) last_node') in
  if negb (both_truthy (lat c) (lon c)) then unchanged
  else
    match lat c, lon c with
    | Some la, Some lo =>
        match tools_weather env i la lo with
        | Ok snap => Ok (set_last_node (set_context (set_weather state (Some snap)) c) last_node')
        | Raise ToolError => unchanged
        | Raise e => Raise e
        end
    | _, _ => unchanged
    end).

(** The query of [web_node]. *)
Definition web_query_of (state : GraphState) : str :=
  let c := context state in
  let crop := or_empty (crop c) in
  let loc := strip rt (or_empty (location_text c)) in
  let symptoms := join (py ", ") (take 2 (symptoms (observation state))) in
  if negb (nonempty crop) then
    strip rt (py "best farming practices " ++ loc ++ py " seasonal crops kharif rabi soil pH")
  else
    strip rt (crop ++ py " " ++ stage c ++ py " symptoms " ++ symptoms
              ++ py " best practice " ++ loc).

Definition web_node (i : nat) (state : GraphState) : result GraphState :=
  let last_node' := Some (py "web") in
  match tools_web env i (web_query_of state) (py "month") with
  | Ok ctx => Ok (set_last_node (set_web state (Some ctx)) last_node')
  | Raise ToolError => Ok (set_last_node state last_node')
  | Raise e => Raise e
  end.

(** [schemes_node]. Without a location text it returns the snapshot the
    state has. Otherwise it calls [tools.schemes] and returns what that
    returns, a [WebContext], under the key [schemes]. No conversion takes
    place: the field [schemes] of [GraphState] is a [SchemesContext], and
    when the graph validates the state that the next step, [plan], is to
    receive, pydantic takes for such a field a dict or an instance of the
    field's own class and raises [ValidationError] on the instance of
    another model. The update of a successful search never becomes a
    state: the run raises. *)
Definition schemes_node (i : nat) (state : GraphState) : result GraphState :=
  let last_node' := Some (py "schemes") in
  let c := context state in
  if negb (opt_truthy (location_text c)) then Ok (set_last_node state last_node')
  else
    match tools_schemes env i (or_empty (location_text c)) (crop c) with
    | Ok ctx => Raise ValidationError
    | Raise ToolError => Ok (set_last_node state last_node')
    | Raise e => Raise e
    end.

(** [market_node]: as [schemes_node], with the [WebContext] that
    [tools.market_prices] returns under the key [market], whose field is a
    [MarketContext]. *)
Definition market_node (i : nat) (state : GraphState) : result GraphState :=
  let last_node' := Some (py "market") in
  let c := context state in
  match tools_market_prices env i (or_empty (location_text c)) (crop c) with
  | Ok ctx => Raise ValidationError
  | Raise ToolError => Ok (set_last_node state last_node')
  | Raise e => Raise e
  end.

(** [\{.*\}] with [re.DOTALL], the whole match as group 0. *)
Definition _JSON_OBJ_RE : re :=
  Grp 0 (re_seq [Chr (is_char "{"); Rep (fun _ => true) 0 None; Chr (is_char "}")]).

Definition ends_with (p s : str) : bool := starts_with (rev p) (rev s).

Definition _extract_json_object (text : str) : option str :=
  if negb (nonempty text) then None else
  let text := strip rt text in
  if starts_with (py "{") text && ends_with (py "}") text then Some text
  else match re_search _JSON_OBJ_RE text with
       | Some m => Some (group 0 m)
       | None => None
       end.

Definition vision_node (i : nat) (state : GraphState) : GraphState :=
  let none := set_last_node (set_image_diagnosis state None) (Some (py "vision")) in
  match last_image state with
  | None => none
  | Some img =>
      match read_image env i (file_path img) with
      | Raise _ => none
      | Ok data_url =>
          match llm_vision env i state data_url with
          | Raise _ => none
          | Ok output_text =>
              let txt := strip rt output_text in
              let js := if opt_truthy (_extract_json_object txt)
                        then or_empty (_extract_json_object txt) else py "{}" in
              match json_loads env js with
              | Raise _ => none
              | Ok raw =>
                  let raw :=
                    match raw with
                    | JDict d => d
                    | _ => [(py "issue", JStr (take 140 txt))]
                    end in
                  set_last_node
                    (set_image_diagnosis state (Some (_coerce_image_diagnosis rt py_repr raw)))
                    (Some (py "vision"))
              end
          end
      end
  end.

Definition advice_node (i : nat) (state : GraphState) : GraphState :=
  let last_node' := Some (py "advice") in
  match rbind (llm_advice env i state)
              (fun data => safe_parse_advisory rt py_repr (JDict data)) with
  | Raise _ =>
      let ms := messages state
                ++ [assistant_message (py "Send crop + stage + location (or upload a clear photo).")] in
      set_last_node (set_advisory (set_messages state ms) None) last_node'
  | Ok adv =>
      let ms := compacted KEEP_LAST (messages state ++ [assistant_message (headline adv)]) in
      set_last_node (set_messages (set_advisory state (Some adv)) ms) last_node'
  end.

(** ** The driver

    What the compiled graph does on [ainvoke]: a step runs on the current
    state and the keys it returns replace those of the state; the fixed
    edge of the step, or [_route] after [plan], gives the next step; the
    run ends at [END]. [i] counts the steps run so far. *)

Definition run_node (i : nat) (n : node) (state : GraphState) : result GraphState :=
  match n with
  | Intake => intake_node i state
  | Plan => Ok (plan_node state)
  | Ask => Ok (ask_node state)
  | CropReco => crop_reco_node i state
  | Buy => buy_node i state
  | Vision => Ok (vision_node i state)
  | Weather => weather_node i state
  | Web => web_node i state
  | Schemes => schemes_node i state
  | Market => market_node i state
  | Advice => Ok (advice_node i state)
  end.

Definition next_node (i : nat) (n : node) (state : GraphState) : result (option node) :=
  match n with
  | Plan =>
      rbind (_route rt (clock env i) state) (fun name =>
      match route_edges name with
      | Some n' => Ok (Some n')
      | None => Raise KeyError
      end)
  | _ => Ok (edge n)
  end.

Fixpoint run_graph (fuel i : nat) (n : node) (state : GraphState) : result GraphState :=
  match fuel with
  | O => Raise GraphRecursionError
  | S fuel' =>
      rbind (run_node i n state) (fun state' =>
      rbind (next_node i n state') (fun next =>
      match next with
      | None => Ok state'
      | Some n' => run_graph fuel' (S i) n' state'
      end))
  end.

(** [self.graph.ainvoke(s)], as the state the returned channels make up. *)
Definition ainvoke (s : GraphState) : result GraphState :=
  run_graph RECURSION_LIMIT 0 Intake s.

(** The steps a run goes through, in order, as far as [fuel] reaches. *)
Fixpoint steps_of (fuel i : nat) (n : node) (state : GraphState) : list node :=
  match fuel with
  | O => []
  | S fuel' =>
      n :: match run_node i n state with
           | Raise _ => []
           | Ok state' =>
               match next_node i n state' with
               | Ok (Some n') => steps_of fuel' (S i) n' state'
               | _ => []
               end
           end
  end.

(** ** The heap and [run_turn]

    A state object and the list object of its message log are the two
    kinds of object the program updates in place ([add_user],
    [add_assistant], an assignment to an attribute); every other part of a
    state is only ever replaced, and is kept as a value inside the state
    object. *)

Abbreviation loc := positive (only parsing).

Record heap := {
  state_objs : gmap positive (GraphState_ positive);
  list_objs : gmap positive (list message);
}.

Definition alloc_list (ms : list message) (h : heap) : loc * heap :=
  let l := fresh (dom (list_objs h)) in
  (l, {| state_objs := state_objs h; list_objs := <[l := ms]> (list_objs h) |}).

Definition alloc_state (o : GraphState_ positive) (h : heap) : loc * heap :=
  let l := fresh (dom (state_objs h)) in
  (l, {| state_objs := <[l := o]> (state_objs h); list_objs := list_objs h |}).

(** The value of the state object at [l]: its fields, with its log. *)
Definition load_state (l : loc) (h : heap) : option GraphState :=
  o ← state_objs h !! l;
  ms ← list_objs h !! messages o;
  Some (set_messages o ms).

(** A new state object for a value, with a new list object for its log:
    what [GraphState.model_validate] builds. *)
Definition store_state (v : GraphState) (h : heap) : loc * heap :=
  let '(lm, h) := alloc_list (messages v) h in
  alloc_state (set_messages v lm) h.

(** [state.model_copy(deep=...)]: a new state object; a deep copy has a
    list object of its own, a shallow one shares the list of the original. *)
Definition model_copy (deep : bool) (l : loc) (h : heap) : option (loc * heap) :=
  o ← state_objs h !! l;
  if deep then
    ms ← list_objs h !! messages o;
    let '(lm, h) := alloc_list ms h in
    Some (alloc_state (set_messages o lm) h)
  else Some (alloc_state o h).

(** [self.messages.append(...)] of [add_user] and [add_assistant] *)
Definition append_message (l : loc) (m : message) (h : heap) : option heap :=
  o ← state_objs h !! l;
  ms ← list_objs h !! messages o;
  Some {| state_objs := state_objs h;
          list_objs := <[messages o := ms ++ [m]]> (list_objs h) |}.

Definition add_user (l : loc) (text : str) : heap -> option heap :=
  append_message l (user_message text).

Definition add_assistant (l : loc) (text : str) : heap -> option heap :=
  append_message l (assistant_message text).

(** [s.turn_count += 1] *)
Definition incr_turn_count (l : loc) (h : heap) : option heap :=
  o ← state_objs h !! l;
  Some {| state_objs := <[l := set_turn_count o (turn_count o + 1)]> (state_objs h);
          list_objs := list_objs h |}.

(** [compact_messages]: the slice is a new list object. *)
Definition compact_messages (l : loc) (keep_last : nat) (h : heap) : option heap :=
  o ← state_objs h !! l;
  ms ← list_objs h !! messages o;
  if (keep_last <? length ms)%nat then
    let '(lm, h) := alloc_list (last_items keep_last ms) h in
    Some {| state_objs := <[l := set_messages o lm]> (state_objs h);
            list_objs := list_objs h |}
  else Some h.

(** [run_turn]. The outer [None] is a read of an object that does not
    exist; the [result] is what the call returns or raises. *)
Definition run_turn (state : loc) (user_text : str) (h : heap)
    : option (result loc * heap) :=
  '(s, h) ← model_copy true state h;
  h ← add_user s user_text h;
  h ← incr_turn_count s h;
  h ← compact_messages s KEEP_LAST h;
  v ← load_state s h;
  match ainvoke v with
  | Raise e => Some (Raise e, h)
  | Ok out => let '(l, h) := store_state out h in Some (Ok l, h)
  end.

End Graph.

(** ** A runtime to evaluate with

    [ascii_runtime] is CPython on ASCII text: its white space is that of
    [str.isspace]; it changes the case of the letters A to Z only and knows
    the digits 0 to 9 only; it reads a timestamp in the one format the
    program writes, [YYYY-MM-DDTHH:MM:SS] with an optional [+HH:MM] or
    [-HH:MM], and no other. *)

Definition in_range (lo hi c : N) : bool := (lo <=? c)%N && (c <=? hi)%N.

Definition unicode_isspace (c : char) : bool :=
  in_range 9 13 c || in_range 28 32 c || N.eqb c 133 || N.eqb c 160
  || N.eqb c 5760 || in_range 8192 8202 c || in_range 8232 8233 c
  || N.eqb c 8239 || N.eqb c 8287 || N.eqb c 12288.

Definition ascii_lower_char (c : char) : char :=
  if in_range 65 90 c then (c + 32)%N else c.

Definition ascii_upper_char (c : char) : char :=
  if in_range 97 122 c then (c - 32)%N else c.

Definition ascii_alpha (c : char) : bool := in_range 65 90 c || in_range 97 122 c.

(** A letter of the pattern matches itself in either case; [i], [s] and
    [k] also match the four characters whose lower case they are. *)
Definition sre_ci_eq (l c : char) : bool :=
  N.eqb (ascii_lower_char c) l
  || (N.eqb l 105 && (N.eqb c 304 || N.eqb c 305))
  || (N.eqb l 115 && N.eqb c 383)
  || (N.eqb l 107 && N.eqb c 8490).

Definition ascii_todecimal (c : char) : option N :=
  if in_range 48 57 c then Some (c - 48)%N else None.

Fixpoint ascii_title_from (inside : bool) (s : str) : str :=
  match s with
  | [] => []
  | c :: s' =>
      (if inside then ascii_lower_char c else ascii_upper_char c)
        :: ascii_title_from (ascii_alpha c) s'
  end.

(** The days from 1970-01-01 to a date of the proleptic Gregorian calendar. *)
Definition days_from_civil (y m d : Z) : Z :=
  let y := if (m <=? 2)%Z then (y - 1)%Z else y in
  let era := (y / 400)%Z in
  let yoe := (y - era * 400)%Z in
  let doy := ((153 * ((m + 9) mod 12) + 2) / 5 + d - 1)%Z in
  let doe := (yoe * 365 + yoe / 4 - yoe / 100 + doy)%Z in
  (era * 146097 + doe - 719468)%Z.

Definition is_leap (y : Z) : bool :=
  ((y mod 4 =? 0) && negb (y mod 100 =? 0) || (y mod 400 =? 0))%Z.

Definition days_in_month (y m : Z) : Z :=
  if (m =? 2)%Z then (if is_leap y then 29 else 28)%Z
  else if ((m =? 4) || (m =? 6) || (m =? 9) || (m =? 11))%Z then 30%Z
  else 31%Z.

(** Exactly [k] ASCII digits at the head of [s]: their number, and the rest. *)
Definition number (k : nat) (s : str) : option (Z * str) :=
  let d := take k s in
  if (length d =? k)%nat && forallb (in_range 48 57) d
  then Some (fold_left (fun acc c => (10 * acc + Z.of_N (c - 48))%Z) d 0%Z, drop k s)
  else None.

Definition expect (p : char -> bool) (s : str) : option str :=
  match s with
  | c :: s' => if p c then Some s' else None
  | [] => None
  end.

Definition iso_seconds (s : str) : option datetime :=
  '(y, s) ← number 4 s;
  s ← expect (is_char "-") s;
  '(m, s) ← number 2 s;
  s ← expect (is_char "-") s;
  '(d, s) ← number 2 s;
  s ← expect (fun c => is_char "T" c || is_char " " c) s;
  '(hh, s) ← number 2 s;
  s ← expect (is_char ":") s;
  '(mi, s) ← number 2 s;
  s ← expect (is_char ":") s;
  '(ss, s) ← number 2 s;
  if negb ((1 <=? y) && (1 <=? m) && (m <=? 12) && (1 <=? d) && (d <=? days_in_month y m)
           && (hh <? 24) && (mi <? 60) && (ss <? 60))%Z then None
  else
    let local := ((days_from_civil y m d * 86400 + hh * 3600 + mi * 60 + ss) * 1000000)%Z in
    match s with
    | [] => Some (Naive local)
    | sign :: s =>
        if negb (is_char "+" sign || is_char "-" sign) then None else
        '(oh, s) ← number 2 s;
        s ← expect (is_char ":") s;
        '(om, s) ← number 2 s;
        if negb (nonempty s) && (oh <? 24)%Z && (om <? 60)%Z then
          let offset := ((oh * 3600 + om * 60) * 1000000)%Z in
          Some (Aware (if is_char "-" sign then local + offset else local - offset)%Z)
        else None
    end.

Definition ascii_runtime : Runtime :=
  {| isspace := unicode_isspace;
     lower := map ascii_lower_char;
     ci_eq := sre_ci_eq;
     todecimal := ascii_todecimal;
     title := ascii_title_from false;
     fromisoformat := iso_seconds |}.

(** The rendering of the JSON scalars that are not strings; used where no
    list, dict or float is rendered. *)
Definition scalar_repr (v : jval) : str :=
  match v with
  | JNull => py "None"
  | JBool true => py "True"
  | JBool false => py "False"
  | JInt z => (if (z <? 0)%Z then py "-" else []) ++ decimal (Z.abs_N z)
  | _ => []
  end.

(** A world in which every provider and the model fail. *)
Definition offline : Env :=
  {| clock := fun _ => 0%Z;
     geocode := fun _ _ => Raise ToolError;
     tools_weather := fun _ _ _ => Raise ToolError;
     tools_web := fun _ _ _ => Raise ToolError;
     tools_schemes := fun _ _ _ => Raise ToolError;
     tools_market_prices := fun _ _ _ => Raise ToolError;
     tools_buy_inputs := fun _ _ _ => Raise ToolError;
     llm_intake := fun _ _ _ _ => Raise RuntimeError;
     llm_crop_reco := fun _ _ _ _ _ => Raise RuntimeError;
     llm_advice := fun _ _ => Raise RuntimeError;
     read_image := fun _ _ => Raise RuntimeError;
     llm_vision := fun _ _ _ => Raise RuntimeError;
     json_loads := fun _ => Raise ValueError |}.

(** ** Vocabulary of the statements *)

(** A field of an update that is absent, or empty once trimmed. *)
Definition blank (rt : Runtime) (o : option str) : Prop :=
  match o with
  | None => True
  | Some s => strip rt s = []
  end.

(** A snapshot fetched at [fetched] ([None]: there is no snapshot) is stale
    at [now]: it is absent, its timestamp does not parse, or it is older
    than [max_age] microseconds. *)
Definition Stale (rt : Runtime) (now : Z) (fetched : option str) (max_age : Z) : Prop :=
  match fetched with
  | None => True
  | Some s =>
      match fromisoformat rt s with
      | None => True
      | Some (Aware t) => (now - t > max_age)%Z
      | Some (Naive _) => False
      end
  end.

Definition valid_latitude (x : float) : Prop :=
  SF64leb (float_of_Z (-90)) x = true /\ SF64leb x (float_of_Z 90) = true.

Definition valid_longitude (x : float) : Prop :=
  SF64leb (float_of_Z (-180)) x = true /\ SF64leb x (float_of_Z 180) = true.

(** The runtime leaves a word alone when it trims and lower-cases it. *)
Definition plain_word (rt : Runtime) (w : str) : Prop :=
  strip rt w = w /\ lower rt w = w.

(** The state [run_turn] hands to the graph: the incoming state with the
    user's message appended, the turn counted, the log compacted. *)
Definition begin_turn (v : GraphState) (user_text : str) : GraphState :=
  set_messages (set_turn_count v (turn_count v + 1))
               (compacted KEEP_LAST (messages v ++ [user_message user_text])).

(** [s] is a private copy in [h] with respect to the earlier heap [h0]:
    every object of [h0] is in [h] as it was, and [s] is a state object of
    [h] that [h0] does not have, whose log is a list object that [h0] does
    not have either; [v] is the value of [s]. *)
Definition private_copy (h0 h : heap) (s : positive) (v : GraphState) : Prop :=
  state_objs h0 ⊆ state_objs h /\ list_objs h0 ⊆ list_objs h /\
  state_objs h0 !! s = None /\
  exists o ms,
    state_objs h !! s = Some o /\ list_objs h0 !! messages o = None /\
    list_objs h !! messages o = Some ms /\ v = set_messages o ms.

(** ** States to evaluate on *)

Definition empty_heap : heap := {| state_objs := ∅; list_objs := ∅ |}.

Definition pune : FarmerContext :=
  {| farmer_name := None; crop := None; stage := py "unknown";
     land_size := None; land_unit := None; location_text := Some (py "Pune");
     lat := None; lon := None; sowing_date := None; irrigation := None;
     soil_type := None; notes := None; language := py "en" |}.

(** A complete profile with coordinates (18.52, 73.85). *)
Definition ramesh : FarmerContext :=
  {| farmer_name := Some (py "Ramesh"); crop := Some (py "rice");
     stage := py "germination";
     land_size := Some (float_of_Z 2); land_unit := Some (py "acres");
     location_text := Some (py "Pune");
     lat := Some (S754_finite false 5212916568681349 (-48));
     lon := Some (S754_finite false 5196731757520486 (-46));
     sowing_date := None; irrigation := None; soil_type := None;
     notes := None; language := py "en" |}.

Definition leaf_photo : ImageAsset :=
  {| file_path := py "data/images/leaf.jpg"; telegram_file_id := None;
     caption := None; created_at_utc := py "2024-01-01T00:00:00+00:00" |}.

(** The buy button on an empty profile with a photo waiting. *)
Definition st_buy_pressed : GraphState :=
  {| chat_id := py "42"; turn_count := 3; last_node := Some (py "ask");
     messages := [assistant_message (py "Name?"); user_message ACTION_BUY];
     context := FarmerContext_default; observation := Observation_default;
     weather := None; web := None; schemes := None; market := None;
     last_image := Some leaf_photo; image_diagnosis := None; advisory := None |}.

(** The crop recommendation button on an empty profile. *)
Definition st_reco_pressed_nowhere : GraphState :=
  set_messages GraphState_default [user_message ACTION_CROP_RECO].

(** The crop recommendation button once a location is known. *)
Definition st_reco_pressed_pune : GraphState :=
  set_context st_reco_pressed_nowhere pune.

(** A complete profile, no weather snapshot yet, a plain message. *)
Definition st_weather_missing : GraphState :=
  set_messages (set_context GraphState_default ramesh) [user_message (py "hello")].

(** A complete profile and a log that is already full. *)
Definition st_long_chat : GraphState :=
  set_messages (set_context GraphState_default ramesh)
               (repeat (user_message (py "hello")) 16).

Definition heap_long_chat : heap := snd (store_state st_long_chat empty_heap).
Definition loc_long_chat : positive := fst (store_state st_long_chat empty_heap).

Definition weather_at (fetched : string) : WeatherSnapshot :=
  {| weather_fetched_at_utc := py fetched; summary := py "Clear sky";
     alerts := []; daily := [] |}.

(** Coordinates but no location text, a fresh weather snapshot, and the
    schemes button. *)
Definition st_schemes_pressed : GraphState :=
  set_weather
    (set_messages
       (set_context GraphState_default
          (set_position ramesh (lat ramesh) (lon ramesh) None))
       [user_message ACTION_SCHEMES])
    (Some (weather_at "1970-01-01T00:00:00+00:00")).

(** A weather snapshot fetched on 1 January 2024 at midnight UTC. *)
Definition st_weather_new_year : GraphState :=
  set_weather GraphState_default (Some (weather_at "2024-01-01T00:00:00+00:00")).

(** 1 January 2024, midnight UTC, in microseconds since the epoch. *)
Definition NEW_YEAR_2024 : Z := 1704067200000000.

(** Coordinates typed into the chat of an empty profile. *)
Definition st_coordinates_sent : GraphState :=
  set_messages GraphState_default [user_message (py "18.52, 73.85")].

Definition obs_wilting : Observation :=
  {| symptoms := [py "wilting"]; pests_seen := [py "aphids"]; urgency := py "medium" |}.

Definition two_lines : str := py " drain the field
 spray neem

".

(** A reply of the model that needs every repair. *)
Definition sloppy_reply : list (list N * jval) :=
  [ (py "headline", JStr (py "   "));
    (py "actions_now", JStr two_lines);
    (py "confidence", JStr (py " HIGH "));
    (py "needs_human_review", JStr (py "Yes")) ].

(** A reply of the model that holds more than an advisory keeps: seven
    actions, one of them blank and one a number, and a rationale of 230
    characters. *)
Definition wordy_reply : list (list N * jval) :=
  [ (py "headline", JStr (py " Drain today "));
    (py "actions_now",
     JList [JStr (py " one "); JStr (py "  "); JInt 2; JStr (py "three");
            JStr (py "four"); JStr (py "five"); JStr (py "six")]);
    (py "rationale_brief", JStr (replicate 230 120%N));
    (py "needs_human_review", JStr (py "no")) ].

(** An update that carries nothing but blanks. *)
Definition empty_update : IntakeExtraction :=
  {| upd_farmer_name := None; upd_land_size := None; upd_land_unit := Some (py "  ");
     upd_crop := Some []; upd_stage := None; upd_location_text := None;
     upd_sowing_date := None; upd_irrigation := None; upd_soil_type := None;
     upd_notes := None; upd_symptoms := []; upd_pests_seen := [];
     upd_urgency := None |}.

(** An update that reports a symptom and a higher urgency. *)
Definition urgent_update : IntakeExtraction :=
  {| upd_farmer_name := None; upd_land_size := None; upd_land_unit := None;
     upd_crop := None; upd_stage := Some (py "bogus"); upd_location_text := None;
     upd_sowing_date := None; upd_irrigation := None; upd_soil_type := None;
     upd_notes := None; upd_symptoms := [py " Yellow leaves "; py "yellow LEAVES"];
     upd_pests_seen := []; upd_urgency := Some (py " High ") |}.

(** ** More vocabulary, and more states to evaluate on *)

(** One of the four snapshots of the state carries a timestamp without an
    offset. *)
Definition has_naive_timestamp (rt : Runtime) (state : GraphState) : Prop :=
  (exists w us, weather state = Some w /\
                fromisoformat rt (weather_fetched_at_utc w) = Some (Naive us)) \/
  (exists w us, web state = Some w /\
                fromisoformat rt (web_fetched_at_utc w) = Some (Naive us)) \/
  (exists w us, schemes state = Some w /\
                fromisoformat rt (schemes_fetched_at_utc w) = Some (Naive us)) \/
  (exists w us, market state = Some w /\
                fromisoformat rt (market_fetched_at_utc w) = Some (Naive us)).

(** A photo waiting on an empty profile, and a plain message. *)
Definition st_photo_sent : GraphState :=
  {| chat_id := py "42"; turn_count := 1; last_node := None;
     messages := [user_message (py "what is wrong with my plant")];
     context := FarmerContext_default; observation := Observation_default;
     weather := None; web := None; schemes := None; market := None;
     last_image := Some leaf_photo; image_diagnosis := None; advisory := None |}.

(** The daily digest on an empty profile. *)
Definition st_digest : GraphState :=
  set_messages GraphState_default [user_message ACTION_DIGEST].

(** A location and no crop, after a recommendation was the last step. *)
Definition st_after_reco : GraphState :=
  set_last_node
    (set_messages (set_context GraphState_default pune)
                  [assistant_message (py "Crops for Pune"); user_message (py "thank you")])
    (Some (py "crop_reco")).

(** A weather snapshot with a timestamp that lacks its offset. *)
Definition st_naive_weather : GraphState :=
  set_weather st_weather_missing (Some (weather_at "2024-01-01T00:00:00")).

(** What a run of the graph keeps of the state it starts from: the chat,
    the turn counter, the photo, the language; the coordinates once both
    are known; every symptom and pest, in place. *)
Definition turn_frame (s s' : GraphState) : Prop :=
  chat_id s' = chat_id s /\ turn_count s' = turn_count s /\
  last_image s' = last_image s /\
  language (context s') = language (context s) /\
  (both_truthy (lat (context s)) (lon (context s)) = true ->
   lat (context s') = lat (context s) /\ lon (context s') = lon (context s)) /\
  symptoms (observation s) `prefix_of` symptoms (observation s') /\
  pests_seen (observation s) `prefix_of` pests_seen (observation s').

(** One reply of the assistant at the end of the log, compacted or not. *)
Definition reply_appended (M M' : list message) : Prop :=
  exists text, M' = M ++ [assistant_message text] \/
               M' = compacted KEEP_LAST (M ++ [assistant_message text]).

(** An entry of a coerced list: not empty, and trimmed. *)
Definition trimmed (rt : Runtime) (x : str) : Prop := x <> [] /\ strip rt x = x.

(** ** [tools.py]: the web search and what is built on it *)

(** [_clean_snippet] *)
Definition _clean_snippet (rt : Runtime) (title content : str) : str :=
  let title := strip rt title in
  let content := strip rt content in
  if nonempty title && nonempty content then title ++ py " — " ++ content
  else if nonempty title then title else content.

(** [str(d.get(k) or "").strip()] *)
Definition text_of (rt : Runtime) (py_repr : jval -> str) (d : list (str * jval))
    (k : string) : str :=
  strip rt (py_str py_repr (py_or (get_key d k) (JStr []))).

(** One round of the loop of [_coerce_alerts]: the line an alert gives,
    if it gives one. *)
Definition alert_line (rt : Runtime) (py_repr : jval -> str) (a : jval) : option str :=
  match a with
  | JDict ad =>
      let event := text_of rt py_repr ad "event" in
      let sender := text_of rt py_repr ad "sender_name" in
      if nonempty event then
        Some (event ++ (if nonempty sender then py " (" ++ sender ++ py ")" else []))
      else None
  | _ => None
  end.

(** [_coerce_alerts] *)
Definition _coerce_alerts (rt : Runtime) (py_repr : jval -> str) (data : jval) : list str :=
  match data with
  | JDict d =>
      match get_key d "alerts" with
      | JList l =>
          fold_left (fun alerts_out a =>
                       match alert_line rt py_repr a with
                       | Some line => alerts_out ++ [line]
                       | None => alerts_out
                       end) (take 3 l) []
      | _ => []
      end
  | _ => []
  end.

(** [l[:n]]: a negative [n] counts from the end. *)
Definition slice_to {A} (n : Z) (l : list A) : list A :=
  if (n <? 0)%Z then take (length l - Z.to_nat (- n)) l else take (Z.to_nat n) l.

Module ToolBundle.

(** What the methods below raise: [ToolError], or the [AttributeError] of
    [(data or {}).get] on a response body that is neither empty nor an
    object, a statement outside the [try] of [web]. *)
Inductive raised := ToolError | AttributeError.

Inductive outcome (A : Type) :=
  | Returns (a : A)
  | Raises (e : raised).
Arguments Returns {A} a.
Arguments Raises {A} e.

(** The two fields of the bundle the search uses. *)
Record fields := {
  tavily_api_key : str;
  tavily_max_results : Z;
}.

Section Methods.

Variable rt : Runtime.
Variable py_repr : jval -> str.
Variable self : fields.

(** The exchange with the search service, inside the [try] of [web]: the
    decoded body of the answer to the query and time range posted, or any
    exception. The first argument numbers the calls. *)
Variable post : nat -> str -> str -> result jval.

(** [_utc_now_iso()], at a call *)
Variable _utc_now_iso : nat -> str.

(** [int(self.tavily_max_results or 5)] *)
Definition max_results : Z :=
  if (tavily_max_results self =? 0)%Z then 5%Z else tavily_max_results self.

(** One round of the loop of [web] over the results. *)
Definition web_item (acc : list str * list str) (item : jval) : list str * list str :=
  match item with
  | JDict it =>
      let title := text_of rt py_repr it "title" in
      let content := text_of rt py_repr it "content" in
      let u := text_of rt py_repr it "url" in
      let sn := _clean_snippet rt title content in
      (if nonempty sn then fst acc ++ [sn] else fst acc,
       if nonempty u then snd acc ++ [u] else snd acc)
  | _ => acc
  end.

(** One round of the loop that removes the repeated links. *)
Definition add_unseen (urls_dedup : list str) (u : str) : list str :=
  if negb (str_in u urls_dedup) then urls_dedup ++ [u] else urls_dedup.

Definition web (call : nat) (query time_range : str) : outcome WebContext :=
  let q := strip rt query in
  if negb (nonempty q) then
    Returns {| web_fetched_at_utc := _utc_now_iso call; web_query := [];
               web_snippets := []; web_urls := [] |}
  else if negb (nonempty (tavily_api_key self)) then Raises ToolError
  else
    match post call q time_range with
    | Raise _ => Raises ToolError
    | Ok data =>
        match py_or data (JDict []) with
        | JDict d =>
            let '(snippets, urls) :=
              match get_key d "results" with
              | JList results => fold_left web_item (slice_to max_results results) ([], [])
              | _ => ([], [])
              end in
            Returns {| web_fetched_at_utc := _utc_now_iso call; web_query := q;
                       web_snippets := take 6 snippets;
                       web_urls := take 6 (fold_left add_unseen urls []) |}
        | _ => Raises AttributeError
        end
    end.

(** The loop of [buy_inputs] over its queries: a search that raises
    [ToolError] is skipped. *)
Fixpoint buy_searches (call : nat) (queries : list str) (merged : list str * list str)
    : outcome (list str * list str) :=
  match queries with
  | [] => Returns merged
  | q :: queries' =>
      match web call q (py "month") with
      | Returns ctx =>
          buy_searches (S call) queries'
            (fst merged ++ take 3 (web_snippets ctx), snd merged ++ take 3 (web_urls ctx))
      | Raises ToolError => buy_searches (S call) queries' merged
      | Raises e => Raises e
      end
  end.

(** One round of the loop over the merged links. *)
Definition add_link (urls_dedup : list str) (u : str) : list str :=
  if nonempty u && negb (str_in u urls_dedup) then urls_dedup ++ [u] else urls_dedup.

(** One round of the loop over the merged snippets: the keys seen, and the
    snippets kept. *)
Definition add_snippet (acc : list str * list str) (s : str) : list str * list str :=
  let key := strip rt (lower rt s) in
  if nonempty key && negb (str_in key (fst acc)) then (fst acc ++ [key], snd acc ++ [s])
  else acc.

Definition buy_inputs (call : nat) (location_text crop : str) : outcome WebContext :=
  let loc := strip rt location_text in
  let c := lower rt (strip rt crop) in
  if negb (nonempty c) then Raises ToolError
  else
    let queries :=
      [ strip rt (py "buy " ++ c ++ py " seeds online India " ++ loc);
        strip rt (py "best fertilizer for " ++ c ++ py " buy online India " ++ loc);
        strip rt (py "bio pesticide for " ++ c ++ py " buy online India " ++ loc) ] in
    match buy_searches call queries ([], []) with
    | Raises e => Raises e
    | Returns (merged_snips, merged_urls) =>
        Returns {| web_fetched_at_utc := _utc_now_iso (call + 3);
                   web_query := strip rt (py "buy inputs " ++ c ++ py " " ++ loc);
                   web_snippets := take 8 (snd (fold_left add_snippet merged_snips ([], [])));
                   web_urls := take 8 (fold_left add_link merged_urls []) |}
    end.

End Methods.

End ToolBundle.

(** ** [_deep_merge] of [graph.py]

    A dict is the list of its items, in insertion order. *)

(** [d[k] = v]: the value of a key that is there is replaced in place, a
    new key goes to the end. *)
Fixpoint dict_set (d : list (str * jval)) (k : str) (v : jval) : list (str * jval) :=
  match d with
  | [] => [(k, v)]
  | (k', v') :: d' =>
      if str_eqb k' k then (k', v) :: d' else (k', v') :: dict_set d' k v
  end.

(** [k in d] *)
Definition has_key (d : list (str * jval)) (k : str) : bool := str_in k (map fst d).

(** [_deep_merge(base, upd)] for [upd] the items of the value [u]; the
    recursion is on [u]. *)
Fixpoint deep_merge_into (base : list (str * jval)) (u : jval) {struct u}
    : list (str * jval) :=
  match u with
  | JDict upd =>
      (fix items (upd : list (str * jval)) (base : list (str * jval)) {struct upd}
         : list (str * jval) :=
         match upd with
         | [] => base
         | (k, v) :: upd' =>
             items upd'
               (match v, dict_get base k with
                | JDict _, JDict b => dict_set base k (JDict (deep_merge_into b v))
                | _, _ => dict_set base k v
                end)
         end) upd base
  | _ => base
  end.

Definition _deep_merge (base upd : list (str * jval)) : list (str * jval) :=
  deep_merge_into base (JDict upd).

(** ** [_llm_json] of [graph.py] *)

Section LlmJson.

Variable rt : Runtime.

(** [client.responses.create(...)] at an attempt: [resp.output_text],
    which may be [None], or any exception. *)
Variable create : nat -> result (option str).

(** [json.loads] *)
Variable loads : str -> result jval.

(** One round of the loop: the body of the [try]. *)
Definition llm_json_attempt (attempt : nat) : result (list (str * jval)) :=
  rbind (create attempt) (fun output_text =>
  let text := strip rt (or_empty output_text) in
  let js := if opt_truthy (_extract_json_object rt text)
            then or_empty (_extract_json_object rt text) else [] in
  rbind (loads js) (fun data =>
  match data with
  | JDict d => Ok d
  | _ => Raise ValueError
  end)).

(** The loop over [range(attempt, attempt + tries)]. *)
Fixpoint llm_json_from (attempt tries : nat) : result (list (str * jval)) :=
  match tries with
  | O => Raise RuntimeError
  | S tries' =>
      match llm_json_attempt attempt with
      | Ok d => Ok d
      | Raise _ => llm_json_from (S attempt) tries'
      end
  end.

Definition _llm_json (max_tries : Z) : result (list (str * jval)) :=
  llm_json_from 1 (Z.to_nat max_tries).

End LlmJson.

(** ** Vocabulary for the routing loop *)

(** A timestamp that no reading of the clock finds older than [max_age]. *)
Definition always_fresh (rt : Runtime) (env : Env) (fetched : str) (max_age : Z) : Prop :=
  forall j, older_than rt (clock env j) fetched max_age = Ok false.

(** A world that answers: the weather and the web search return, at
    every call, a snapshot that stays fresh; the schemes and the market
    search return a result; the photo can be read, the model answers it
    and the answer parses. *)
Definition refreshing (rt : Runtime) (env : Env) : Prop :=
  (forall i la lo, exists snap,
     tools_weather env i la lo = Ok snap /\
     always_fresh rt env (weather_fetched_at_utc snap)
                  (timedelta_hours WEATHER_MAX_AGE_HOURS)) /\
  (forall i q tr, exists ctx,
     tools_web env i q tr = Ok ctx /\
     always_fresh rt env (web_fetched_at_utc ctx) (timedelta_hours WEB_MAX_AGE_HOURS)) /\
  (forall i loc c, exists ctx, tools_schemes env i loc c = Ok ctx) /\
  (forall i loc c, exists ctx, tools_market_prices env i loc c = Ok ctx) /\
  (forall i path, exists url, read_image env i path = Ok url) /\
  (forall i s url, exists text, llm_vision env i s url = Ok text) /\
  (forall js, exists v, json_loads env js = Ok v).

(** What a step leaves behind, so that routing does not select it again:
    a diagnosis for the photo, a snapshot that stays fresh. *)
Definition vision_settled (s : GraphState) : Prop :=
  is_some (last_image s) && negb (is_some (image_diagnosis s)) = false.

Definition weather_settled (rt : Runtime) (env : Env) (s : GraphState) : Prop :=
  exists w, weather s = Some w /\
            always_fresh rt env (weather_fetched_at_utc w)
                         (timedelta_hours WEATHER_MAX_AGE_HOURS).

Definition web_settled (rt : Runtime) (env : Env) (s : GraphState) : Prop :=
  exists w, web s = Some w /\
            always_fresh rt env (web_fetched_at_utc w) (timedelta_hours WEB_MAX_AGE_HOURS).

(** The number of steps, among [vision], [weather] and [web], not yet
    known to be settled. *)
Definition unsettled (bv bw bb : bool) : nat :=
  Nat.b2n (negb bv) + Nat.b2n (negb bw) + Nat.b2n (negb bb).

(** A search result fetched on 1 January 2024 at midnight UTC. *)
Definition found_at_new_year (q : str) : WebContext :=
  {| web_fetched_at_utc := py "2024-01-01T00:00:00+00:00"; web_query := q;
     web_snippets := []; web_urls := [] |}.

(** A world in which the providers answer, one hour into 2024, with what
    they fetched at midnight; the photo is read and the model answers it
    with an empty object; the other calls of the model fail. *)
Definition online : Env :=
  {| clock := fun _ => (NEW_YEAR_2024 + 3600 * 1000000)%Z;
     geocode := fun _ _ => Raise ToolError;
     tools_weather := fun _ _ _ => Ok (weather_at "2024-01-01T00:00:00+00:00");
     tools_web := fun _ q _ => Ok (found_at_new_year q);
     tools_schemes := fun _ loc _ => Ok (found_at_new_year loc);
     tools_market_prices := fun _ loc _ => Ok (found_at_new_year loc);
     tools_buy_inputs := fun _ _ _ => Raise ToolError;
     llm_intake := fun _ _ _ _ => Raise RuntimeError;
     llm_crop_reco := fun _ _ _ _ _ => Raise RuntimeError;
     llm_advice := fun _ _ => Raise RuntimeError;
     read_image := fun _ _ => Ok (py "data:image/jpeg;base64,");
     llm_vision := fun _ _ _ => Ok (py "{}");
     json_loads := fun _ => Ok (JDict []) |}.

(** The daily digest on a complete profile, with a photo waiting and no
    snapshot of any kind. *)
Definition st_digest_with_photo : GraphState :=
  {| chat_id := py "42"; turn_count := 1; last_node := None;
     messages := [user_message ACTION_DIGEST];
     context := ramesh; observation := Observation_default;
     weather := None; web := None; schemes := None; market := None;
     last_image := Some leaf_photo; image_diagnosis := None; advisory := None |}.

(** ** Data for the further properties *)

(** A stage statement on a complete profile. *)
Definition st_stage_statement : GraphState :=
  set_messages (set_context GraphState_default ramesh)
               [user_message (py "My stage is flowering.")].

(** A bundle with a key for the search service, and one without. *)
Definition bundle : ToolBundle.fields :=
  {| ToolBundle.tavily_api_key := py "tvly-key"; ToolBundle.tavily_max_results := 5 |}.

Definition bundle_without_key : ToolBundle.fields :=
  {| ToolBundle.tavily_api_key := []; ToolBundle.tavily_max_results := 5 |}.

(** An answer of the search service: a result, a second result with the
    same link, an entry that is no object, a result of blanks. *)
Definition search_reply : jval :=
  JDict [(py "results",
          JList [ JDict [(py "title", JStr (py " Rice blast "));
                         (py "content", JStr (py "Use resistant varieties."));
                         (py "url", JStr (py "https://example.org/blast "))];
                  JDict [(py "title", JStr (py "Blast again"));
                         (py "url", JStr (py "https://example.org/blast"))];
                  JStr (py "noise");
                  JDict [(py "title", JStr (py "  ")); (py "url", JNull)] ])].

Definition service_up : nat -> list N -> list N -> result jval :=
  fun _ _ _ => Ok search_reply.

Definition service_down : nat -> list N -> list N -> result jval :=
  fun _ _ _ => Raise RuntimeError.

Definition at_new_year : nat -> list N := fun _ => py "2024-01-01T00:00:00+00:00".

(** Four weather alerts, the second without an event. *)
Definition four_alerts : jval :=
  JDict [(py "alerts",
          JList [ JDict [(py "event", JStr (py "Heat wave"));
                         (py "sender_name", JStr (py "IMD"))];
                  JDict [(py "sender_name", JStr (py "IMD"))];
                  JDict [(py "event", JStr (py "Flood"))];
                  JDict [(py "event", JStr (py "Storm"))] ])].

(** A part of the dump of a state, and an output of the graph that
    clears the advisory and sets the stage. *)
Definition base_dump : list (list N * jval) :=
  [ (py "turn_count", JInt 3);
    (py "advisory", JDict [(py "headline", JStr (py "Irrigate"))]);
    (py "context", JDict [(py "crop", JStr (py "rice")); (py "stage", JStr (py "unknown"))]) ].

Definition graph_output : list (list N * jval) :=
  [ (py "advisory", JNull);
    (py "context", JDict [(py "stage", JStr (py "flowering"))]);
    (py "last_node", JStr (py "advice")) ].

(** A model that chats at the first attempt and sends an object at the
    second; a parser that knows the empty object only, and one that also
    accepts any text that does not start with a brace. *)
Definition chatty_model : nat -> result (option (list N)) :=
  fun attempt =>
    if (attempt =? 1)%nat then Ok (Some (py "I cannot answer that."))
    else Ok (Some (py "Here it is: {} ")).

Definition loads_empty_object : list N -> result jval :=
  fun js => if str_eqb js (py "{}") then Ok (JDict []) else Raise ValueError.

Definition loads_lenient : list N -> result jval :=
  fun js =>
    if str_eqb js (py "{}") then Ok (JDict [])
    else if nonempty js && negb (starts_with (py "{") js)
         then Ok (JDict [(py "headline", JStr js)])
         else Raise ValueError.

(* ===================================================================== *)
(** * Part II: properties                                                 *)
(* ===================================================================== *)

(** ** Text *)

Section TextFacts.

Variable rt : Runtime.

Lemma str_eqb_eq (a b : str) : str_eqb a b = true <-> a = b.
Proof. unfold str_eqb. apply bool_decide_eq_true. Qed.

Lemma str_eqb_refl (a : str) : str_eqb a a = true.
Proof. apply str_eqb_eq. reflexivity. Qed.

Lemma str_in_In (x : str) (xs : list str) : str_in x xs = true <-> In x xs.
Proof.
  unfold str_in. rewrite existsb_exists. split.
  - intros (y & Hy & Heq). apply str_eqb_eq in Heq. subst. exact Hy.
  - intros H. exists x. split; [exact H | apply str_eqb_refl].
Qed.

Lemma present_blank (o : option str) : blank rt o -> present rt o = false.
Proof.
  destruct o as [s|]; simpl; [|reflexivity].
  intros ->. apply andb_false_r.
Qed.

Lemma overwrite_blank (g : str -> str) (old upd : option str) :
  blank rt upd -> overwrite rt g old upd = old.
Proof.
  destruct upd as [s|]; simpl; [|reflexivity].
  intros ->. rewrite andb_false_r. reflexivity.
Qed.

(** What [drop_while] leaves does not start with a dropped character. *)
Lemma drop_while_head (p : N -> bool) (s : str) :
  match drop_while p s with [] => True | c :: _ => p c = false end.
Proof.
  induction s as [|c s IH]; simpl; [exact I|].
  destruct (p c) eqn:E; [exact IH | exact E].
Qed.

Lemma drop_while_id (p : N -> bool) (s : str) :
  match s with [] => True | c :: _ => p c = false end -> drop_while p s = s.
Proof. destruct s as [|c s]; simpl; [reflexivity|]. intros ->. reflexivity. Qed.

Lemma drop_while_suffix (p : N -> bool) (s : str) : drop_while p s `suffix_of` s.
Proof.
  induction s as [|c s IH]; simpl; [reflexivity|].
  destruct (p c); [|reflexivity]. apply suffix_cons_r. exact IH.
Qed.

(** Trimming twice is trimming once. *)
Lemma strip_idemp (s : str) : strip rt (strip rt s) = strip rt s.
Proof.
  unfold strip.
  set (t := drop_while (isspace rt) s).
  set (u := drop_while (isspace rt) (rev t)).
  assert (Hu : match u with [] => True | c :: _ => isspace rt c = false end)
    by apply drop_while_head.
  assert (Ht : match t with [] => True | c :: _ => isspace rt c = false end)
    by apply drop_while_head.
  assert (Hpre : rev u `prefix_of` t).
  { destruct (drop_while_suffix (isspace rt) (rev t)) as [k Hk]. fold u in Hk.
    exists (rev k). rewrite <- rev_app_distr, <- Hk. symmetry. apply rev_involutive. }
  assert (Hd : drop_while (isspace rt) (rev u) = rev u).
  { apply drop_while_id. destruct Hpre as [k Hk].
    destruct (rev u) as [|c r]; [exact I|]. rewrite Hk in Ht. exact Ht. }
  rewrite Hd, rev_involutive. f_equal. apply drop_while_id. exact Hu.
Qed.

End TextFacts.

(** ** The context merge engine *)

Section MergeFacts.

Variable rt : Runtime.

Lemma add_unique_prefix (acc : list str) (s : str) :
  acc `prefix_of` add_unique rt acc s.
Proof.
  unfold add_unique.
  destruct (nonempty (strip rt s) && _); [|reflexivity].
  apply prefix_app_r. reflexivity.
Qed.

Lemma fold_add_unique_prefix (l acc : list str) :
  acc `prefix_of` fold_left (add_unique rt) l acc.
Proof.
  revert acc. induction l as [|s l IH]; intros acc; simpl; [reflexivity|].
  etransitivity; [apply add_unique_prefix | apply IH].
Qed.

Lemma merge_urgency_absent (old : str) (upd : option str) :
  opt_truthy upd = false -> merge_urgency rt old upd = Ok old.
Proof. unfold merge_urgency. intros ->. reflexivity. Qed.

Lemma order_level (u : str) : In u URGENCY_LEVELS -> exists k, order u = Ok k.
Proof.
  intros H. apply str_in_In in H. unfold str_in in H. simpl in H.
  unfold order.
  rewrite !orb_true_iff in H. destruct H as [H|[H|[H|H]]]; try discriminate;
    apply str_eqb_eq in H; rewrite H; eexists; reflexivity.
Qed.

(** The merged urgency, for a known old level: the old level, or the
    recognized level of the update when that ranks strictly higher. *)
Lemma merge_urgency_level (old : str) (upd : option str) (ko : Z) :
  order old = Ok ko ->
  exists new kn,
    merge_urgency rt old upd = Ok new /\ order new = Ok kn /\ (ko <= kn)%Z /\
    (forall u, upd = Some u -> u <> [] ->
       In (lower rt (strip rt u)) URGENCY_LEVELS ->
       exists ku, order (lower rt (strip rt u)) = Ok ku /\ kn = Z.max ko ku) /\
    ((opt_truthy upd = false \/
      forall u, upd = Some u -> ~ In (lower rt (strip rt u)) URGENCY_LEVELS) ->
     new = old).
Proof.
  intros Hold. unfold merge_urgency.
  destruct upd as [[|c u]|].
  - (* the empty string *)
    exists old, ko. simpl. repeat split; try lia; try assumption.
    intros u [=<-] Hne. congruence.
  - (* a text *)
    simpl opt_truthy. cbv iota. simpl default.
    set (u' := lower rt (strip rt (c :: u))).
    destruct (str_in u' URGENCY_LEVELS) eqn:Hin.
    + apply str_in_In in Hin. destruct (order_level _ Hin) as [ku Hku].
      rewrite Hku, Hold. simpl.
      destruct (ko <? ku)%Z eqn:Hlt.
      * apply Z.ltb_lt in Hlt. exists u', ku. repeat split; try lia; try assumption.
        -- intros u0 [=<-] _ _. exists ku. split; [exact Hku | lia].
        -- intros [Hf | Hn]; [discriminate|]. destruct (Hn _ eq_refl Hin).
      * apply Z.ltb_ge in Hlt. exists old, ko. repeat split; try lia; try assumption.
        intros u0 [=<-] _ _. exists ku. split; [exact Hku | lia].
    + exists old, ko. repeat split; try lia; try assumption.
      intros u0 [=<-] _ Hin'. apply str_in_In in Hin'. fold u' in Hin'. congruence.
  - exists old, ko. simpl. repeat split; try lia; try assumption.
    intros u [=].
Qed.

(** C1. Merging is non-destructive. A field of the update that is absent or
    empty once trimmed leaves that field of the farmer context as it was
    (the coordinates and the language are never touched); merging an
    observation keeps every earlier symptom and pest, in place, whenever it
    returns; and with an absent urgency in the update it does return, with
    the urgency unchanged. *)
Theorem C1_merge_non_destructive (C : FarmerContext) (O : Observation)
    (U : IntakeExtraction) :
  let C' := _merge_context rt C U in
  (blank rt (upd_farmer_name U) -> farmer_name C' = farmer_name C) /\
  (upd_land_size U = None -> land_size C' = land_size C) /\
  (blank rt (upd_land_unit U) -> land_unit C' = land_unit C) /\
  (blank rt (upd_crop U) -> crop C' = crop C) /\
  (blank rt (upd_stage U) -> stage C' = stage C) /\
  (blank rt (upd_location_text U) -> location_text C' = location_text C) /\
  (blank rt (upd_sowing_date U) -> sowing_date C' = sowing_date C) /\
  (blank rt (upd_irrigation U) -> irrigation C' = irrigation C) /\
  (blank rt (upd_soil_type U) -> soil_type C' = soil_type C) /\
  (blank rt (upd_notes U) -> notes C' = notes C) /\
  lat C' = lat C /\ lon C' = lon C /\ language C' = language C /\
  (forall O', _merge_observation rt O U = Ok O' ->
     symptoms O `prefix_of` symptoms O' /\ pests_seen O `prefix_of` pests_seen O') /\
  (opt_truthy (upd_urgency U) = false ->
     exists O', _merge_observation rt O U = Ok O' /\ urgency O' = urgency O).
Proof.
  simpl. repeat split; try (intros H; apply overwrite_blank; exact H).
  - intros ->. reflexivity.
  - intros H. rewrite (present_blank rt _ H). reflexivity.
  - unfold _merge_observation in H.
    destruct (merge_urgency rt (urgency O) (upd_urgency U)); [|discriminate].
    injection H as <-. apply fold_add_unique_prefix.
  - unfold _merge_observation in H.
    destruct (merge_urgency rt (urgency O) (upd_urgency U)); [|discriminate].
    injection H as <-. apply fold_add_unique_prefix.
  - intros H. unfold _merge_observation.
    rewrite (merge_urgency_absent _ _ H). eexists. split; reflexivity.
Qed.

Lemma merge_observation_returns (O : Observation) (U : IntakeExtraction) :
  In (urgency O) URGENCY_LEVELS -> exists O', _merge_observation rt O U = Ok O'.
Proof.
  intros Hlevel. destruct (order_level _ Hlevel) as [ko Hko].
  destruct (merge_urgency_level (urgency O) (upd_urgency U) ko Hko) as (new & _ & Hm & _).
  unfold _merge_observation. rewrite Hm. eexists. reflexivity.
Qed.

(** The ranks, key by key: nothing but the three levels has one. *)
Lemma order_ranks :
  order (py "low") = Ok 0%Z /\ order (py "medium") = Ok 1%Z /\
  order (py "high") = Ok 2%Z /\
  forall u k, order u = Ok k ->
    (u = py "low" /\ k = 0%Z) \/ (u = py "medium" /\ k = 1%Z) \/
    (u = py "high" /\ k = 2%Z).
Proof.
  split; [reflexivity|]. split; [reflexivity|]. split; [reflexivity|].
  intros u k. unfold order.
  destruct (str_eqb u (py "low")) eqn:E0;
    [apply str_eqb_eq in E0; intros [= <-]; left; split; [exact E0 | reflexivity]|].
  destruct (str_eqb u (py "medium")) eqn:E1;
    [apply str_eqb_eq in E1; intros [= <-]; right; left; split; [exact E1 | reflexivity]|].
  destruct (str_eqb u (py "high")) eqn:E2;
    [apply str_eqb_eq in E2; intros [= <-]; right; right; split; [exact E2 | reflexivity]
    |discriminate].
Qed.

Lemma urgency_level_cases (u : str) :
  In u URGENCY_LEVELS -> u = py "low" \/ u = py "medium" \/ u = py "high".
Proof.
  intros [H|[H|[H|[]]]]; rewrite <- H; auto.
Qed.

(** The merged urgency, level by level. *)
Lemma merge_urgency_levels (old u : str) :
  In old URGENCY_LEVELS -> u <> [] ->
  (lower rt (strip rt u) = py "high" ->
     merge_urgency rt old (Some u) = Ok (py "high")) /\
  (lower rt (strip rt u) = py "medium" -> old = py "low" ->
     merge_urgency rt old (Some u) = Ok (py "medium")) /\
  (lower rt (strip rt u) = py "medium" -> old <> py "low" ->
     merge_urgency rt old (Some u) = Ok old) /\
  (lower rt (strip rt u) = py "low" -> merge_urgency rt old (Some u) = Ok old).
Proof.
  intros Hold Hu. apply urgency_level_cases in Hold.
  unfold merge_urgency. destruct u as [|c u]; [congruence|].
  simpl opt_truthy. cbv iota. simpl default. cbv zeta.
  repeat split.
  - intros ->. destruct Hold as [-> | [-> | ->]]; reflexivity.
  - intros -> ->. reflexivity.
  - intros -> Hn. destruct Hold as [-> | [-> | ->]]; [congruence| |]; reflexivity.
  - intros ->. destruct Hold as [-> | [-> | ->]]; reflexivity.
Qed.

(** C5. Urgency only rises. When the old urgency is one of low, medium,
    high, merging an observation returns; the new urgency is again a
    level and does not rank below the old one; when the update carries a
    recognized level (once trimmed and lower-cased) the new rank is the
    maximum of the two ranks; and when the update carries no urgency or an
    unrecognized one the urgency is unchanged. The ranks are 0 for low, 1
    for medium and 2 for high, and nothing else has a rank. Level by
    level: high stays high and medium never becomes low; an update that
    says high gives high, one that says medium raises low to medium and
    leaves the rest, one that says low changes nothing. *)
Theorem C5_urgency_monotone (O : Observation) (U : IntakeExtraction) :
  In (urgency O) URGENCY_LEVELS ->
  exists O' ko kn,
    _merge_observation rt O U = Ok O' /\
    order (urgency O) = Ok ko /\ order (urgency O') = Ok kn /\ (ko <= kn)%Z /\
    (forall u, upd_urgency U = Some u -> u <> [] ->
       In (lower rt (strip rt u)) URGENCY_LEVELS ->
       exists ku, order (lower rt (strip rt u)) = Ok ku /\ kn = Z.max ko ku) /\
    ((opt_truthy (upd_urgency U) = false \/
      forall u, upd_urgency U = Some u -> ~ In (lower rt (strip rt u)) URGENCY_LEVELS) ->
     urgency O' = urgency O) /\
    (order (py "low") = Ok 0%Z /\ order (py "medium") = Ok 1%Z /\
     order (py "high") = Ok 2%Z /\
     forall u k, order u = Ok k ->
       (u = py "low" /\ k = 0%Z) \/ (u = py "medium" /\ k = 1%Z) \/
       (u = py "high" /\ k = 2%Z)) /\
    In (urgency O') URGENCY_LEVELS /\
    (urgency O = py "high" -> urgency O' = py "high") /\
    (urgency O = py "medium" -> urgency O' = py "medium" \/ urgency O' = py "high") /\
    (forall u, upd_urgency U = Some u -> u <> [] ->
       (lower rt (strip rt u) = py "high" -> urgency O' = py "high") /\
       (lower rt (strip rt u) = py "medium" -> urgency O = py "low" ->
          urgency O' = py "medium") /\
       (lower rt (strip rt u) = py "medium" -> urgency O <> py "low" ->
          urgency O' = urgency O) /\
       (lower rt (strip rt u) = py "low" -> urgency O' = urgency O)).
Proof.
  intros Hlevel. destruct (order_level _ Hlevel) as [ko Hko].
  destruct (merge_urgency_level (urgency O) (upd_urgency U) ko Hko)
    as (new & kn & Hm & Hkn & Hle & Hmax & Hsame).
  destruct order_ranks as (Hlow & Hmedium & Hhigh & Hranks).
  unfold _merge_observation. rewrite Hm. cbn [rbind].
  eexists _, ko, kn. split; [reflexivity|]. cbn [urgency].
  split; [exact Hko|]. split; [exact Hkn|]. split; [exact Hle|].
  split; [exact Hmax|]. split; [exact Hsame|].
  split; [exact (conj Hlow (conj Hmedium (conj Hhigh Hranks)))|].
  split.
  { destruct (Hranks new kn Hkn) as [[-> _]|[[-> _]|[-> _]]];
      [left | right; left | right; right; left]; reflexivity. }
  split.
  { intros Ho. rewrite Ho, Hhigh in Hko. injection Hko as <-.
    destruct (Hranks new kn Hkn) as [[_ ->]|[[_ ->]|[-> _]]]; [lia | lia | reflexivity]. }
  split.
  { intros Ho. rewrite Ho, Hmedium in Hko. injection Hko as <-.
    destruct (Hranks new kn Hkn) as [[_ ->]|[[-> _]|[-> _]]];
      [lia | left; reflexivity | right; reflexivity]. }
  intros u Hu Hne. rewrite Hu in Hm.
  destruct (merge_urgency_levels (urgency O) u Hlevel Hne) as (H1 & H2 & H3 & H4).
  split; [intros E; rewrite (H1 E) in Hm; injection Hm as <-; reflexivity|].
  split; [intros E Eo; rewrite (H2 E Eo) in Hm; injection Hm as <-; reflexivity|].
  split; [intros E Eo; rewrite (H3 E Eo) in Hm; injection Hm as <-; reflexivity|].
  intros E; rewrite (H4 E) in Hm; injection Hm as <-; reflexivity.
Qed.

End MergeFacts.

(** ** The staleness tests *)

Section StalenessFacts.

Variable rt : Runtime.

(** The shared comparison answers [True] exactly on a stale timestamp, and
    answers at all unless the timestamp is naive. *)
Lemma older_than_Stale (now : Z) (fetched : str) (max_age : Z) :
  older_than rt now fetched max_age = Ok true <-> Stale rt now (Some fetched) max_age.
Proof.
  unfold older_than, Stale.
  destruct (fromisoformat rt fetched) as [[us|us]|].
  - split; [discriminate | intros []].
  - split.
    + intros [= H]. apply Z.ltb_lt in H. lia.
    + intros H. f_equal. apply Z.ltb_lt. lia.
  - split; [intros _; exact I | reflexivity].
Qed.

Lemma older_than_at_threshold (now t : Z) (fetched : str) (max_age : Z) :
  fromisoformat rt fetched = Some (Aware t) -> (now - t = max_age)%Z ->
  older_than rt now fetched max_age = Ok false.
Proof.
  intros Hp Hage. unfold older_than. rewrite Hp. f_equal.
  apply Z.ltb_ge. lia.
Qed.

Ltac stale_iff snapshot :=
  destruct snapshot; simpl; [apply older_than_Stale | split; auto].

(** C4. Each staleness test, with the threshold of its category (weather 6
    hours, web 24 hours, schemes 7 days, market 12 hours, in microseconds),
    answers true exactly when the snapshot is absent, its timestamp does
    not parse, or now minus the fetch time is strictly greater than the
    threshold; and at an age equal to the threshold it answers false. *)
Theorem C4_stale_iff_absent_unparsed_or_older (now : Z) (state : GraphState) :
  (_is_weather_stale rt now state WEATHER_MAX_AGE_HOURS = Ok true
     <-> Stale rt now (weather_fetched_at_utc <$> weather state) (6 * 3600 * 1000000)) /\
  (_is_web_stale rt now state WEB_MAX_AGE_HOURS = Ok true
     <-> Stale rt now (web_fetched_at_utc <$> web state) (24 * 3600 * 1000000)) /\
  (_is_schemes_stale rt now state SCHEMES_MAX_AGE_DAYS = Ok true
     <-> Stale rt now (schemes_fetched_at_utc <$> schemes state) (7 * 24 * 3600 * 1000000)) /\
  (_is_market_stale rt now state MARKET_MAX_AGE_HOURS = Ok true
     <-> Stale rt now (market_fetched_at_utc <$> market state) (12 * 3600 * 1000000)) /\
  (forall w t, weather state = Some w ->
     fromisoformat rt (weather_fetched_at_utc w) = Some (Aware t) ->
     (now - t = 6 * 3600 * 1000000)%Z ->
     _is_weather_stale rt now state WEATHER_MAX_AGE_HOURS = Ok false) /\
  (forall w t, web state = Some w ->
     fromisoformat rt (web_fetched_at_utc w) = Some (Aware t) ->
     (now - t = 24 * 3600 * 1000000)%Z ->
     _is_web_stale rt now state WEB_MAX_AGE_HOURS = Ok false) /\
  (forall w t, schemes state = Some w ->
     fromisoformat rt (schemes_fetched_at_utc w) = Some (Aware t) ->
     (now - t = 7 * 24 * 3600 * 1000000)%Z ->
     _is_schemes_stale rt now state SCHEMES_MAX_AGE_DAYS = Ok false) /\
  (forall w t, market state = Some w ->
     fromisoformat rt (market_fetched_at_utc w) = Some (Aware t) ->
     (now - t = 12 * 3600 * 1000000)%Z ->
     _is_market_stale rt now state MARKET_MAX_AGE_HOURS = Ok false).
Proof.
  unfold _is_weather_stale, _is_web_stale, _is_schemes_stale, _is_market_stale.
  split; [stale_iff (weather state)|].
  split; [stale_iff (web state)|].
  split; [stale_iff (schemes state)|].
  split; [stale_iff (market state)|].
  repeat split; intros w t -> Hp Hage; eapply older_than_at_threshold; eauto.
Qed.

End StalenessFacts.

(** ** The routing decision *)

Section RoutingFacts.

Variable rt : Runtime.

(** C6. The buy button wins. When the most recent user message is the buy
    marker, the routing answers [buy], whatever else the state holds. *)
Theorem C6_buy_marker_routes_to_buy (now : Z) (state : GraphState) :
  _last_user_text rt state = ACTION_BUY ->
  _route rt now state = Ok (py "buy").
Proof.
  intros H. unfold _route. rewrite H. reflexivity.
Qed.

(** C2, as the code has it. When the most recent user message is the crop
    recommendation marker and a location is known (both coordinates
    non-zero, or a location text that is not blank), the routing answers
    [crop_reco], whether or not a crop is known. *)
Theorem C2_reco_marker_with_location (now : Z) (state : GraphState) :
  _last_user_text rt state = ACTION_CROP_RECO ->
  _has_location rt state = true ->
  _route rt now state = Ok (py "crop_reco").
Proof.
  intros H Hloc. unfold _route. rewrite H, Hloc. reflexivity.
Qed.

(** The text the routing looks at is the trimmed content of the last entry
    of the log when a user wrote that entry. *)
Lemma last_user_text_snoc (state : GraphState) (ms : list message) (text : str) :
  messages state = ms ++ [user_message text] ->
  _last_user_text rt state = strip rt text.
Proof.
  intros H. unfold _last_user_text. rewrite H, rev_unit. reflexivity.
Qed.

End RoutingFacts.

(** C2, as stated, fails: the marker alone does not suffice. On an empty
    profile the button is answered with a question, not a recommendation. *)
Lemma C2_marker_alone_does_not_suffice :
  ~ (forall rt now state,
       _last_user_text rt state = ACTION_CROP_RECO ->
       _route rt now state = Ok (py "crop_reco")).
Proof.
  intros H.
  specialize (H ascii_runtime 0%Z st_reco_pressed_nowhere eq_refl).
  vm_compute in H. discriminate H.
Qed.

(** What the button does where no location is known: the photo first if
    one is waiting, a question otherwise. *)
Lemma reco_marker_without_location (now : Z) (state : GraphState) :
  _last_user_text ascii_runtime state = ACTION_CROP_RECO ->
  _has_location ascii_runtime state = false ->
  _route ascii_runtime now state = Ok (py "vision") \/
  _route ascii_runtime now state = Ok (py "ask").
Proof.
  intros H Hloc. unfold _route. rewrite H, Hloc.
  change (str_eqb ACTION_CROP_RECO ACTION_BUY) with false.
  change (_is_stage_update_message ascii_runtime ACTION_CROP_RECO) with false.
  change (str_eqb ACTION_CROP_RECO ACTION_DIGEST) with false.
  rewrite !andb_false_r. cbn [andb negb].
  destruct (is_some (last_image state) && negb (is_some (image_diagnosis state)));
    [left; reflexivity|].
  right.
  assert (Hneeds : _needs_profile_questions ascii_runtime state = true).
  { unfold _needs_profile_questions. unfold _has_location in Hloc.
    apply orb_false_iff in Hloc. destruct Hloc as [-> ->].
    destruct (negb (opt_truthy _)); reflexivity. }
  rewrite Hneeds. reflexivity.
Qed.

Example route_reco_pressed_nowhere :
  _route ascii_runtime 0 st_reco_pressed_nowhere = Ok (py "ask").
Proof. reflexivity. Qed.

(** ** Coordinates *)

Section CoordinateFacts.

Variable rt : Runtime.

(** C10. [extract_lat_lon] returns for every text, and what it returns is
    either no coordinates at all or a latitude between -90 and 90 with a
    longitude between -180 and 180; so a coordinate that the intake step
    writes into the context, where there was none, is in range. *)
Theorem C10_extracted_coordinates_in_range (text : str) :
  (extract_lat_lon rt text = (None, None) \/
   exists la lo, extract_lat_lon rt text = (Some la, Some lo) /\
                 valid_latitude la /\ valid_longitude lo) /\
  (forall env i state state',
     intake_node rt env i state = Ok state' ->
     (lat (context state') = lat (context state) \/
      exists la, lat (context state') = Some la /\ valid_latitude la) /\
     (lon (context state') = lon (context state) \/
      exists lo, lon (context state') = Some lo /\ valid_longitude lo)).
Proof.
  assert (Hext : forall text,
    extract_lat_lon rt text = (None, None) \/
    exists la lo, extract_lat_lon rt text = (Some la, Some lo) /\
                  valid_latitude la /\ valid_longitude lo).
  { clear text. intros text. unfold extract_lat_lon.
    destruct (negb (nonempty text)); [left; reflexivity|].
    destruct (re_search _ _) as [m|]; [|left; reflexivity].
    destruct (float_of_numeral rt (group LAT m)) as [la|]; [|left; reflexivity].
    destruct (float_of_numeral rt (group LON m)) as [lo|]; [|left; reflexivity].
    destruct (SF64leb (float_of_Z (-90)) la) eqn:H1; [|left; reflexivity].
    destruct (SF64leb la (float_of_Z 90)) eqn:H2; [|left; reflexivity].
    destruct (SF64leb (float_of_Z (-180)) lo) eqn:H3; [|left; reflexivity].
    destruct (SF64leb lo (float_of_Z 180)) eqn:H4; [|left; reflexivity].
    right. exists la, lo. unfold valid_latitude, valid_longitude. auto. }
  split; [apply Hext|].
  intros env i state state' H. unfold intake_node in H.
  destruct (opt_truthy _) in H; [injection H as <-; simpl; auto|].
  destruct (_is_action_message _) in H; [injection H as <-; simpl; auto|].
  set (last_user := _last_user_text rt state) in *.
  assert (Hctx : forall c,
    c = match extract_lat_lon rt last_user with
        | (Some la, Some lo) =>
            set_position (context state) (float_or (lat (context state)) la)
                         (float_or (lon (context state)) lo)
                         (location_text (context state))
        | _ => context state
        end ->
    (lat c = lat (context state) \/ exists la, lat c = Some la /\ valid_latitude la) /\
    (lon c = lon (context state) \/ exists lo, lon c = Some lo /\ valid_longitude lo)).
  { intros c ->. destruct (Hext last_user) as [-> | (la & lo & -> & Hla & Hlo)];
      [auto|]. simpl. unfold float_or. split.
    - destruct (lat (context state)) as [x|]; [destruct (float_truthy x)|]; eauto.
    - destruct (lon (context state)) as [x|]; [destruct (float_truthy x)|]; eauto. }
  match type of H with
  | context [llm_intake env i ?c _ _] => specialize (Hctx c eq_refl); set (ctx := c) in *
  end.
  destruct (llm_intake env i ctx (observation state) last_user) as [upd|e].
  - destruct (_merge_observation rt (observation state) upd); [|discriminate].
    injection H as <-. exact Hctx.
  - injection H as <-. exact Hctx.
Qed.

(** The intake step returns unless merging the observation raises, and
    that needs an urgency outside the three levels in the old observation. *)
Lemma intake_node_returns (env : Env) (i : nat) (state : GraphState) :
  In (urgency (observation state)) URGENCY_LEVELS ->
  exists state', intake_node rt env i state = Ok state'.
Proof.
  intros Hlevel. unfold intake_node.
  destruct (opt_truthy _); [eexists; reflexivity|].
  destruct (_is_action_message _); [eexists; reflexivity|].
  destruct (llm_intake env i _ _ _) as [upd|e]; [|eexists; reflexivity].
  destruct (merge_observation_returns rt (observation state) upd Hlevel) as [O' ->].
  eexists. reflexivity.
Qed.

End CoordinateFacts.

(** ** The response coercion layer *)

Section CoercionFacts.

Variable rt : Runtime.
Variable py_repr : jval -> str.

Lemma stripped_parts_cons (p : str) (ps : list str) :
  stripped_parts rt (p :: ps) =
  if nonempty (strip rt p) then strip rt p :: stripped_parts rt ps
  else stripped_parts rt ps.
Proof.
  unfold stripped_parts. simpl. rewrite filter_cons.
  destruct (nonempty (strip rt p)); destruct (decide _); congruence.
Qed.

(** Pieces that are already trimmed and not empty pass the second
    trimming of [safe_parse_advisory] unchanged. *)
Lemma stripped_items_of_parts (parts : list str) :
  stripped_items rt py_repr (map JStr (stripped_parts rt parts)) = stripped_parts rt parts.
Proof.
  induction parts as [|p ps IH]; [reflexivity|].
  rewrite stripped_parts_cons.
  destruct (nonempty (strip rt p)) eqn:E; [|exact IH].
  unfold stripped_items in *. simpl. rewrite filter_cons, strip_idemp.
  destruct (decide _) as [_|Hn]; [|congruence].
  f_equal. exact IH.
Qed.

Lemma advisory_list_of_string (d : list (str * jval)) (k : string) (s : str) :
  s <> [] -> get_key d k = JStr s ->
  stripped_items rt py_repr (advisory_list rt d k)
  = stripped_parts rt (split_on is_newline s).
Proof.
  intros Hs Hk. unfold advisory_list, py_or. rewrite Hk.
  destruct s; [congruence|]. simpl truthy. cbv iota.
  apply stripped_items_of_parts.
Qed.

Lemma coerce_confidence_level (d : list (str * jval)) :
  In (coerce_confidence rt py_repr d) CONFIDENCE_LEVELS.
Proof.
  unfold coerce_confidence.
  destruct (str_in _ CONFIDENCE_LEVELS) eqn:E.
  - apply str_in_In. exact E.
  - simpl. auto.
Qed.

Lemma coerce_confidence_spec (d : list (str * jval)) :
  let v := get_key d "confidence" in
  (truthy v = true -> In (lower rt (strip rt (py_str py_repr v))) CONFIDENCE_LEVELS ->
     coerce_confidence rt py_repr d = lower rt (strip rt (py_str py_repr v))) /\
  (truthy v = true -> ~ In (lower rt (strip rt (py_str py_repr v))) CONFIDENCE_LEVELS ->
     coerce_confidence rt py_repr d = py "medium") /\
  (truthy v = false -> plain_word rt (py "medium") ->
     coerce_confidence rt py_repr d = py "medium").
Proof.
  cbv zeta. unfold coerce_confidence, py_or. repeat split.
  - intros -> Hin. apply str_in_In in Hin. rewrite Hin. reflexivity.
  - intros -> Hn. destruct (str_in _ _) eqn:E; [|reflexivity].
    apply str_in_In in E. contradiction.
  - intros -> [Hs Hl]. simpl py_str. rewrite Hs, Hl. reflexivity.
Qed.

Lemma coerce_needs_review_spec (d : list (str * jval)) :
  (forall s, get_key d "needs_human_review" = JStr s ->
     In (lower rt (strip rt s)) (map py ["true"; "yes"; "1"]%string) ->
     coerce_needs_review rt d = true) /\
  (forall b, get_key d "needs_human_review" = JBool b -> coerce_needs_review rt d = b).
Proof.
  unfold coerce_needs_review. split.
  - intros s -> Hin. apply str_in_In. exact Hin.
  - intros b ->. reflexivity.
Qed.

Lemma length_take_le {A} (n : nat) (l : list A) : (length (take n l) <= n)%nat.
Proof. rewrite length_take. lia. Qed.

(** The trimmed, non-empty renderings of the items of a list, written
    without the helper of the model. *)
Lemma stripped_items_are (l : list jval) :
  stripped_items rt py_repr l
  = filter (fun s => s <> []) (map (fun v => strip rt (py_str py_repr v)) l).
Proof.
  unfold stripped_items. apply list_filter_iff. intros s.
  destruct s; cbn [nonempty]; split; congruence.
Qed.

Lemma stripped_parts_are (parts : list str) :
  stripped_parts rt parts = filter (fun s => s <> []) (map (strip rt) parts).
Proof.
  unfold stripped_parts. apply list_filter_iff. intros s.
  destruct s; cbn [nonempty]; split; congruence.
Qed.

Lemma advisory_list_of_list (d : list (str * jval)) (k : string) (l : list jval) :
  get_key d k = JList l -> advisory_list rt d k = l.
Proof.
  intros Hk. unfold advisory_list, py_or. rewrite Hk. destruct l; reflexivity.
Qed.

Lemma advisory_list_of_other (d : list (str * jval)) (k : string) :
  (forall s, get_key d k <> JStr s) -> (forall l, get_key d k <> JList l) ->
  advisory_list rt d k = [].
Proof.
  intros Hs Hl. unfold advisory_list, py_or.
  destruct (get_key d k) as [|b|z|f|s|l|it] eqn:E; cbn [truthy].
  - reflexivity.
  - destruct b; reflexivity.
  - destruct (negb _); reflexivity.
  - destruct (float_truthy f); reflexivity.
  - destruct (Hs s eq_refl).
  - destruct (Hl l eq_refl).
  - destruct it; reflexivity.
Qed.

Lemma split_lines_of_other (v : jval) :
  (forall s, v <> JStr s) -> (forall l, v <> JList l) ->
  _split_lines_to_list rt py_repr v = [].
Proof.
  intros Hs Hl. destruct v as [| | | |s|l|it]; try reflexivity.
  - destruct (Hs s eq_refl).
  - destruct (Hl l eq_refl).
Qed.

Lemma first_issue_blank (d : list (str * jval)) (keys : list string) :
  (forall k, In k keys -> forall s, get_key d k = JStr s -> strip rt s = []) ->
  first_issue rt d (map py keys) = None.
Proof.
  induction keys as [|k keys IH]; intros H; [reflexivity|].
  cbn [map first_issue].
  assert (IH' : first_issue rt d (map py keys) = None)
    by (apply IH; intros k' Hk'; apply H; right; exact Hk').
  pose proof (H k (or_introl eq_refl)) as Hk. unfold get_key in Hk.
  destruct (dict_get d (py k)); try exact IH'.
  rewrite (Hk _ eq_refl). exact IH'.
Qed.

(** C3, as the code has it. On every JSON object [safe_parse_advisory]
    returns an advisory: at most 5 actions, 3 cautions, 2 safety notes and
    220 characters of rationale; a confidence that is one of low, medium,
    high, namely the given one when it is recognized and medium when it is
    unrecognized or missing; a review flag that is true for the strings
    true, yes and 1 in any case and with blanks around; a headline that is
    never empty, the placeholder when the given one is missing or blank;
    and a list field given as a string is split at newlines (only there),
    its pieces trimmed and the empty ones dropped. What is kept is the
    beginning: the rationale is the first 220 characters of the trimmed
    text, the headline the trimmed text, a list field the first 5, 3 or 2
    of its trimmed non-empty entries, in order, and empty when the value
    is neither a list nor a string; the review flag is true for those
    three strings only, a boolean is kept, anything else is false. The
    image diagnosis coercer caps causes and actions at 3 and cautions at
    2, never leaves the issue empty, and is the one that splits a string
    at newlines, bullets and hyphens; it keeps, of the first key that
    holds something, the first 3, 3 or 2 trimmed non-empty entries, the
    trimmed issue when there is one and a fixed sentence when the six
    keys hold no text. *)
Theorem C3_coercion_caps_and_defaults (d : list (str * jval)) :
  (exists a,
     safe_parse_advisory rt py_repr (JDict d) = Ok a /\
     (length (actions_now a) <= 5)%nat /\
     (length (watch_out_for a) <= 3)%nat /\
     (length (safety_notes a) <= 2)%nat /\
     (length (rationale_brief a) <= 220)%nat /\
     In (confidence a) CONFIDENCE_LEVELS /\
     confidence a = coerce_confidence rt py_repr d /\
     needs_human_review a = coerce_needs_review rt d /\
     headline a <> [] /\
     (strip rt (py_str py_repr (py_or (get_key d "headline") (JStr []))) = [] ->
        headline a = py "Advisory update") /\
     (forall s, s <> [] -> get_key d "actions_now" = JStr s ->
        actions_now a = take 5 (stripped_parts rt (split_on is_newline s))) /\
     (forall s, s <> [] -> get_key d "watch_out_for" = JStr s ->
        watch_out_for a = take 3 (stripped_parts rt (split_on is_newline s))) /\
     (forall s, s <> [] -> get_key d "safety_notes" = JStr s ->
        safety_notes a = take 2 (stripped_parts rt (split_on is_newline s))) /\
     rationale_brief a
     = take 220 (strip rt (py_str py_repr (py_or (get_key d "rationale_brief") (JStr [])))) /\
     (strip rt (py_str py_repr (py_or (get_key d "headline") (JStr []))) <> [] ->
        headline a = strip rt (py_str py_repr (py_or (get_key d "headline") (JStr [])))) /\
     (forall l, get_key d "actions_now" = JList l ->
        actions_now a
        = take 5 (filter (fun s => s <> [])
                         (map (fun v => strip rt (py_str py_repr v)) l))) /\
     (forall l, get_key d "watch_out_for" = JList l ->
        watch_out_for a
        = take 3 (filter (fun s => s <> [])
                         (map (fun v => strip rt (py_str py_repr v)) l))) /\
     (forall l, get_key d "safety_notes" = JList l ->
        safety_notes a
        = take 2 (filter (fun s => s <> [])
                         (map (fun v => strip rt (py_str py_repr v)) l))) /\
     (forall s, s <> [] -> get_key d "actions_now" = JStr s ->
        actions_now a
        = take 5 (filter (fun p => p <> []) (map (strip rt) (split_on is_newline s)))) /\
     (forall s, s <> [] -> get_key d "watch_out_for" = JStr s ->
        watch_out_for a
        = take 3 (filter (fun p => p <> []) (map (strip rt) (split_on is_newline s)))) /\
     (forall s, s <> [] -> get_key d "safety_notes" = JStr s ->
        safety_notes a
        = take 2 (filter (fun p => p <> []) (map (strip rt) (split_on is_newline s)))) /\
     ((forall s, get_key d "actions_now" <> JStr s) ->
      (forall l, get_key d "actions_now" <> JList l) -> actions_now a = []) /\
     ((forall s, get_key d "watch_out_for" <> JStr s) ->
      (forall l, get_key d "watch_out_for" <> JList l) -> watch_out_for a = []) /\
     ((forall s, get_key d "safety_notes" <> JStr s) ->
      (forall l, get_key d "safety_notes" <> JList l) -> safety_notes a = []) /\
     (forall s, get_key d "needs_human_review" = JStr s ->
        (needs_human_review a = true <->
         In (lower rt (strip rt s)) (map py ["true"; "yes"; "1"]%string))) /\
     (forall b, get_key d "needs_human_review" = JBool b -> needs_human_review a = b) /\
     ((forall s, get_key d "needs_human_review" <> JStr s) ->
      (forall b, get_key d "needs_human_review" <> JBool b) ->
      needs_human_review a = false)) /\
  (let v := get_key d "confidence" in
   (truthy v = true -> In (lower rt (strip rt (py_str py_repr v))) CONFIDENCE_LEVELS ->
      coerce_confidence rt py_repr d = lower rt (strip rt (py_str py_repr v))) /\
   (truthy v = true -> ~ In (lower rt (strip rt (py_str py_repr v))) CONFIDENCE_LEVELS ->
      coerce_confidence rt py_repr d = py "medium") /\
   (truthy v = false -> plain_word rt (py "medium") ->
      coerce_confidence rt py_repr d = py "medium")) /\
  (forall s, get_key d "needs_human_review" = JStr s ->
     In (lower rt (strip rt s)) (map py ["true"; "yes"; "1"]%string) ->
     coerce_needs_review rt d = true) /\
  (let g := _coerce_image_diagnosis rt py_repr d in
   (length (likely_causes g) <= 3)%nat /\
   (length (diag_actions_now g) <= 3)%nat /\
   (length (diag_watch_out_for g) <= 2)%nat /\
   In (diag_confidence g) CONFIDENCE_LEVELS /\
   issue g <> [] /\
   (forall s, s <> [] -> get_key d "likely_causes" = JStr s ->
      likely_causes g
      = take 3 (stripped_parts rt (split_runs is_line_delimiter false (strip rt s)))) /\
   (forall s, get_key d "issue" = JStr s -> strip rt s <> [] -> issue g = strip rt s) /\
   ((forall k, In k ["issue"; "problem"; "disease"; "diagnosis"; "issue_detected";
                     "observation"]%string ->
               forall s, get_key d k = JStr s -> strip rt s = []) ->
    issue g = UNCLEAR_ISSUE) /\
   (let causes := py_or (get_key d "likely_causes") (get_key d "causes") in
    let actions := py_or (py_or (get_key d "actions_now") (get_key d "actions"))
                         (get_key d "remedy") in
    let watch := py_or (py_or (get_key d "watch_out_for") (get_key d "precautions"))
                       (get_key d "watch") in
    (forall l, causes = JList l ->
       likely_causes g
       = take 3 (filter (fun s => s <> [])
                        (map (fun v => strip rt (py_str py_repr v)) l))) /\
    (forall l, actions = JList l ->
       diag_actions_now g
       = take 3 (filter (fun s => s <> [])
                        (map (fun v => strip rt (py_str py_repr v)) l))) /\
    (forall l, watch = JList l ->
       diag_watch_out_for g
       = take 2 (filter (fun s => s <> [])
                        (map (fun v => strip rt (py_str py_repr v)) l))) /\
    (forall s, causes = JStr s ->
       likely_causes g
       = take 3 (filter (fun p => p <> [])
                        (map (strip rt)
                             (split_runs is_line_delimiter false (strip rt s))))) /\
    (forall s, actions = JStr s ->
       diag_actions_now g
       = take 3 (filter (fun p => p <> [])
                        (map (strip rt)
                             (split_runs is_line_delimiter false (strip rt s))))) /\
    (forall s, watch = JStr s ->
       diag_watch_out_for g
       = take 2 (filter (fun p => p <> [])
                        (map (strip rt)
                             (split_runs is_line_delimiter false (strip rt s))))) /\
    ((forall s, causes <> JStr s) -> (forall l, causes <> JList l) ->
     likely_causes g = []) /\
    ((forall s, actions <> JStr s) -> (forall l, actions <> JList l) ->
     diag_actions_now g = []) /\
    ((forall s, watch <> JStr s) -> (forall l, watch <> JList l) ->
     diag_watch_out_for g = []))).
Proof.
  split; [|split; [apply coerce_confidence_spec|split; [apply coerce_needs_review_spec|]]].
  - eexists. split; [reflexivity|].
    cbn [headline actions_now watch_out_for safety_notes rationale_brief confidence
         needs_human_review].
    split; [apply length_take_le|]. split; [apply length_take_le|].
    split; [apply length_take_le|].
    split.
    { destruct (220 <? _)%nat eqn:E; [apply length_take_le | apply Nat.ltb_ge in E; exact E]. }
    split; [apply coerce_confidence_level|].
    split; [reflexivity|]. split; [reflexivity|].
    split.
    { destruct (nonempty _) eqn:E; [|discriminate].
      intros H. rewrite H in E. discriminate. }
    split.
    { intros ->. reflexivity. }
    split; [intros s Hs Hk; f_equal; apply advisory_list_of_string; assumption|].
    split; [intros s Hs Hk; f_equal; apply advisory_list_of_string; assumption|].
    split; [intros s Hs Hk; f_equal; apply advisory_list_of_string; assumption|].
    split.
    { destruct (220 <? _)%nat eqn:E; [reflexivity|].
      apply Nat.ltb_ge in E. symmetry. apply take_ge. exact E. }
    split.
    { intros H. destruct (strip rt _); [congruence | reflexivity]. }
    split; [intros l Hk; rewrite (advisory_list_of_list d _ l Hk), stripped_items_are;
            reflexivity|].
    split; [intros l Hk; rewrite (advisory_list_of_list d _ l Hk), stripped_items_are;
            reflexivity|].
    split; [intros l Hk; rewrite (advisory_list_of_list d _ l Hk), stripped_items_are;
            reflexivity|].
    split; [intros s Hs Hk; rewrite (advisory_list_of_string d _ s Hs Hk),
                                    stripped_parts_are; reflexivity|].
    split; [intros s Hs Hk; rewrite (advisory_list_of_string d _ s Hs Hk),
                                    stripped_parts_are; reflexivity|].
    split; [intros s Hs Hk; rewrite (advisory_list_of_string d _ s Hs Hk),
                                    stripped_parts_are; reflexivity|].
    split; [intros Hs Hl; rewrite (advisory_list_of_other d _ Hs Hl); reflexivity|].
    split; [intros Hs Hl; rewrite (advisory_list_of_other d _ Hs Hl); reflexivity|].
    split; [intros Hs Hl; rewrite (advisory_list_of_other d _ Hs Hl); reflexivity|].
    unfold coerce_needs_review.
    split; [intros s ->; apply str_in_In|].
    split; [intros b ->; reflexivity|].
    intros Hs Hb. destruct (get_key d "needs_human_review") as [|b| | |s| |]; try reflexivity.
    + destruct (Hb b eq_refl).
    + destruct (Hs s eq_refl).
  - cbv zeta. unfold _coerce_image_diagnosis.
    cbn [likely_causes diag_actions_now diag_watch_out_for diag_confidence issue].
    split; [apply length_take_le|]. split; [apply length_take_le|].
    split; [apply length_take_le|]. split; [apply coerce_confidence_level|].
    split.
    { destruct (first_issue _ _ _) as [s|]; [|discriminate].
      destruct (nonempty s) eqn:E; [|discriminate].
      intros ->. discriminate. }
    split.
    { intros s Hs Hk. unfold py_or. rewrite Hk.
      destruct s; [congruence|]. reflexivity. }
    split.
    { intros s Hk Hs. cbn [map first_issue]. unfold get_key in Hk. rewrite Hk.
      destruct (strip rt s) eqn:E; [congruence|]. reflexivity. }
    split.
    { intros H.
      rewrite (first_issue_blank d ["issue"; "problem"; "disease"; "diagnosis";
                                    "issue_detected"; "observation"]%string H).
      reflexivity. }
    split; [intros l ->; cbn [_split_lines_to_list]; rewrite stripped_items_are;
            reflexivity|].
    split; [intros l ->; cbn [_split_lines_to_list]; rewrite stripped_items_are;
            reflexivity|].
    split; [intros l ->; cbn [_split_lines_to_list]; rewrite stripped_items_are;
            reflexivity|].
    split; [intros s ->; cbn [_split_lines_to_list]; rewrite stripped_parts_are;
            reflexivity|].
    split; [intros s ->; cbn [_split_lines_to_list]; rewrite stripped_parts_are;
            reflexivity|].
    split; [intros s ->; cbn [_split_lines_to_list]; rewrite stripped_parts_are;
            reflexivity|].
    split; [intros Hs Hl; rewrite (split_lines_of_other _ Hs Hl); reflexivity|].
    split; [intros Hs Hl; rewrite (split_lines_of_other _ Hs Hl); reflexivity|].
    intros Hs Hl; rewrite (split_lines_of_other _ Hs Hl); reflexivity.
Qed.

End CoercionFacts.

(** C3, as stated, fails for bullets: [safe_parse_advisory] keeps a
    bullet-delimited string as one entry, bullets included, where the
    image diagnosis coercer splits the same string in two. *)
Lemma C3_advisory_does_not_split_at_bullets :
  let d := [(py "actions_now", JStr (py "• spray neem • drain field"))] in
  exists a,
    safe_parse_advisory ascii_runtime scalar_repr (JDict d) = Ok a /\
    actions_now a = [py "• spray neem • drain field"] /\
    actions_now a <> [py "spray neem"; py "drain field"] /\
    diag_actions_now (_coerce_image_diagnosis ascii_runtime scalar_repr d)
    = [py "spray neem"; py "drain field"].
Proof.
  eexists. split; [reflexivity|]. split; [reflexivity|].
  split; [discriminate | reflexivity].
Qed.

(** ** The routing loop *)

Section LoopFacts.

Variable rt : Runtime.
Variable py_repr : jval -> str.
Variable env : Env.

Lemma route_edges_weather : route_edges (py "weather") = Some Weather.
Proof. reflexivity. Qed.

Lemma route_edges_schemes : route_edges (py "schemes") = Some Schemes.
Proof. reflexivity. Qed.

Lemma run_graph_S (fuel i : nat) (n : node) (state : GraphState) :
  run_graph rt py_repr env (S fuel) i n state =
  rbind (run_node rt py_repr env i n state) (fun state' =>
  rbind (next_node rt env i n state') (fun next =>
  match next with
  | None => Ok state'
  | Some n' => run_graph rt py_repr env fuel (S i) n' state'
  end)).
Proof. reflexivity. Qed.

(** With the coordinates known and the weather provider failing, the
    weather step changes nothing but the name of the last step. *)
Lemma weather_node_failure (i : nat) (state : GraphState) :
  both_truthy (lat (context state)) (lon (context state)) = true ->
  (forall la lo, tools_weather env i la lo = Raise ToolError) ->
  weather_node env i state = Ok (set_last_node state (Some (py "weather"))).
Proof.
  intros Hll Hfail. destruct state as [? ? ? ? c ? ? ? ? ? ? ? ?].
  unfold weather_node. cbn [context] in *. rewrite Hll. cbn [negb andb rbind].
  rewrite Hll. cbn [negb].
  destruct (lat c) as [la|]; [|discriminate].
  destruct (lon c) as [lo|]; [|discriminate].
  rewrite Hfail. reflexivity.
Qed.

(** With no location text, the schemes step calls no provider and changes
    nothing but the name of the last step. *)
Lemma schemes_node_without_text (i : nat) (state : GraphState) :
  opt_truthy (location_text (context state)) = false ->
  schemes_node env i state = Ok (set_last_node state (Some (py "schemes"))).
Proof. intros H. unfold schemes_node. rewrite H. reflexivity. Qed.

(** A failing weather provider keeps the loop between [plan] and
    [weather]: when the routing selects [weather], at whatever step
    and whatever step ran last, and the provider fails at every call, no
    amount of steps brings the run to a terminal step. *)
Lemma weather_failure_never_ends (state : GraphState) :
  (forall i la lo, tools_weather env i la lo = Raise ToolError) ->
  both_truthy (lat (context state)) (lon (context state)) = true ->
  (forall i ln, _route rt (clock env i) (set_last_node state ln) = Ok (py "weather")) ->
  forall fuel i ln,
    run_graph rt py_repr env fuel i Plan (set_last_node state ln)
      = Raise GraphRecursionError /\
    run_graph rt py_repr env fuel i Weather (set_last_node state ln)
      = Raise GraphRecursionError.
Proof.
  intros Hfail Hll Hroute fuel.
  induction fuel as [|fuel IH]; intros i ln; [split; reflexivity|].
  split.
  - rewrite run_graph_S.
    change (run_node rt py_repr env i Plan (set_last_node state ln))
      with (Ok (A:=GraphState) (set_last_node state (Some (py "plan")))).
    cbn [rbind]. unfold next_node. rewrite Hroute. cbn [rbind].
    rewrite route_edges_weather. apply IH.
  - rewrite run_graph_S. unfold run_node.
    rewrite weather_node_failure by (auto || exact Hll).
    cbn [rbind next_node edge]. apply IH.
Qed.

(** The same loop without any failure: when the routing selects [schemes]
    and the context has coordinates but no location text, the schemes step
    returns at once and is selected again, for ever. *)
Lemma schemes_without_text_never_ends (state : GraphState) :
  opt_truthy (location_text (context state)) = false ->
  (forall i ln, _route rt (clock env i) (set_last_node state ln) = Ok (py "schemes")) ->
  forall fuel i ln,
    run_graph rt py_repr env fuel i Plan (set_last_node state ln)
      = Raise GraphRecursionError /\
    run_graph rt py_repr env fuel i Schemes (set_last_node state ln)
      = Raise GraphRecursionError.
Proof.
  intros Hloc Hroute fuel.
  induction fuel as [|fuel IH]; intros i ln; [split; reflexivity|].
  split.
  - rewrite run_graph_S.
    change (run_node rt py_repr env i Plan (set_last_node state ln))
      with (Ok (A:=GraphState) (set_last_node state (Some (py "plan")))).
    cbn [rbind]. unfold next_node. rewrite Hroute. cbn [rbind].
    rewrite route_edges_schemes. apply IH.
  - rewrite run_graph_S. unfold run_node.
    rewrite schemes_node_without_text by exact Hloc.
    cbn [rbind next_node edge]. apply IH.
Qed.

End LoopFacts.

(** C7, at a failing input. A complete profile with coordinates, no
    weather snapshot, and a weather provider that fails: after the intake
    the run alternates between [plan] and [weather]. Eight routing
    decisions in a row select [weather], no terminal step is among the
    first seventeen steps, and whatever the number of steps allowed the
    run ends in [GraphRecursionError], never in a terminal step. *)
Theorem C7_failed_weather_call_loops :
  (forall fuel,
     run_graph ascii_runtime scalar_repr offline fuel 0 Intake st_weather_missing
     = Raise GraphRecursionError) /\
  steps_of ascii_runtime scalar_repr offline 17 0 Intake st_weather_missing
  = Intake :: concat (repeat [Plan; Weather] 8) /\
  existsb terminal (steps_of ascii_runtime scalar_repr offline 17 0 Intake st_weather_missing)
  = false /\
  ainvoke ascii_runtime scalar_repr offline st_weather_missing
  = Raise GraphRecursionError.
Proof.
  split; [|repeat split; vm_compute; reflexivity].
  intros [|fuel]; [reflexivity|].
  rewrite run_graph_S.
  change (run_node ascii_runtime scalar_repr offline 0 Intake st_weather_missing)
    with (Ok (A:=GraphState) (set_last_node st_weather_missing (Some (py "intake")))).
  cbn [rbind next_node edge].
  apply weather_failure_never_ends.
  - reflexivity.
  - reflexivity.
  - intros i ln. reflexivity.
Qed.

(** The loop needs no failure. With coordinates but no location text, a
    fresh weather snapshot and the schemes button pressed, the schemes step
    returns without a call and is selected again: the run never reaches a
    terminal step, in any world. *)
Lemma schemes_button_without_location_text_loops (env : Env) :
  (forall i, clock env i = 0%Z) ->
  forall fuel,
    run_graph ascii_runtime scalar_repr env fuel 0 Intake st_schemes_pressed
    = Raise GraphRecursionError.
Proof.
  intros Hclock [|fuel]; [reflexivity|].
  rewrite run_graph_S.
  change (run_node ascii_runtime scalar_repr env 0 Intake st_schemes_pressed)
    with (Ok (A:=GraphState) (set_last_node st_schemes_pressed (Some (py "intake")))).
  cbn [rbind next_node edge].
  apply schemes_without_text_never_ends.
  - reflexivity.
  - intros i ln. rewrite Hclock. reflexivity.
Qed.

(** ** The message log *)

Section LogFacts.

Variable rt : Runtime.
Variable py_repr : jval -> str.
Variable env : Env.

Lemma compacted_keep_last (ms : list message) :
  compacted KEEP_LAST ms = drop (length ms - 16) ms.
Proof.
  unfold compacted, KEEP_LAST.
  destruct (16 <? length ms)%nat eqn:E; [reflexivity|].
  apply Nat.ltb_ge in E.
  replace (length ms - 16)%nat with 0%nat by lia. reflexivity.
Qed.

(** Compaction leaves at most 16 entries: the last ones, in their order. *)
Lemma compacted_cap (ms : list message) :
  (length (compacted KEEP_LAST ms) <= 16)%nat /\
  compacted KEEP_LAST ms `suffix_of` ms.
Proof.
  rewrite compacted_keep_last. split.
  - rewrite length_drop. lia.
  - apply suffix_drop.
Qed.

(** The log [run_turn] hands to the graph is within the cap. *)
Lemma begin_turn_cap (v : GraphState) (text : str) :
  (length (messages (begin_turn v text)) <= 16)%nat.
Proof. apply compacted_cap. Qed.

(** The steps that compact after they append keep the cap. *)
Lemma ask_node_cap (state : GraphState) :
  (length (messages (ask_node rt state)) <= 16)%nat.
Proof. apply compacted_cap. Qed.

Lemma buy_node_cap (i : nat) (state state' : GraphState) :
  buy_node rt py_repr env i state = Ok state' ->
  (length (messages state') <= 16)%nat.
Proof.
  assert (Hreply : forall data, buy_reply rt py_repr state data = Ok state' ->
                                (length (messages state') <= 16)%nat).
  { intros data H. unfold buy_reply in H.
    destruct (safe_parse_advisory rt py_repr data); [|discriminate].
    injection H as <-. apply compacted_cap. }
  unfold buy_node.
  destruct (negb (nonempty _)); [apply Hreply|].
  destruct (negb (nonempty _)); [apply Hreply|].
  destruct (tools_buy_inputs env i _ _) as [ctx|[]]; try discriminate; apply Hreply.
Qed.

Lemma advice_node_success_cap (i : nat) (state : GraphState) (data : list (str * jval)) :
  llm_advice env i state = Ok data ->
  (length (messages (advice_node rt py_repr env i state)) <= 16)%nat.
Proof.
  intros H. unfold advice_node. rewrite H. apply compacted_cap.
Qed.

(** The fallback branch of [advice_node] appends its reply and does not
    compact: the log grows by one entry, whatever its length was. *)
Lemma advice_node_failure_log (i : nat) (state : GraphState) (e : exn) :
  llm_advice env i state = Raise e ->
  messages (advice_node rt py_repr env i state)
  = messages state
    ++ [assistant_message (py "Send crop + stage + location (or upload a clear photo).")].
Proof. intros H. unfold advice_node. rewrite H. reflexivity. Qed.

(** So does the fallback branch of [crop_reco_node]. *)
Lemma crop_reco_node_failure_log (i : nat) (state state' : GraphState) :
  (forall s loc soil crops, llm_crop_reco env i s loc soil crops = Raise RuntimeError) ->
  crop_reco_node rt py_repr env i state = Ok state' ->
  messages state'
  = messages state ++ [assistant_message (py "Share location and ask: recommend crops.")].
Proof.
  intros Hfail H. unfold crop_reco_node in H.
  repeat match type of H with
         | rbind ?r _ = _ => destruct r as [?|?] eqn:?; cbn [rbind] in H; [|discriminate]
         | (let '(_, _) := ?p in _) = _ => destruct p
         end.
  rewrite Hfail in H. cbn [rbind] in H. injection H as <-. reflexivity.
Qed.

(** The branch of [crop_reco_node] that stores an advisory compacts. *)
Lemma crop_reco_node_success_cap (i : nat) (state state' : GraphState) :
  crop_reco_node rt py_repr env i state = Ok state' ->
  is_some (advisory state') = true ->
  (length (messages state') <= 16)%nat.
Proof.
  intros H Hadv. unfold crop_reco_node in H.
  repeat match type of H with
         | rbind ?r _ = _ => destruct r as [?|?] eqn:?; cbn [rbind] in H; [|discriminate]
         | (let '(_, _) := ?p in _) = _ => destruct p
         end.
  match type of H with
  | match ?r with _ => _ end = _ => destruct r
  end; injection H as <-.
  - apply compacted_cap.
  - discriminate Hadv.
Qed.

End LogFacts.

(** C8, at a failing input. A session whose log holds 16 entries receives
    a stage message while the model is unreachable: [run_turn] appends the
    message and compacts to 16, the advice step appends its fallback reply
    without compacting, and the state [run_turn] returns holds 17. *)
Theorem C8_fallback_reply_overflows_the_log :
  exists l h' out,
    run_turn ascii_runtime scalar_repr offline loc_long_chat
             (py "My stage is flowering.") heap_long_chat = Some (Ok l, h') /\
    load_state l h' = Some out /\
    last_node out = Some (py "advice") /\
    length (messages (begin_turn st_long_chat (py "My stage is flowering."))) = 16%nat /\
    length (messages out) = 17%nat.
Proof.
  eexists _, _, _.
  split; [vm_compute; reflexivity|].
  split; [vm_compute; reflexivity|].
  repeat split.
Qed.

(** ** The heap: [run_turn] works on a copy *)

Section HeapFacts.

Variable rt : Runtime.
Variable py_repr : jval -> str.
Variable env : Env.

Lemma fresh_list_None (h : heap) : list_objs h !! fresh (dom (list_objs h)) = None.
Proof. apply not_elem_of_dom. apply is_fresh. Qed.

Lemma fresh_state_None (h : heap) : state_objs h !! fresh (dom (state_objs h)) = None.
Proof. apply not_elem_of_dom. apply is_fresh. Qed.

Lemma load_private (h0 h : heap) (s : positive) (v : GraphState) :
  private_copy h0 h s v -> load_state s h = Some v.
Proof.
  intros (_ & _ & _ & o & ms & Ho & _ & Hms & ->).
  unfold load_state. rewrite Ho. simpl. rewrite Hms. reflexivity.
Qed.

(** A deep copy is private, and holds the value of the original. *)
Lemma model_copy_deep_private (h0 : heap) (l : positive) (v : GraphState) :
  load_state l h0 = Some v ->
  exists s h, model_copy true l h0 = Some (s, h) /\ private_copy h0 h s v.
Proof.
  unfold load_state, model_copy. intros H.
  destruct (state_objs h0 !! l) as [o|] eqn:Ho; [|discriminate]. simpl in *.
  destruct (list_objs h0 !! messages o) as [ms|] eqn:Hms; [|discriminate].
  simpl in *. injection H as <-.
  eexists _, _. split; [reflexivity|].
  unfold private_copy. simpl.
  split; [apply insert_subseteq, fresh_state_None|].
  split; [apply insert_subseteq, fresh_list_None|].
  split; [apply fresh_state_None|].
  eexists _, _. split; [apply lookup_insert_eq|]. simpl.
  split; [apply fresh_list_None|].
  split; [apply lookup_insert_eq | reflexivity].
Qed.

(** Appending to the log of a private copy: the copy stays private. *)
Lemma append_message_private (h0 h : heap) (s : positive) (v : GraphState) (m : message) :
  private_copy h0 h s v ->
  exists h', append_message s m h = Some h' /\
             private_copy h0 h' s (set_messages v (messages v ++ [m])).
Proof.
  intros (Hs & Hl & Hnew & o & ms & Ho & Hl0 & Hms & ->).
  unfold append_message. rewrite Ho. simpl. rewrite Hms. simpl.
  eexists. split; [reflexivity|].
  unfold private_copy. simpl.
  split; [exact Hs|].
  split; [apply insert_subseteq_r; assumption|].
  split; [exact Hnew|].
  exists o, (ms ++ [m]). split; [exact Ho|]. split; [exact Hl0|].
  split; [apply lookup_insert_eq | reflexivity].
Qed.

Lemma incr_turn_count_private (h0 h : heap) (s : positive) (v : GraphState) :
  private_copy h0 h s v ->
  exists h', incr_turn_count s h = Some h' /\
             private_copy h0 h' s (set_turn_count v (turn_count v + 1)).
Proof.
  intros (Hs & Hl & Hnew & o & ms & Ho & Hl0 & Hms & ->).
  unfold incr_turn_count. rewrite Ho. simpl.
  eexists. split; [reflexivity|].
  unfold private_copy. simpl.
  split; [apply insert_subseteq_r; assumption|].
  split; [exact Hl|].
  split; [exact Hnew|].
  eexists _, ms. split; [apply lookup_insert_eq|]. simpl.
  split; [exact Hl0|]. split; [exact Hms | reflexivity].
Qed.

Lemma compact_messages_private (h0 h : heap) (s : positive) (v : GraphState) (k : nat) :
  private_copy h0 h s v ->
  exists h', compact_messages s k h = Some h' /\
             private_copy h0 h' s (set_messages v (compacted k (messages v))).
Proof.
  intros (Hs & Hl & Hnew & o & ms & Ho & Hl0 & Hms & ->).
  unfold compact_messages, compacted. rewrite Ho. simpl. rewrite Hms. simpl.
  destruct (k <? length ms)%nat.
  - eexists. split; [reflexivity|].
    unfold private_copy. simpl.
    split; [apply insert_subseteq_r; assumption|].
    split; [etransitivity; [exact Hl | apply insert_subseteq, fresh_list_None]|].
    split; [exact Hnew|].
    eexists _, _. split; [apply lookup_insert_eq|]. simpl.
    split; [eapply lookup_weaken_None; [apply fresh_list_None | exact Hl]|].
    split; [apply lookup_insert_eq | reflexivity].
  - eexists. split; [reflexivity|].
    unfold private_copy.
    split; [exact Hs|]. split; [exact Hl|]. split; [exact Hnew|].
    exists o, ms. auto.
Qed.

(** Storing a value allocates: the new state object and its list object
    are not objects of the heap before, which is kept as it was. *)
Lemma store_state_fresh (v : GraphState) (h : heap) :
  exists l h',
    store_state v h = (l, h') /\
    state_objs h !! l = None /\
    state_objs h ⊆ state_objs h' /\ list_objs h ⊆ list_objs h' /\
    load_state l h' = Some v /\
    exists o, state_objs h' !! l = Some o /\ list_objs h !! messages o = None.
Proof.
  eexists _, _. split; [reflexivity|].
  unfold load_state. simpl.
  split; [apply fresh_state_None|].
  split; [apply insert_subseteq, fresh_state_None|].
  split; [apply insert_subseteq, fresh_list_None|].
  split.
  - rewrite lookup_insert_eq. simpl. rewrite lookup_insert_eq. simpl.
    destruct v; reflexivity.
  - eexists. split; [apply lookup_insert_eq|]. simpl. apply fresh_list_None.
Qed.

(** What the deep copy is for: a shallow copy shares the list object of
    the log, so appending to the copy changes the original. *)
Lemma shallow_copy_shares_the_log (h : heap) (l : positive) (v : GraphState) (m : message) :
  load_state l h = Some v ->
  exists s h1 h2,
    model_copy false l h = Some (s, h1) /\ append_message s m h1 = Some h2 /\
    load_state l h2 = Some (set_messages v (messages v ++ [m])).
Proof.
  unfold load_state, model_copy, append_message. intros H.
  destruct (state_objs h !! l) as [o|] eqn:Ho; [|discriminate]. simpl in *.
  destruct (list_objs h !! messages o) as [ms|] eqn:Hms; [|discriminate].
  simpl in *. injection H as <-.
  eexists _, _, _. split; [reflexivity|]. simpl.
  rewrite lookup_insert_eq. simpl. rewrite Hms. simpl.
  split; [reflexivity|].
  cbn [state_objs list_objs].
  rewrite lookup_insert_ne.
  - rewrite Ho. simpl. rewrite lookup_insert_eq. reflexivity.
  - intros E. pose proof (fresh_state_None h) as Hn. rewrite E, Ho in Hn. discriminate.
Qed.

(** C9. [run_turn] never updates the state it is given. On a heap that
    holds the incoming state, the call runs to its end; every object the
    heap held before the call is in the heap after the call exactly as it
    was, so the incoming state has the value it had; a state it returns is
    a new object with a new list object for its log, and its value is what
    the graph makes of the advanced copy of the incoming state (user
    message appended, turn counted, log compacted); an exception it
    raises is the one the graph raises on that copy. *)
Theorem C9_run_turn_leaves_the_input_unchanged (h : heap) (l : positive)
    (v : GraphState) (user_text : str) :
  load_state l h = Some v ->
  exists r h',
    run_turn rt py_repr env l user_text h = Some (r, h') /\
    state_objs h ⊆ state_objs h' /\ list_objs h ⊆ list_objs h' /\
    load_state l h' = Some v /\
    match r with
    | Ok l' =>
        state_objs h !! l' = None /\
        (exists o', state_objs h' !! l' = Some o' /\ list_objs h !! messages o' = None) /\
        exists out,
          ainvoke rt py_repr env (begin_turn v user_text) = Ok out /\
          load_state l' h' = Some out
    | Raise e => ainvoke rt py_repr env (begin_turn v user_text) = Raise e
    end.
Proof.
  intros Hv.
  assert (Hkeep : forall h', state_objs h ⊆ state_objs h' -> list_objs h ⊆ list_objs h' ->
                             load_state l h' = Some v).
  { intros h' Hs Hl. unfold load_state in *.
    destruct (state_objs h !! l) as [o|] eqn:Ho; [|discriminate]. simpl in Hv.
    destruct (list_objs h !! messages o) as [ms|] eqn:Hms; [|discriminate].
    rewrite (lookup_weaken _ _ _ _ Ho Hs). simpl.
    rewrite (lookup_weaken _ _ _ _ Hms Hl). exact Hv. }
  destruct (model_copy_deep_private h l v Hv) as (s & h1 & E1 & P1).
  destruct (append_message_private h h1 s v (user_message user_text) P1)
    as (h2 & E2 & P2).
  destruct (incr_turn_count_private h h2 s _ P2) as (h3 & E3 & P3).
  destruct (compact_messages_private h h3 s _ KEEP_LAST P3) as (h4 & E4 & P4).
  pose proof (load_private _ _ _ _ P4) as E5.
  change (set_messages _ _) with (begin_turn v user_text) in E5.
  destruct P4 as (Hs4 & Hl4 & _).
  unfold run_turn, add_user. rewrite E1. cbn [mbind option_bind].
  rewrite E2. cbn [mbind option_bind]. rewrite E3. cbn [mbind option_bind].
  rewrite E4. cbn [mbind option_bind]. rewrite E5. cbn [mbind option_bind].
  destruct (ainvoke rt py_repr env (begin_turn v user_text)) as [out|e] eqn:Erun.
  - destruct (store_state_fresh out h4) as (l' & h5 & E6 & Hnew & Hs5 & Hl5 & Hload & o' & Ho' & Hlo').
    rewrite E6. exists (Ok l'), h5.
    split; [reflexivity|].
    assert (Hs : state_objs h ⊆ state_objs h5) by (etransitivity; eassumption).
    assert (Hl : list_objs h ⊆ list_objs h5) by (etransitivity; eassumption).
    split; [exact Hs|]. split; [exact Hl|]. split; [apply Hkeep; assumption|].
    split; [eapply lookup_weaken_None; eassumption|].
    split.
    + exists o'. split; [exact Ho'|]. eapply lookup_weaken_None; eassumption.
    + exists out. split; [reflexivity | exact Hload].
  - exists (Raise e), h4.
    split; [reflexivity|]. split; [exact Hs4|]. split; [exact Hl4|].
    split; [apply Hkeep; assumption | reflexivity].
Qed.

End HeapFacts.

(* ===================================================================== *)
(** * Part III: the theorems at work                                      *)
(* ===================================================================== *)

(** An update of blanks leaves Ramesh's profile and the observation as
    they were. *)
Lemma C1_merge_non_destructive_witness :
  let C' := _merge_context ascii_runtime ramesh empty_update in
  farmer_name C' = Some (py "Ramesh") /\
  land_size C' = land_size ramesh /\
  land_unit C' = Some (py "acres") /\
  crop C' = Some (py "rice") /\
  stage C' = py "germination" /\
  exists O', _merge_observation ascii_runtime obs_wilting empty_update = Ok O' /\
             urgency O' = py "medium" /\
             symptoms obs_wilting `prefix_of` symptoms O'.
Proof.
  destruct (C1_merge_non_destructive ascii_runtime ramesh obs_wilting empty_update)
    as (Hname & Hsize & Hunit & Hcrop & Hstage & _ & _ & _ & _ & _ & _ & _ & _ & Hkeep & Hurg).
  split; [apply Hname; exact I|].
  split; [apply Hsize; reflexivity|].
  split; [apply Hunit; reflexivity|].
  split; [apply Hcrop; reflexivity|].
  split; [apply Hstage; exact I|].
  destruct (Hurg eq_refl) as (O' & HO' & Hu).
  exists O'. split; [exact HO'|]. split; [exact Hu|].
  apply (Hkeep O' HO').
Defined.

(** A location makes the button work: in Pune, with no crop known. *)
Lemma C2_reco_marker_with_location_witness :
  _last_user_text ascii_runtime st_reco_pressed_pune = ACTION_CROP_RECO /\
  _has_location ascii_runtime st_reco_pressed_pune = true /\
  _route ascii_runtime 0 st_reco_pressed_pune = Ok (py "crop_reco").
Proof.
  split; [reflexivity|]. split; [reflexivity|].
  apply (C2_reco_marker_with_location ascii_runtime 0 st_reco_pressed_pune);
    reflexivity.
Defined.

(** A sloppy reply of the model, repaired, and a wordy one, cut: of seven
    actions the first five that are not blank, of 230 characters the
    first 220. *)
Lemma C3_coercion_caps_and_defaults_witness :
  (exists a,
     safe_parse_advisory ascii_runtime scalar_repr (JDict sloppy_reply) = Ok a /\
     headline a = py "Advisory update" /\
     actions_now a = [py "drain the field"; py "spray neem"] /\
     confidence a = py "high" /\
     needs_human_review a = true /\
     watch_out_for a = []) /\
  (exists a,
     safe_parse_advisory ascii_runtime scalar_repr (JDict wordy_reply) = Ok a /\
     headline a = py "Drain today" /\
     actions_now a = [py "one"; py "2"; py "three"; py "four"; py "five"] /\
     rationale_brief a = replicate 220 120%N /\
     needs_human_review a = false) /\
  issue (_coerce_image_diagnosis ascii_runtime scalar_repr sloppy_reply) = UNCLEAR_ISSUE /\
  diag_actions_now (_coerce_image_diagnosis ascii_runtime scalar_repr wordy_reply)
  = [py "one"; py "2"; py "three"].
Proof.
  split; [|split].
  - destruct (C3_coercion_caps_and_defaults ascii_runtime scalar_repr sloppy_reply)
      as ((a & Ha & _ & _ & _ & _ & _ & Hconf & Hneeds & _ & Hhead & Hact & _ & _
             & _ & _ & _ & _ & _ & _ & _ & _ & _ & Hwatch & _)
          & (Hrecognized & _ & _) & Hflag & _).
    exists a. split; [exact Ha|].
    split; [apply Hhead; reflexivity|].
    split; [rewrite (Hact two_lines ltac:(vm_compute; discriminate) eq_refl); reflexivity|].
    split; [|split].
    + rewrite Hconf, Hrecognized; [reflexivity | reflexivity |].
      right. right. left. reflexivity.
    + rewrite Hneeds. apply (Hflag _ eq_refl). right. left. reflexivity.
    + apply Hwatch; intros x H; discriminate H.
  - destruct (C3_coercion_caps_and_defaults ascii_runtime scalar_repr wordy_reply)
      as ((a & Ha & _ & _ & _ & _ & _ & _ & _ & _ & _ & _ & _ & _
             & Hrat & Hhead & Hact & _ & _ & _ & _ & _ & _ & _ & _ & Hflag & _) & _).
    exists a. split; [exact Ha|].
    split; [rewrite Hhead; [reflexivity | vm_compute; discriminate]|].
    split; [rewrite (Hact _ eq_refl); vm_compute; reflexivity|].
    split; [rewrite Hrat; vm_compute; reflexivity|].
    destruct (needs_human_review a); [|reflexivity].
    destruct (proj1 (Hflag _ eq_refl) eq_refl) as [H|[H|[H|[]]]]; discriminate H.
  - destruct (C3_coercion_caps_and_defaults ascii_runtime scalar_repr sloppy_reply)
      as (_ & _ & _ & (_ & _ & _ & _ & _ & _ & _ & Hissue & _)).
    destruct (C3_coercion_caps_and_defaults ascii_runtime scalar_repr wordy_reply)
      as (_ & _ & _ & (_ & _ & _ & _ & _ & _ & _ & _ & _ & Hactions & _)).
    split.
    + apply Hissue. intros k [<-|[<-|[<-|[<-|[<-|[<-|[]]]]]]] x H; discriminate H.
    + rewrite (Hactions _ eq_refl). vm_compute. reflexivity.
Defined.

(** A snapshot fetched at midnight is fresh six hours later to the
    microsecond, and stale one microsecond after that. *)
Lemma C4_stale_iff_absent_unparsed_or_older_witness :
  _is_weather_stale ascii_runtime (NEW_YEAR_2024 + 6 * 3600 * 1000000)
                    st_weather_new_year WEATHER_MAX_AGE_HOURS = Ok false /\
  _is_weather_stale ascii_runtime (NEW_YEAR_2024 + 6 * 3600 * 1000000 + 1)
                    st_weather_new_year WEATHER_MAX_AGE_HOURS = Ok true /\
  _is_weather_stale ascii_runtime NEW_YEAR_2024 GraphState_default
                    WEATHER_MAX_AGE_HOURS = Ok true.
Proof.
  split; [|split].
  - destruct (C4_stale_iff_absent_unparsed_or_older ascii_runtime
                (NEW_YEAR_2024 + 6 * 3600 * 1000000) st_weather_new_year)
      as (_ & _ & _ & _ & Hedge & _).
    apply (Hedge _ NEW_YEAR_2024 eq_refl); reflexivity.
  - destruct (C4_stale_iff_absent_unparsed_or_older ascii_runtime
                (NEW_YEAR_2024 + 6 * 3600 * 1000000 + 1) st_weather_new_year)
      as (Hiff & _).
    apply Hiff. vm_compute. reflexivity.
  - destruct (C4_stale_iff_absent_unparsed_or_older ascii_runtime
                NEW_YEAR_2024 GraphState_default) as (Hiff & _).
    apply Hiff. exact I.
Defined.

(** Medium urgency and an update that says High, with blanks around: the
    urgency becomes high. *)
Lemma C5_urgency_monotone_witness :
  In (urgency obs_wilting) URGENCY_LEVELS /\
  exists O', _merge_observation ascii_runtime obs_wilting urgent_update = Ok O' /\
             order (urgency O') = Ok 2%Z /\
             urgency O' = py "high".
Proof.
  assert (Hlevel : In (urgency obs_wilting) URGENCY_LEVELS)
    by (right; left; reflexivity).
  split; [exact Hlevel|].
  destruct (C5_urgency_monotone ascii_runtime obs_wilting urgent_update Hlevel)
    as (O' & ko & kn & HO' & Hko & Hkn & _ & Hmax & _ & _ & _ & _ & _ & Hlevels).
  exists O'. split; [exact HO'|].
  split.
  - destruct (Hmax _ eq_refl ltac:(discriminate) ltac:(right; right; left; reflexivity))
      as (ku & Hku & ->).
    vm_compute in Hko. vm_compute in Hku.
    injection Hko as <-. injection Hku as <-. exact Hkn.
  - destruct (Hlevels _ eq_refl ltac:(discriminate)) as (Hhigh & _).
    apply Hhigh. reflexivity.
Defined.

(** The buy button on an empty profile with a photo waiting. *)
Lemma C6_buy_marker_routes_to_buy_witness :
  _last_user_text ascii_runtime st_buy_pressed = ACTION_BUY /\
  _needs_profile_questions ascii_runtime st_buy_pressed = true /\
  is_some (last_image st_buy_pressed) && negb (is_some (image_diagnosis st_buy_pressed)) = true /\
  _route ascii_runtime 0 st_buy_pressed = Ok (py "buy").
Proof.
  split; [reflexivity|]. split; [reflexivity|]. split; [reflexivity|].
  apply (C6_buy_marker_routes_to_buy ascii_runtime 0 st_buy_pressed). reflexivity.
Defined.

(** A turn on the long chat: the state given is still there, unchanged. *)
Lemma C9_run_turn_leaves_the_input_unchanged_witness :
  load_state loc_long_chat heap_long_chat = Some st_long_chat /\
  exists r h',
    run_turn ascii_runtime scalar_repr offline loc_long_chat (py "hello") heap_long_chat
    = Some (r, h') /\
    load_state loc_long_chat h' = Some st_long_chat.
Proof.
  assert (H : load_state loc_long_chat heap_long_chat = Some st_long_chat)
    by (vm_compute; reflexivity).
  split; [exact H|].
  destruct (C9_run_turn_leaves_the_input_unchanged ascii_runtime scalar_repr offline
              heap_long_chat loc_long_chat st_long_chat (py "hello") H)
    as (r & h' & Hrun & _ & _ & Hsame & _).
  exists r, h'. split; [exact Hrun | exact Hsame].
Defined.

(** Coordinates typed into the chat reach the context, in range. *)
Lemma C10_extracted_coordinates_in_range_witness :
  exists state' la lo,
    intake_node ascii_runtime offline 0 st_coordinates_sent = Ok state' /\
    lat (context state') = Some la /\ valid_latitude la /\
    lon (context state') = Some lo /\ valid_longitude lo.
Proof.
  destruct (C10_extracted_coordinates_in_range ascii_runtime (py "18.52, 73.85"))
    as (_ & Hintake).
  eexists _, _, _. split; [reflexivity|].
  destruct (Hintake offline 0 st_coordinates_sent _ eq_refl)
    as ([Hla | (la & Hla & Vla)] & [Hlo | (lo & Hlo & Vlo)]);
    try discriminate.
  injection Hla as <-. injection Hlo as <-.
  split; [reflexivity|]. split; [exact Vla|]. split; [reflexivity | exact Vlo].
Defined.

(** ** The program on a few inputs *)

Example literal_code_points : py "फसल" = [2347; 2360; 2354]%N.
Proof. reflexivity. Qed.

Example coordinates_in_a_sentence :
  extract_lat_lon ascii_runtime (py "my farm is at 18.52 73.85 near the river")
  = (Some (S754_finite false 5212916568681349 (-48)),
     Some (S754_finite false 5196731757520486 (-46))).
Proof. reflexivity. Qed.

Example latitude_out_of_range :
  extract_lat_lon ascii_runtime (py "91, 73.85") = (None, None).
Proof. reflexivity. Qed.

(** A numeral a hair above 90 is the float 90 and passes the guard. *)
Example latitude_rounds_to_ninety :
  fst (extract_lat_lon ascii_runtime (py "90.00000000000000001,10"))
  = Some (float_of_Z 90).
Proof. reflexivity. Qed.

Example one_number_is_no_coordinate :
  extract_lat_lon ascii_runtime (py "2 acres of rice") = (None, None).
Proof. reflexivity. Qed.

Example stage_sentence :
  _extract_stage_from_text ascii_runtime (py "My stage is Flowering.")
  = Some (py "flowering").
Proof. reflexivity. Qed.

Example stage_inline :
  _extract_stage_from_text ascii_runtime (py "  stage : harvest ") = Some (py "harvest").
Proof. reflexivity. Qed.

Example stage_unknown_word :
  _extract_stage_from_text ascii_runtime (py "stage: bogus") = None.
Proof. reflexivity. Qed.

(** An invalid stage in the update leaves the stage; a valid one sets it. *)
Example merge_bogus_stage :
  stage (_merge_context ascii_runtime ramesh urgent_update) = py "germination".
Proof. reflexivity. Qed.

Example merge_symptoms_once :
  symptoms <$> (match _merge_observation ascii_runtime obs_wilting urgent_update with
                | Ok o => Some o | Raise _ => None end)
  = Some [py "wilting"; py "Yellow leaves"].
Proof. reflexivity. Qed.

(** With an urgency outside the three levels in the old observation, a
    recognized level in the update is a [KeyError]. *)
Example merge_unknown_old_urgency :
  _merge_observation ascii_runtime
    {| symptoms := []; pests_seen := []; urgency := py "critical" |} urgent_update
  = Raise KeyError.
Proof. reflexivity. Qed.

Example five_lines_of_actions :
  actions_now <$> (match safe_parse_advisory ascii_runtime scalar_repr
                           (JDict [(py "actions_now", JStr (py "a
b
c
d
d"))]) with
                   | Ok a => Some a | Raise _ => None end)
  = Some [py "a"; py "b"; py "c"; py "d"; py "d"].
Proof. reflexivity. Qed.

Example not_an_object :
  safe_parse_advisory ascii_runtime scalar_repr (JList []) = Raise ValueError.
Proof. reflexivity. Qed.

Example naive_timestamp_raises :
  _is_weather_stale ascii_runtime NEW_YEAR_2024
    (set_weather GraphState_default (Some (weather_at "2024-01-01T00:00:00")))
    WEATHER_MAX_AGE_HOURS
  = Raise TypeError.
Proof. reflexivity. Qed.

Example coordinates_with_four_decimals :
  format_4f (S754_finite false 5212916568681349 (-48)) = py "18.5200".
Proof. reflexivity. Qed.

Example compacting_seventeen :
  compacted KEEP_LAST (map (fun n => user_message (decimal (N.of_nat n))) (seq 0 17))
  = map (fun n => user_message (decimal (N.of_nat n))) (seq 1 16).
Proof. reflexivity. Qed.

(** The turn of the design document's scenario that fails: the weather
    step is taken again and again. *)
Example steps_with_weather_down :
  steps_of ascii_runtime scalar_repr offline 7 0 Intake st_weather_missing
  = [Intake; Plan; Weather; Plan; Weather; Plan; Weather].
Proof. reflexivity. Qed.

(* ===================================================================== *)
(** * Part IV: further properties of the program                          *)
(* ===================================================================== *)

(** ** More on the routing decision *)

Section RouteOutcomes.

Variable rt : Runtime.

(** Destructs the test of the first conditional of the goal. *)
Ltac first_test :=
  match goal with
  | |- context [if ?b then _ else _] =>
      lazymatch b with
      | context [if _ then _ else _] => fail
      | _ => destruct b eqn:?
      end
  end.

(** X1. Every name [_route] returns is a key of the conditional edges that
    leave [plan], and the step it names is neither [intake] nor [plan]:
    the lookup of the next step cannot fail. *)
Theorem route_names_a_step (now : Z) (state : GraphState) (name : str) :
  _route rt now state = Ok name ->
  exists n, route_edges name = Some n /\ n <> Intake /\ n <> Plan.
Proof.
  unfold _route, and_then.
  repeat first [ first_test
               | match goal with
                 | |- rbind ?r _ = _ -> _ => destruct r as [[|]|]; cbn [rbind]
                 end ];
    intros [= <-] || discriminate;
    eexists; (split; [reflexivity | split; discriminate]).
Qed.

(** X2. Routing fails in one way only: with the [TypeError] of a staleness
    test, on a state one of whose snapshots has a timestamp without
    offset. On every other state it returns. *)
Theorem route_fails_on_naive_timestamps_only (now : Z) (state : GraphState) (e : exn) :
  _route rt now state = Raise e ->
  e = TypeError /\ has_naive_timestamp rt state.
Proof.
  assert (Hold : forall s m e', older_than rt now s m = Raise e' ->
                   e' = TypeError /\ exists us, fromisoformat rt s = Some (Naive us)).
  { intros s m e'. unfold older_than.
    destruct (fromisoformat rt s) as [[us|?]|]; try discriminate.
    intros [= <-]. eauto. }
  assert (Hw : forall e', _is_weather_stale rt now state WEATHER_MAX_AGE_HOURS = Raise e' ->
                          e' = TypeError /\ has_naive_timestamp rt state).
  { intros e'. unfold _is_weather_stale, has_naive_timestamp.
    destruct (weather state) as [w|]; [|discriminate].
    intros H. destruct (Hold _ _ _ H) as [-> [us Hus]]. eauto 10. }
  assert (Hb : forall e', _is_web_stale rt now state WEB_MAX_AGE_HOURS = Raise e' ->
                          e' = TypeError /\ has_naive_timestamp rt state).
  { intros e'. unfold _is_web_stale, has_naive_timestamp.
    destruct (web state) as [w|]; [|discriminate].
    intros H. destruct (Hold _ _ _ H) as [-> [us Hus]]. eauto 10. }
  assert (Hs : forall e', _is_schemes_stale rt now state SCHEMES_MAX_AGE_DAYS = Raise e' ->
                          e' = TypeError /\ has_naive_timestamp rt state).
  { intros e'. unfold _is_schemes_stale, has_naive_timestamp.
    destruct (schemes state) as [w|]; [|discriminate].
    intros H. destruct (Hold _ _ _ H) as [-> [us Hus]]. eauto 10. }
  assert (Hm : forall e', _is_market_stale rt now state MARKET_MAX_AGE_HOURS = Raise e' ->
                          e' = TypeError /\ has_naive_timestamp rt state).
  { intros e'. unfold _is_market_stale, has_naive_timestamp.
    destruct (market state) as [w|]; [|discriminate].
    intros H. destruct (Hold _ _ _ H) as [-> [us Hus]]. eauto 10. }
  unfold _route, and_then.
  repeat first [ first_test
               | match goal with
                 | |- context [rbind ?r _] =>
                     lazymatch r with
                     | context [rbind _ _] => fail
                     | _ => let E := fresh "E" in destruct r as [[|]|] eqn:E; cbn [rbind]
                     end
                 end ];
    try discriminate; intros [= <-]; eauto.
Qed.

(** X3. A photo comes before the profile: with a photo waiting to be
    diagnosed and no location known, routing selects [vision], whatever
    else the profile lacks, unless the message is the buy button or a
    stage statement. *)
Theorem vision_precedes_ask (now : Z) (state : GraphState) :
  is_some (last_image state) = true ->
  is_some (image_diagnosis state) = false ->
  _has_location rt state = false ->
  _last_user_text rt state <> ACTION_BUY ->
  _is_stage_update_message rt (_last_user_text rt state) = false ->
  _route rt now state = Ok (py "vision").
Proof.
  intros Himg Hdiag Hloc Hbuy Hstage. unfold _route.
  destruct (str_eqb _ ACTION_BUY) eqn:E; [apply str_eqb_eq in E; contradiction|].
  rewrite Hloc, Hstage, Himg, Hdiag, !andb_false_r. reflexivity.
Qed.

(** X4. The digest is never answered with a question: when the last user
    message is the digest marker, routing selects none of [ask], [buy] and
    [crop_reco]. *)
Theorem digest_never_asks (now : Z) (state : GraphState) (name : str) :
  _last_user_text rt state = ACTION_DIGEST ->
  _route rt now state = Ok name ->
  In name (map py ["advice"; "vision"; "weather"; "web"; "schemes"; "market"]%string).
Proof.
  intros Hd. unfold _route, and_then. rewrite Hd.
  change (str_eqb ACTION_DIGEST ACTION_BUY) with false.
  change (str_eqb ACTION_DIGEST ACTION_CROP_RECO) with false.
  change (str_eqb ACTION_DIGEST ACTION_DIGEST) with true.
  cbn [andb negb]. rewrite !andb_false_r.
  repeat first [ first_test
               | match goal with
                 | |- rbind ?r _ = _ -> _ => destruct r as [[|]|]; cbn [rbind]
                 end ];
    intros [= <-] || discriminate; simpl; auto 10.
Qed.

(** X5. Inside the graph the recommendation is automatic every time, not
    once: routing runs after [plan], which overwrites the name of the last
    step, so a state with no crop and a known location is sent to
    [crop_reco] whatever step ended the turn before. *)
Theorem auto_recommendation_after_plan (now : Z) (state : GraphState) :
  opt_truthy (crop (context state)) = false ->
  _has_location rt state = true ->
  _last_user_text rt state <> ACTION_BUY ->
  _last_user_text rt state <> ACTION_DIGEST ->
  _is_stage_update_message rt (_last_user_text rt state) = false ->
  _route rt now (plan_node state) = Ok (py "crop_reco").
Proof.
  intros Hcrop Hloc Hbuy Hdig Hstage. unfold _route.
  change (_last_user_text rt (plan_node state)) with (_last_user_text rt state).
  change (_has_location rt (plan_node state)) with (_has_location rt state).
  change (context (plan_node state)) with (context state).
  destruct (str_eqb _ ACTION_BUY) eqn:E; [apply str_eqb_eq in E; contradiction|].
  destruct (str_eqb _ ACTION_DIGEST) eqn:E'; [apply str_eqb_eq in E'; contradiction|].
  rewrite Hloc, Hstage, Hcrop, andb_true_r.
  destruct (str_eqb _ ACTION_CROP_RECO); reflexivity.
Qed.

(** X6. Whenever routing selects [ask], a profile question is needed, and
    [ask_node] asks one: its closing prompt for symptoms is never sent. *)
Theorem ask_means_a_profile_question (now : Z) (state : GraphState) :
  _route rt now state = Ok (py "ask") ->
  _needs_profile_questions rt state = true /\
  ask_question rt (context state)
  <> ask_text (language (context state))
       "Send symptoms or photo." "लक्षण या फोटो भेजें।" "लक्षणं किंवा फोटो पाठवा.".
Proof.
  intros H.
  assert (Hneeds : _needs_profile_questions rt state = true).
  { destruct (opt_truthy (crop (context state))) eqn:Hcrop.
    - revert H. unfold _route, and_then. rewrite Hcrop.
      destruct (str_eqb _ ACTION_BUY); [discriminate|].
      destruct (_ && _has_location rt state); [discriminate|].
      destruct (_is_stage_update_message _ _); [discriminate|].
      cbn [negb andb].
      destruct (is_some _ && _); [discriminate|].
      destruct (_needs_profile_questions rt state); [reflexivity|].
      cbn [andb].
      repeat first [ first_test
                   | match goal with
                     | |- context [rbind ?r _] =>
                         lazymatch r with
                         | context [rbind _ _] => fail
                         | _ => destruct r as [[|]|]; cbn [rbind]
                         end
                     end ]; discriminate.
    - unfold _needs_profile_questions. rewrite Hcrop.
      repeat first_test; try reflexivity; discriminate. }
  split; [exact Hneeds|].
  unfold _needs_profile_questions in Hneeds. unfold ask_question, ask_text.
  destruct (str_eqb (language (context state)) (py "en"));
    [|destruct (str_eqb (language (context state)) (py "hi"))];
    repeat first_test; try discriminate; vm_compute; discriminate.
Qed.

End RouteOutcomes.

(** ** What a turn keeps, and what it adds *)

(** Reduces the projections of a state built by the setters. *)
Ltac fields :=
  cbn [chat_id turn_count last_node messages context observation weather web
       schemes market last_image image_diagnosis advisory
       set_messages set_turn_count set_last_node set_context set_observation
       set_weather set_web set_schemes set_market set_image_diagnosis
       set_advisory set_stage set_position
       farmer_name land_size land_unit crop stage location_text lat lon
       sowing_date irrigation soil_type notes language
       symptoms pests_seen urgency _merge_context].

Section TurnFacts.

Variable rt : Runtime.
Variable py_repr : jval -> str.
Variable env : Env.

Lemma extract_stage_allowed (text s : str) :
  _extract_stage_from_text rt text = Some s -> In s _ALLOWED_STAGES.
Proof.
  unfold _extract_stage_from_text.
  destruct (negb (nonempty text)); [discriminate|].
  match goal with |- match ?x with _ => _ end = _ -> _ => destruct x as [m|] end;
    [|discriminate].
  destruct (str_in _ _ALLOWED_STAGES) eqn:E; [|discriminate].
  intros [= <-]. apply str_in_In. exact E.
Qed.

Lemma allowed_stage_truthy (s : str) : In s _ALLOWED_STAGES -> opt_truthy (Some s) = true.
Proof.
  intros H. simpl in H.
  repeat (destruct H as [<-|H]; [reflexivity|]). destruct H.
Qed.

Lemma turn_frame_refl (s : GraphState) : turn_frame s s.
Proof. unfold turn_frame. repeat split; reflexivity. Qed.

Lemma turn_frame_trans (s1 s2 s3 : GraphState) :
  turn_frame s1 s2 -> turn_frame s2 s3 -> turn_frame s1 s3.
Proof.
  unfold turn_frame.
  intros (A1 & A2 & A3 & A4 & A5 & A6 & A7) (B1 & B2 & B3 & B4 & B5 & B6 & B7).
  split; [rewrite B1; exact A1|]. split; [rewrite B2; exact A2|].
  split; [rewrite B3; exact A3|]. split; [rewrite B4; exact A4|].
  split.
  - intros H. destruct (A5 H) as [Hla Hlo].
    destruct B5 as [Hla' Hlo']; [rewrite Hla, Hlo; exact H|].
    split; [rewrite Hla'; exact Hla | rewrite Hlo'; exact Hlo].
  - split; [transitivity (symptoms (observation s2)) | transitivity (pests_seen (observation s2))];
      assumption.
Qed.

(** The geocoding block that [weather_node] and [crop_reco_node] share: it
    runs only when the coordinates are not both known, and writes nothing
    but the position. *)
Lemma geocoded_context (i : nat) (c0 c : FarmerContext) :
  (if negb (both_truthy (lat c0) (lon c0)) && opt_truthy (location_text c0) then
     match geocode env i (or_empty (location_text c0)) with
     | Ok (Some la, Some lo, resolved) =>
         Ok (set_position c0 (Some la) (Some lo) (Some resolved))
     | Ok _ => Ok c0
     | Raise ToolError => Ok c0
     | Raise e => Raise e
     end
   else Ok c0) = Ok c ->
  c = c0 \/
  both_truthy (lat c0) (lon c0) = false /\
  exists la lo resolved, c = set_position c0 (Some la) (Some lo) (Some resolved).
Proof.
  destruct (both_truthy (lat c0) (lon c0)) eqn:Hll; cbn [negb andb].
  - intros [= <-]. left. reflexivity.
  - destruct (opt_truthy (location_text c0)); [|intros [= <-]; left; reflexivity].
    destruct (geocode env i _) as [[[[la|] [lo|]] resolved]|[]];
      try discriminate; intros [= <-];
      first [ left; reflexivity
            | right; split; [reflexivity|]; eexists _, _, _; reflexivity ].
Qed.

Lemma geocoded_frame (s s' : GraphState) (c : FarmerContext) :
  (c = context s \/
   both_truthy (lat (context s)) (lon (context s)) = false /\
   exists la lo resolved, c = set_position (context s) (Some la) (Some lo) (Some resolved)) ->
  chat_id s' = chat_id s -> turn_count s' = turn_count s ->
  last_image s' = last_image s -> observation s' = observation s ->
  context s' = c ->
  turn_frame s s' /\ stage (context s') = stage (context s).
Proof.
  intros Hc H1 H2 H3 H4 H5. unfold turn_frame. rewrite H1, H2, H3, H4, H5.
  destruct Hc as [->|(Hll & la & lo & r & ->)].
  - repeat split; reflexivity.
  - repeat split; try reflexivity;
      match goal with
      | Hb : both_truthy _ _ = true |- _ => rewrite Hll in Hb; discriminate
      end.
Qed.

Ltac through H :=
  repeat match type of H with
         | rbind ?r _ = _ => destruct r as [?|?] eqn:?; cbn [rbind] in H; [|discriminate]
         | (let '(_, _) := ?p in _) = _ => destruct p
         end.

Lemma float_or_keeps (old : option float) (new x : float) :
  old = Some x -> float_truthy x = true -> float_or old new = old.
Proof. intros -> H. unfold float_or. rewrite H. reflexivity. Qed.

Lemma both_truthy_inv (a b : option float) :
  both_truthy a b = true ->
  exists x y, a = Some x /\ b = Some y /\ float_truthy x = true /\ float_truthy y = true.
Proof.
  destruct a as [x|], b as [y|]; try discriminate. simpl.
  intros H. apply andb_prop in H. destruct H. eauto 10.
Qed.

(** What the intake step does to a state. *)
Lemma intake_node_effect (i : nat) (s s' : GraphState) :
  intake_node rt env i s = Ok s' ->
  turn_frame s s' /\
  (In (stage (context s)) _ALLOWED_STAGES -> In (stage (context s')) _ALLOWED_STAGES) /\
  messages s' = messages s /\ last_node s' = Some (py "intake").
Proof.
  unfold intake_node.
  destruct (_extract_stage_from_text rt (_last_user_text rt s)) as [st|] eqn:Est.
  - pose proof (extract_stage_allowed _ _ Est) as Hin.
    rewrite (allowed_stage_truthy _ Hin). intros [= <-].
    unfold turn_frame. fields. repeat split; auto; reflexivity.
  - cbn [opt_truthy].
    destruct (_is_action_message (_last_user_text rt s)).
    { intros [= <-]. unfold turn_frame. fields. repeat split; auto; reflexivity. }
    set (ctx := match extract_lat_lon rt (_last_user_text rt s) with
                | (Some la, Some lo) => _
                | _ => context s
                end).
    assert (Hctx : language ctx = language (context s) /\
                   stage ctx = stage (context s) /\
                   (both_truthy (lat (context s)) (lon (context s)) = true ->
                    lat ctx = lat (context s) /\ lon ctx = lon (context s))).
    { subst ctx. destruct (extract_lat_lon rt _) as [[la|] [lo|]]; auto.
      fields. split; [reflexivity|]. split; [reflexivity|].
      intros H. apply both_truthy_inv in H. destruct H as (x & y & Hx & Hy & Tx & Ty).
      split; eapply float_or_keeps; eassumption. }
    destruct Hctx as (Hlang & Hstage & Hpos).
    destruct (llm_intake env i ctx (observation s) (_last_user_text rt s)) as [upd|e].
    + destruct (_merge_observation rt (observation s) upd) as [obs'|] eqn:Eobs;
        cbn [rbind]; [|discriminate].
      intros [= <-]. unfold turn_frame. fields.
      split; [|split; [|split; [reflexivity | reflexivity]]].
      * repeat split; auto; try (apply Hpos; assumption).
        -- unfold _merge_observation in Eobs.
           destruct (merge_urgency _ _ _); [|discriminate]. injection Eobs as <-.
           apply fold_add_unique_prefix.
        -- unfold _merge_observation in Eobs.
           destruct (merge_urgency _ _ _); [|discriminate]. injection Eobs as <-.
           apply fold_add_unique_prefix.
      * rewrite Hstage. intros Hin.
        destruct (present rt (upd_stage upd)); [|exact Hin].
        destruct (str_in _ _ALLOWED_STAGES) eqn:E; [|exact Hin].
        apply str_in_In. exact E.
    + intros [= <-]. unfold turn_frame. fields.
      rewrite Hstage. repeat split; auto; apply Hpos; assumption.
Qed.

Lemma reply_plain (M : list message) (text : str) :
  reply_appended M (M ++ [assistant_message text]).
Proof. exists text. left. reflexivity. Qed.

Lemma reply_compacted (M : list message) (text : str) :
  reply_appended M (compacted KEEP_LAST (M ++ [assistant_message text])).
Proof. exists text. right. reflexivity. Qed.

Lemma buy_reply_effect (s s' : GraphState) (data : jval) :
  buy_reply rt py_repr s data = Ok s' ->
  turn_frame s s' /\ stage (context s') = stage (context s) /\
  reply_appended (messages s) (messages s') /\ last_node s' = Some (py "buy").
Proof.
  unfold buy_reply. intros H. through H. injection H as <-.
  unfold turn_frame. fields.
  repeat split; try reflexivity. apply reply_compacted.
Qed.

Ltac frame_ok := unfold turn_frame; fields; repeat split; reflexivity.

(** What each step does to a state: the frame it keeps, the stage, the
    log (a terminal step appends one reply, any other step leaves the log
    alone) and the name it leaves in [last_node]. *)
Lemma step_effect (i : nat) (n : node) (s s' : GraphState) :
  run_node rt py_repr env i n s = Ok s' ->
  turn_frame s s' /\
  (In (stage (context s)) _ALLOWED_STAGES -> In (stage (context s')) _ALLOWED_STAGES) /\
  (if terminal n then reply_appended (messages s) (messages s')
   else messages s' = messages s) /\
  last_node s' = Some (node_name n).
Proof.
  assert (Hsame : forall s', turn_frame s s' -> stage (context s') = stage (context s) ->
            forall P Q : Prop, P -> Q ->
            turn_frame s s' /\
            (In (stage (context s)) _ALLOWED_STAGES ->
             In (stage (context s')) _ALLOWED_STAGES) /\ P /\ Q).
  { intros s0 Hf Hst P Q HP HQ. rewrite Hst. auto. }
  destruct n; cbn [run_node terminal node_name].
  - (* intake *) apply intake_node_effect.
  - (* plan *) intros [= <-]. unfold plan_node.
    apply Hsame; [frame_ok | reflexivity | reflexivity | reflexivity].
  - (* ask *) intros [= <-]. unfold ask_node.
    apply Hsame; [frame_ok | reflexivity | apply reply_compacted | reflexivity].
  - (* crop_reco *)
    unfold crop_reco_node. intros H. through H.
    match goal with
    | E : _ = Ok ?c |- _ =>
        match type of E with
        | context [geocode] => apply geocoded_context in E; rename E into Hgeo
        end
    end.
    match type of H with
    | match ?r with _ => _ end = _ => destruct r
    end; injection H as <-.
    + apply Hsame; [| | apply reply_compacted | reflexivity].
      * eapply proj1, geocoded_frame; [exact Hgeo | reflexivity ..].
      * eapply proj2, geocoded_frame; [exact Hgeo | reflexivity ..].
    + apply Hsame; [frame_ok | reflexivity | apply reply_plain | reflexivity].
  - (* buy *)
    intros H.
    assert (Hreply : forall data, buy_reply rt py_repr s data = Ok s' ->
              turn_frame s s' /\
              (In (stage (context s)) _ALLOWED_STAGES ->
               In (stage (context s')) _ALLOWED_STAGES) /\
              reply_appended (messages s) (messages s') /\
              last_node s' = Some (py "buy")).
    { intros data Hd. apply buy_reply_effect in Hd.
      destruct Hd as (Hf & Hst & Hlog & Hlast). apply Hsame; assumption. }
    revert H. unfold buy_node.
    destruct (negb (nonempty _)); [apply Hreply|].
    destruct (negb (nonempty _)); [apply Hreply|].
    destruct (tools_buy_inputs env i _ _) as [ctx|[]]; try discriminate; apply Hreply.
  - (* vision *)
    intros [= <-]. unfold vision_node.
    repeat match goal with
           | |- context [match ?x with _ => _ end] =>
               lazymatch x with
               | context [match _ with _ => _ end] => fail
               | _ => destruct x
               end
           end;
      (apply Hsame; [frame_ok | reflexivity | reflexivity | reflexivity]).
  - (* weather *)
    unfold weather_node. intros H. through H.
    match goal with
    | E : _ = Ok ?c |- _ => apply geocoded_context in E; rename E into Hgeo
    end.
    repeat match type of H with
           | (if ?b then _ else _) = _ => destruct b
           | match ?x with _ => _ end = _ => destruct x
           end; try discriminate; injection H as <-;
      (apply Hsame; [| | reflexivity | reflexivity];
       [ eapply proj1, geocoded_frame; [exact Hgeo | reflexivity ..]
       | eapply proj2, geocoded_frame; [exact Hgeo | reflexivity ..] ]).
  - (* web *)
    unfold web_node. intros H.
    destruct (tools_web env i _ _) as [ctx|[]]; try discriminate; injection H as <-;
      (apply Hsame; [frame_ok | reflexivity | reflexivity | reflexivity]).
  - (* schemes *)
    unfold schemes_node. intros H.
    destruct (negb (opt_truthy _));
      [|destruct (tools_schemes env i _ _) as [ctx|[]]]; try discriminate;
      injection H as <-;
      (apply Hsame; [frame_ok | reflexivity | reflexivity | reflexivity]).
  - (* market *)
    unfold market_node. intros H.
    destruct (tools_market_prices env i _ _) as [ctx|[]]; try discriminate;
      injection H as <-;
      (apply Hsame; [frame_ok | reflexivity | reflexivity | reflexivity]).
  - (* advice *)
    intros [= <-]. unfold advice_node.
    destruct (rbind (llm_advice env i s) _).
    + apply Hsame; [frame_ok | reflexivity | apply reply_compacted | reflexivity].
    + apply Hsame; [frame_ok | reflexivity | apply reply_plain | reflexivity].
Qed.

(** The run goes on after every step that is not terminal, and ends
    after every terminal one. *)
Lemma next_node_end (i : nat) (n : node) (s : GraphState) (next : option node) :
  next_node rt env i n s = Ok next ->
  terminal n = match next with None => true | Some _ => false end.
Proof.
  destruct n; cbn [next_node edge terminal]; try (intros [= <-]; reflexivity).
  destruct (_route rt (clock env i) s) as [name|]; cbn [rbind]; [|discriminate].
  destruct (route_edges name); [|discriminate]. intros [= <-]. reflexivity.
Qed.

Lemma run_graph_effect (fuel i : nat) (n : node) (s out : GraphState) :
  run_graph rt py_repr env fuel i n s = Ok out ->
  turn_frame s out /\
  (In (stage (context s)) _ALLOWED_STAGES -> In (stage (context out)) _ALLOWED_STAGES) /\
  reply_appended (messages s) (messages out) /\
  exists t, terminal t = true /\ last_node out = Some (node_name t).
Proof.
  revert i n s. induction fuel as [|fuel IH]; intros i n s; [discriminate|].
  rewrite run_graph_S.
  destruct (run_node rt py_repr env i n s) as [s1|] eqn:E1; cbn [rbind]; [|discriminate].
  destruct (next_node rt env i n s1) as [next|] eqn:E2; cbn [rbind]; [|discriminate].
  apply step_effect in E1. destruct E1 as (F1 & St1 & Log1 & Last1).
  apply next_node_end in E2. rewrite E2 in Log1.
  destruct next as [n'|].
  - intros H. apply IH in H. destruct H as (F2 & St2 & Log2 & Last2).
    split; [eapply turn_frame_trans; eassumption|].
    split; [auto|]. rewrite <- Log1. split; assumption.
  - intros [= <-]. split; [exact F1|]. split; [exact St1|]. split; [exact Log1|].
    exists n. split; assumption.
Qed.

(** X7. A run of the graph that returns keeps the chat, the turn counter,
    the waiting photo and the language of the state it was started on; it
    keeps the coordinates when both were known; and it keeps every symptom
    and every pest recorded before, in place. *)
Theorem graph_run_keeps_the_frame (s out : GraphState) :
  ainvoke rt py_repr env s = Ok out -> turn_frame s out.
Proof. intros H. apply run_graph_effect in H. apply H. Qed.

(** X8. The crop stage never leaves the enumeration: whatever the model
    extracts and whatever the user writes, a run started on a state whose
    stage is one of the ten allowed names returns a state whose stage is
    one of them. *)
Theorem stage_stays_in_the_enumeration (s out : GraphState) :
  In (stage (context s)) _ALLOWED_STAGES ->
  ainvoke rt py_repr env s = Ok out ->
  In (stage (context out)) _ALLOWED_STAGES.
Proof. intros Hin H. apply run_graph_effect in H. apply H. exact Hin. Qed.

(** X9. A run that returns has appended exactly one reply of the assistant to
    the log it was given, and stopped after one of the four terminal steps,
    whose name it leaves in [last_node]. *)
Theorem completed_run_appends_one_reply (s out : GraphState) :
  ainvoke rt py_repr env s = Ok out ->
  reply_appended (messages s) (messages out) /\
  exists t, terminal t = true /\ last_node out = Some (node_name t).
Proof. intros H. apply run_graph_effect in H. apply H. Qed.

Lemma steps_of_S (fuel i : nat) (n : node) (state : GraphState) :
  steps_of rt py_repr env (S fuel) i n state =
  n :: match run_node rt py_repr env i n state with
       | Raise _ => []
       | Ok state' =>
           match next_node rt env i n state' with
           | Ok (Some n') => steps_of rt py_repr env fuel (S i) n' state'
           | _ => []
           end
       end.
Proof. reflexivity. Qed.

(** X10. A stage statement is a turn of three steps. When the last user
    message states a stage (and is neither of the two buttons that routing
    tests first), the intake writes that stage into the context without
    consulting the model, and the run goes from [plan] straight to
    [advice], whatever the profile lacks and whatever is stale. *)
Theorem stage_statement_is_a_three_step_turn (s : GraphState) (st : str) :
  _extract_stage_from_text rt (_last_user_text rt s) = Some st ->
  _last_user_text rt s <> ACTION_BUY ->
  _last_user_text rt s <> ACTION_CROP_RECO ->
  steps_of rt py_repr env RECURSION_LIMIT 0 Intake s = [Intake; Plan; Advice] /\
  ainvoke rt py_repr env s
  = Ok (advice_node rt py_repr env 2
          (plan_node (set_last_node (set_context s (set_stage (context s) st))
                                    (Some (py "intake"))))).
Proof.
  intros Hst Hbuy Hreco.
  pose proof (allowed_stage_truthy _ (extract_stage_allowed _ _ Hst)) as Htruthy.
  set (s1 := set_last_node (set_context s (set_stage (context s) st)) (Some (py "intake"))).
  assert (E1 : run_node rt py_repr env 0 Intake s = Ok s1).
  { cbn [run_node]. unfold intake_node. rewrite Hst, Htruthy. reflexivity. }
  assert (E2 : next_node rt env 1 Plan (plan_node s1) = Ok (Some Advice)).
  { cbn [next_node]. unfold _route.
    change (_last_user_text rt (plan_node s1)) with (_last_user_text rt s).
    destruct (str_eqb _ ACTION_BUY) eqn:E; [apply str_eqb_eq in E; contradiction|].
    destruct (str_eqb _ ACTION_CROP_RECO) eqn:E'; [apply str_eqb_eq in E'; contradiction|].
    unfold _is_stage_update_message. rewrite Hst. reflexivity. }
  change RECURSION_LIMIT with (S (S (S 22))). unfold ainvoke.
  change RECURSION_LIMIT with (S (S (S 22))).
  split.
  - rewrite steps_of_S, E1. cbn [next_node edge].
    rewrite steps_of_S. cbn [run_node]. rewrite E2.
    rewrite steps_of_S. reflexivity.
  - rewrite run_graph_S, E1. cbn [rbind next_node edge].
    rewrite run_graph_S. cbn [run_node rbind]. rewrite E2. cbn [rbind].
    rewrite run_graph_S. reflexivity.
Qed.

Lemma drop_snoc_two (k : nat) (M : list message) (a b : message) :
  (k <= length M)%nat -> drop k (M ++ [a; b]) = drop k M ++ [a; b].
Proof. intros H. apply drop_app_le. exact H. Qed.

(** The log after a turn: what was kept of the old log, the user message,
    the reply. *)
Lemma turn_log (ms M' : list message) (u : str) :
  reply_appended (compacted KEEP_LAST (ms ++ [user_message u])) M' ->
  exists M a, M' = M ++ [user_message u; assistant_message a] /\ M `suffix_of` ms.
Proof.
  intros [a H]. rewrite !compacted_keep_last in H.
  assert (E : drop (length (ms ++ [user_message u]) - 16) (ms ++ [user_message u])
              = drop (length ms - 15) ms ++ [user_message u]).
  { rewrite length_app. cbn [length].
    replace (length ms + 1 - 16)%nat with (length ms - 15)%nat by lia.
    apply drop_app_le. lia. }
  rewrite E in H. set (M0 := drop (length ms - 15) ms) in *.
  assert (Hsuf : M0 `suffix_of` ms) by apply suffix_drop.
  rewrite <- !app_assoc in H. cbn [app] in H.
  destruct H as [-> | ->].
  - exists M0, a. split; [reflexivity | exact Hsuf].
  - rewrite drop_snoc_two by (rewrite length_app; cbn [length]; lia).
    eexists _, a. split; [reflexivity|].
    etransitivity; [apply suffix_drop | exact Hsuf].
Qed.

Lemma last_user_text_after_reply (state : GraphState) (M : list message) (u a : str) :
  messages state = M ++ [user_message u; assistant_message a] ->
  _last_user_text rt state = strip rt u.
Proof.
  intros H. unfold _last_user_text. rewrite H, rev_app_distr. reflexivity.
Qed.

(** X11. What a turn returns. The state [run_turn] returns is the incoming one
    advanced by one turn: same chat and photo, the turn counter one
    higher; its log ends with the user message of the turn followed by one
    reply of the assistant, after a final segment of the old log; and the
    last user message of the returned state is the trimmed text of the
    turn. *)
Theorem run_turn_outcome (h h' : heap) (l l' : positive) (v : GraphState)
    (user_text : str) :
  load_state l h = Some v ->
  run_turn rt py_repr env l user_text h = Some (Ok l', h') ->
  exists out,
    load_state l' h' = Some out /\
    chat_id out = chat_id v /\ turn_count out = (turn_count v + 1)%Z /\
    last_image out = last_image v /\
    (exists M a, messages out = M ++ [user_message user_text; assistant_message a] /\
                 M `suffix_of` messages v) /\
    _last_user_text rt out = strip rt user_text.
Proof.
  intros Hv.
  destruct (model_copy_deep_private h l v Hv) as (s & h1 & E1 & P1).
  destruct (append_message_private h h1 s v (user_message user_text) P1)
    as (h2 & E2 & P2).
  destruct (incr_turn_count_private h h2 s _ P2) as (h3 & E3 & P3).
  destruct (compact_messages_private h h3 s _ KEEP_LAST P3) as (h4 & E4 & P4).
  pose proof (load_private _ _ _ _ P4) as E5.
  change (set_messages _ _) with (begin_turn v user_text) in E5.
  unfold run_turn, add_user. rewrite E1. cbn [mbind option_bind].
  rewrite E2. cbn [mbind option_bind]. rewrite E3. cbn [mbind option_bind].
  rewrite E4. cbn [mbind option_bind]. rewrite E5. cbn [mbind option_bind].
  destruct (ainvoke rt py_repr env (begin_turn v user_text)) as [out|e] eqn:Erun;
    [|discriminate].
  destruct (store_state_fresh out h4) as (l0 & h5 & E6 & _ & _ & _ & Hload & _).
  rewrite E6. intros [= <- <-].
  apply run_graph_effect in Erun.
  destruct Erun as ((F1 & F2 & F3 & _) & _ & Hlog & _).
  apply turn_log in Hlog. destruct Hlog as (M & a & HM & Hsuf).
  exists out. split; [exact Hload|].
  split; [exact F1|]. split; [exact F2|]. split; [exact F3|].
  split; [exists M, a; split; assumption|].
  eapply last_user_text_after_reply. exact HM.
Qed.

End TurnFacts.

(** ** The sentence of a stage button *)

Section Matching.

Variable rt : Runtime.

Lemma exec_seq_cons (r : re) (rs : list re) (s : str) (cs : list (nat * str))
    (k : str -> list (nat * str) -> option (list (nat * str))) :
  exec (re_seq (r :: rs)) s cs k
  = exec r s cs (fun s' cs' => exec (re_seq rs) s' cs' k).
Proof. reflexivity. Qed.

(** A greedy repetition takes a whole run of its class when what follows
    the run lets the match go on. *)
Lemma rep_exec_run {A} (p : N -> bool) (run rest : str) (k : str -> option A) (r : A) :
  forall lo, forallb p run = true -> (lo <= length run)%nat ->
  match rest with [] => True | c :: _ => p c = false end ->
  k rest = Some r ->
  rep_exec p lo None (run ++ rest) k = Some r.
Proof.
  induction run as [|c run IH]; intros lo Hall Hlo Hrest Hk.
  - cbn [app]. assert (lo = 0)%nat as -> by (simpl in Hlo; lia).
    destruct rest as [|c rest]; cbn [rep_exec]; [exact Hk|].
    rewrite Hrest. exact Hk.
  - cbn [forallb] in Hall. apply andb_prop in Hall. destruct Hall as [Hc Hall].
    cbn [app rep_exec]. rewrite Hc.
    rewrite (bool_decide_eq_false_2 (None = Some 0%nat)) by discriminate.
    cbn [andb negb fmap option_fmap option_map].
    rewrite (IH (pred lo)); [reflexivity | exact Hall | simpl in Hlo; lia | exact Hrest | exact Hk].
Qed.

(** A word of the pattern takes a text that matches it letter by letter. *)
Lemma exec_word (pat lit rest : str) (cs : list (nat * str))
    (k : str -> list (nat * str) -> option (list (nat * str))) :
  Forall2 (fun l c => ci_eq rt l c = true) pat lit ->
  exec (re_seq (map (fun l => Chr (ci_eq rt l)) pat)) (lit ++ rest) cs k = k rest cs.
Proof.
  induction 1 as [|l c pat lit Hlc _ IH]; [reflexivity|].
  cbn [map app]. rewrite exec_seq_cons. cbn [exec]. rewrite Hlc. exact IH.
Qed.

End Matching.

Lemma stage_word_char (c : N) :
  in_range 97 122 c || N.eqb c 95 = true ->
  unicode_isspace c = false /\ stage_char ascii_runtime c = true /\ ascii_lower_char c = c.
Proof.
  intros H. unfold in_range in H.
  rewrite orb_true_iff, andb_true_iff, !N.leb_le, N.eqb_eq in H.
  assert (Hlow : ascii_lower_char c = c).
  { unfold ascii_lower_char, in_range.
    destruct ((65 <=? c)%N && (c <=? 90)%N) eqn:E; [|reflexivity].
    rewrite andb_true_iff, !N.leb_le in E. lia. }
  split; [|split; [|exact Hlow]].
  - apply not_true_is_false. intros Hs. unfold unicode_isspace, in_range in Hs.
    rewrite ?orb_true_iff, ?andb_true_iff, ?N.leb_le, ?N.eqb_eq in Hs. lia.
  - unfold stage_char. destruct H as [Hr | ->]; [|reflexivity].
    apply orb_true_intro. left. apply existsb_exists. exists c. split.
    + apply in_map_iff. exists (N.to_nat c). split; [apply N2Nat.id|].
      apply in_seq. lia.
    + cbn [ci_eq ascii_runtime]. unfold sre_ci_eq. rewrite Hlow, N.eqb_refl. reflexivity.
Qed.

Lemma stage_word (w : str) :
  forallb (fun c => in_range 97 122 c || N.eqb c 95) w = true ->
  forallb (stage_char ascii_runtime) w = true /\
  forallb (fun c => negb (unicode_isspace c)) w = true /\
  lower ascii_runtime w = w.
Proof.
  induction w as [|c w IH]; [repeat split|].
  cbn [forallb]. intros H. apply andb_prop in H. destruct H as [Hc Hw].
  destruct (stage_word_char c Hc) as (Hs & Hst & Hl).
  destruct (IH Hw) as (IH1 & IH2 & IH3).
  rewrite Hst, Hs, IH1, IH2. cbn [lower ascii_runtime map] in *.
  rewrite Hl, IH3. repeat split.
Qed.

(** Trimming leaves a text alone that has no white space at either end. *)
Lemma strip_word (rt : Runtime) (w : str) :
  forallb (fun c => negb (isspace rt c)) w = true -> strip rt w = w.
Proof.
  intros H.
  assert (Hhead : forall s, forallb (fun c => negb (isspace rt c)) s = true ->
                            drop_while (isspace rt) s = s).
  { intros s Hs. apply drop_while_id. destruct s as [|c s]; [exact I|].
    cbn [forallb] in Hs. apply andb_prop in Hs. destruct Hs as [Hc _].
    apply negb_true_iff. exact Hc. }
  unfold strip. rewrite (Hhead w H), Hhead, rev_involutive; [reflexivity|].
  rewrite forallb_forall in *. intros c Hc. apply H. apply in_rev. exact Hc.
Qed.

(** X12. The text a stage button sends, [My stage is <name>.], is understood
    on ASCII text for every name made of small letters and underscores:
    the name comes out as the stage when it is one of the allowed stages,
    and the sentence states no stage when it is not. *)
Theorem stage_button_sentence_is_understood (w : str) :
  w <> [] ->
  forallb (fun c => in_range 97 122 c || N.eqb c 95) w = true ->
  _extract_stage_from_text ascii_runtime (py "My stage is " ++ w ++ py ".")
  = if str_in w _ALLOWED_STAGES then Some w else None.
Proof.
  intros Hne Hw.
  destruct (stage_word w Hw) as (Hstage & Hnosp & Hlow).
  assert (Hm : re_match (_STAGE_UPDATE_RE ascii_runtime)
                 (py "My stage is " ++ w ++ py ".") = Some [(1%nat, w)]).
  { change (py "My stage is " ++ w ++ py ".")
      with ([] ++ [77; 121] ++ [32] ++ [115; 116; 97; 103; 101] ++ [32]
               ++ [105; 115] ++ [32] ++ w ++ [46])%N.
    unfold re_match, _STAGE_UPDATE_RE.
    rewrite exec_seq_cons. cbn [exec].
    apply rep_exec_run; [reflexivity | cbn [length]; lia | exact eq_refl |].
    rewrite exec_seq_cons. unfold ci_word at 1.
    rewrite (exec_word ascii_runtime (py "my") [77; 121]%N) by (repeat constructor).
    rewrite exec_seq_cons. cbn [exec].
    apply rep_exec_run; [reflexivity | cbn [length]; lia | exact eq_refl |].
    rewrite exec_seq_cons. unfold ci_word at 1.
    rewrite (exec_word ascii_runtime (py "stage") [115; 116; 97; 103; 101]%N)
      by (repeat constructor).
    rewrite exec_seq_cons. cbn [exec].
    apply rep_exec_run; [reflexivity | cbn [length]; lia | exact eq_refl |].
    rewrite exec_seq_cons. unfold ci_word at 1.
    rewrite (exec_word ascii_runtime (py "is") [105; 115]%N) by (repeat constructor).
    rewrite exec_seq_cons. cbn [exec].
    apply rep_exec_run; [reflexivity | cbn [length]; lia | |].
    { destruct w as [|c w']; [contradiction|]. cbn [app].
      cbn [forallb] in Hnosp. apply andb_prop in Hnosp. destruct Hnosp as [Hc _].
      apply negb_true_iff. exact Hc. }
    rewrite exec_seq_cons. cbn [exec].
    apply rep_exec_run; [exact Hstage | destruct w; [contradiction | cbn [length]; lia]
                        | exact eq_refl |].
    rewrite length_app. cbn [length].
    replace (length w + 1 - 1)%nat with (length w) by lia.
    rewrite take_app_length. reflexivity. }
  unfold _extract_stage_from_text.
  replace (negb (nonempty (py "My stage is " ++ w ++ py "."))) with false by reflexivity.
  rewrite Hm. cbn [group Nat.eqb].
  rewrite (strip_word ascii_runtime w Hnosp), Hlow. reflexivity.
Qed.

(** ** More on the merge *)

Section MergeInvariants.

Variable rt : Runtime.

Lemma add_unique_NoDup (acc : list str) (s : str) :
  NoDup (map (lower rt) acc) -> NoDup (map (lower rt) (add_unique rt acc s)).
Proof.
  intros H. unfold add_unique.
  destruct (nonempty (strip rt s)); cbn [andb]; [|exact H].
  destruct (str_in _ _) eqn:E; cbn [negb]; [exact H|].
  rewrite map_app. cbn [map]. apply NoDup_app.
  split; [exact H|]. split; [|apply NoDup_singleton].
  intros x Hx Hx'. apply list_elem_of_singleton in Hx'. subst x.
  apply list_elem_of_In, str_in_In in Hx. rewrite Hx in E. discriminate.
Qed.

Lemma add_unique_new (acc : list str) (s x : str) :
  In x (add_unique rt acc s) -> In x acc \/ x <> [] /\ x = strip rt s.
Proof.
  unfold add_unique.
  destruct (nonempty (strip rt s)) eqn:E; cbn [andb]; [|auto].
  destruct (negb _); [|auto].
  intros H. apply in_app_or in H. destruct H as [H|[<-|[]]]; [auto|].
  right. split; [|reflexivity]. intros E'. rewrite E' in E. discriminate.
Qed.

Lemma fold_add_unique_NoDup (l acc : list str) :
  NoDup (map (lower rt) acc) ->
  NoDup (map (lower rt) (fold_left (add_unique rt) l acc)).
Proof.
  revert acc. induction l as [|s l IH]; intros acc H; [exact H|].
  cbn [fold_left]. apply IH, add_unique_NoDup, H.
Qed.

Lemma fold_add_unique_new (l acc : list str) (x : str) :
  In x (fold_left (add_unique rt) l acc) ->
  In x acc \/ x <> [] /\ exists s, In s l /\ x = strip rt s.
Proof.
  revert acc. induction l as [|s l IH]; intros acc H; [auto|].
  cbn [fold_left] in H. apply IH in H.
  destruct H as [H|(Hne & s' & Hs' & ->)].
  - apply add_unique_new in H. destruct H as [H|[Hne ->]]; [auto|].
    right. split; [exact Hne|]. exists s. split; [left; reflexivity | reflexivity].
  - right. split; [exact Hne|]. exists s'. split; [right; exact Hs' | reflexivity].
Qed.

(** X13. The two lists of an observation hold no entry twice, compared in
    lower case, and merging keeps it so; every entry a merge adds is the
    trimmed, non-empty form of an item of the update. *)
Theorem merge_keeps_entries_unique (O O' : Observation) (U : IntakeExtraction) :
  NoDup (map (lower rt) (symptoms O)) ->
  NoDup (map (lower rt) (pests_seen O)) ->
  _merge_observation rt O U = Ok O' ->
  NoDup (map (lower rt) (symptoms O')) /\
  NoDup (map (lower rt) (pests_seen O')) /\
  (forall x, In x (symptoms O') ->
     In x (symptoms O) \/ x <> [] /\ exists s, In s (upd_symptoms U) /\ x = strip rt s) /\
  (forall x, In x (pests_seen O') ->
     In x (pests_seen O) \/ x <> [] /\ exists s, In s (upd_pests_seen U) /\ x = strip rt s).
Proof.
  intros Hs Hp H. unfold _merge_observation in H.
  destruct (merge_urgency rt (urgency O) (upd_urgency U)); [|discriminate].
  injection H as <-. cbn [symptoms pests_seen].
  split; [apply fold_add_unique_NoDup, Hs|].
  split; [apply fold_add_unique_NoDup, Hp|].
  split; intros x; apply fold_add_unique_new.
Qed.

Lemma add_unique_absorbs (acc : list str) (s : str) :
  add_unique rt (add_unique rt acc s) s = add_unique rt acc s.
Proof.
  unfold add_unique.
  destruct (nonempty (strip rt s)); cbn [andb]; [|reflexivity].
  destruct (str_in _ (map (lower rt) acc)) eqn:E'; cbn [negb].
  - rewrite E'. reflexivity.
  - replace (str_in (lower rt (strip rt s)) (map (lower rt) (acc ++ [strip rt s])))
      with true; [reflexivity|].
    symmetry. apply str_in_In. rewrite map_app. apply in_or_app. right. left. reflexivity.
Qed.

Lemma add_unique_fixed_mono (acc acc' : list str) (s : str) :
  add_unique rt acc s = acc -> acc `prefix_of` acc' -> add_unique rt acc' s = acc'.
Proof.
  unfold add_unique. intros H [k ->].
  destruct (nonempty (strip rt s)); cbn [andb] in *; [|reflexivity].
  destruct (str_in _ (map (lower rt) acc)) eqn:E; cbn [negb] in *.
  - replace (str_in (lower rt (strip rt s)) (map (lower rt) (acc ++ k))) with true;
      [reflexivity|].
    symmetry. apply str_in_In. apply str_in_In in E.
    rewrite map_app. apply in_or_app. left. exact E.
  - apply (f_equal (@length _)) in H. rewrite length_app in H. cbn [length] in H. lia.
Qed.

Lemma fold_add_unique_fixed (l acc : list str) :
  Forall (fun s => add_unique rt acc s = acc) l ->
  fold_left (add_unique rt) l acc = acc.
Proof.
  induction 1 as [|s l Hs _ IH]; [reflexivity|].
  cbn [fold_left]. rewrite Hs. exact IH.
Qed.

Lemma fold_add_unique_absorbs (l acc : list str) :
  Forall (fun s => add_unique rt (fold_left (add_unique rt) l acc) s
                   = fold_left (add_unique rt) l acc) l.
Proof.
  revert acc. induction l as [|s l IH]; intros acc; [constructor|].
  cbn [fold_left]. constructor; [|apply IH].
  eapply add_unique_fixed_mono; [apply add_unique_absorbs|].
  apply fold_add_unique_prefix.
Qed.

Lemma merge_urgency_idemp (old new : str) (upd : option str) :
  merge_urgency rt old upd = Ok new -> merge_urgency rt new upd = Ok new.
Proof.
  unfold merge_urgency.
  destruct (opt_truthy upd); [|intros [= <-]; reflexivity].
  destruct (str_in _ URGENCY_LEVELS); [|intros [= <-]; reflexivity].
  destruct (order (lower rt (strip rt (default [] upd)))) as [ku|] eqn:Eu;
    cbn [rbind]; [|discriminate].
  destruct (order old) as [ko|] eqn:Eo; cbn [rbind]; [|discriminate].
  destruct (ko <? ku)%Z eqn:Elt; intros [= <-].
  - rewrite Eu. cbn [rbind]. rewrite Z.ltb_irrefl. reflexivity.
  - rewrite Eo. cbn [rbind]. rewrite Elt. reflexivity.
Qed.

Lemma overwrite_idemp (g : str -> str) (old upd : option str) :
  overwrite rt g (overwrite rt g old upd) upd = overwrite rt g old upd.
Proof.
  unfold overwrite. destruct upd as [s|]; [|reflexivity].
  destruct (nonempty s && nonempty (strip rt s)); reflexivity.
Qed.

(** X14. Merging is idempotent: the same extraction merged a second time
    changes nothing, in the context and in the observation. *)
Theorem merge_twice_is_merge_once (C : FarmerContext) (O O' : Observation)
    (U : IntakeExtraction) :
  _merge_observation rt O U = Ok O' ->
  _merge_context rt (_merge_context rt C U) U = _merge_context rt C U /\
  _merge_observation rt O' U = Ok O'.
Proof.
  intros H. split.
  - unfold _merge_context.
    cbn [farmer_name land_size land_unit crop stage location_text lat lon
         sowing_date irrigation soil_type notes language].
    rewrite !overwrite_idemp.
    f_equal;
      repeat match goal with
             | |- context [match ?x with _ => _ end] =>
                 lazymatch x with
                 | context [match _ with _ => _ end] => fail
                 | _ => destruct x
                 end
             end; reflexivity.
  - unfold _merge_observation in *.
    destruct (merge_urgency rt (urgency O) (upd_urgency U)) as [u|] eqn:Eu;
      [|discriminate].
    injection H as <-. cbn [symptoms pests_seen urgency].
    rewrite (merge_urgency_idemp _ _ _ Eu). cbn [rbind].
    rewrite (fold_add_unique_fixed (upd_symptoms U)) by apply fold_add_unique_absorbs.
    rewrite (fold_add_unique_fixed (upd_pests_seen U)) by apply fold_add_unique_absorbs.
    reflexivity.
Qed.

End MergeInvariants.

(** ** More on the coercion layer *)

Section CoercionInvariants.

Variable rt : Runtime.
Variable py_repr : jval -> str.

Lemma stripped_items_trimmed (l : list jval) :
  Forall (trimmed rt) (stripped_items rt py_repr l).
Proof.
  unfold stripped_items. apply Forall_forall. intros x Hx.
  apply list_elem_of_filter in Hx. destruct Hx as [Hne Hx].
  apply list_elem_of_In, in_map_iff in Hx. destruct Hx as (v & <- & _).
  split; [|apply strip_idemp].
  intros E. rewrite E in Hne. discriminate.
Qed.

Lemma stripped_parts_trimmed (parts : list str) :
  Forall (trimmed rt) (stripped_parts rt parts).
Proof.
  unfold stripped_parts. apply Forall_forall. intros x Hx.
  apply list_elem_of_filter in Hx. destruct Hx as [Hne Hx].
  apply list_elem_of_In, in_map_iff in Hx. destruct Hx as (v & <- & _).
  split; [|apply strip_idemp].
  intros E. rewrite E in Hne. discriminate.
Qed.

Lemma split_lines_trimmed (v : jval) :
  Forall (trimmed rt) (_split_lines_to_list rt py_repr v).
Proof.
  destruct v; cbn [_split_lines_to_list]; try constructor.
  - apply stripped_parts_trimmed.
  - apply stripped_items_trimmed.
Qed.

(** X15. Every entry of every list the two coercers return is trimmed and not
    empty. *)
Theorem coerced_entries_are_trimmed (d : list (str * jval)) :
  (exists a, safe_parse_advisory rt py_repr (JDict d) = Ok a /\
             Forall (trimmed rt) (actions_now a) /\
             Forall (trimmed rt) (watch_out_for a) /\
             Forall (trimmed rt) (safety_notes a)) /\
  Forall (trimmed rt) (likely_causes (_coerce_image_diagnosis rt py_repr d)) /\
  Forall (trimmed rt) (diag_actions_now (_coerce_image_diagnosis rt py_repr d)) /\
  Forall (trimmed rt) (diag_watch_out_for (_coerce_image_diagnosis rt py_repr d)).
Proof.
  split.
  - eexists. split; [reflexivity|].
    cbn [actions_now watch_out_for safety_notes].
    repeat split; apply Forall_take, stripped_items_trimmed.
  - unfold _coerce_image_diagnosis.
    cbn [likely_causes diag_actions_now diag_watch_out_for].
    repeat split; apply Forall_take, split_lines_trimmed.
Qed.

Lemma split_on_pieces (d : N -> bool) (s : str) :
  Forall (Forall (fun c => d c = false)) (split_on d s).
Proof.
  induction s as [|c s IH]; cbn [split_on]; [repeat constructor|].
  destruct (d c) eqn:E; [constructor; [constructor | exact IH]|].
  destruct (split_on d s) as [|p ps]; [repeat constructor; exact E|].
  inversion IH; subst. constructor; [constructor; assumption | assumption].
Qed.

Lemma split_runs_pieces (d : N -> bool) (s : str) :
  forall prev, Forall (Forall (fun c => d c = false)) (split_runs d prev s).
Proof.
  induction s as [|c s IH]; intros prev; cbn [split_runs]; [repeat constructor|].
  destruct (d c) eqn:E.
  - destruct prev; [apply IH | constructor; [constructor | apply IH]].
  - specialize (IH false).
    destruct (split_runs d false s) as [|p ps]; [repeat constructor; exact E|].
    inversion IH; subst. constructor; [constructor; assumption | assumption].
Qed.

Lemma Forall_drop_while (P : N -> Prop) (p : N -> bool) (s : str) :
  Forall P s -> Forall P (drop_while p s).
Proof.
  intros H. destruct (drop_while_suffix p s) as [k Hk].
  rewrite Hk in H. apply Forall_app in H. apply H.
Qed.

Lemma Forall_strip (P : N -> Prop) (s : str) : Forall P s -> Forall P (strip rt s).
Proof.
  intros H. unfold strip.
  apply Forall_rev, Forall_drop_while, Forall_rev, Forall_drop_while, H.
Qed.

Lemma stripped_parts_pieces (P : N -> Prop) (parts : list str) :
  Forall (Forall P) parts -> Forall (Forall P) (stripped_parts rt parts).
Proof.
  intros H. unfold stripped_parts. apply Forall_forall. intros x Hx.
  apply list_elem_of_filter in Hx. destruct Hx as [_ Hx].
  apply list_elem_of_In, in_map_iff in Hx. destruct Hx as (v & <- & Hv).
  apply Forall_strip. rewrite Forall_forall in H. apply H, list_elem_of_In, Hv.
Qed.

(** X16. One entry per line. When a list field of the advisory arrives as a
    string, no entry made from it holds a newline; and no entry the image
    coercer makes from a string holds a newline, a bullet or a hyphen. *)
Theorem string_fields_leave_no_delimiter (d : list (str * jval)) (k : string) (s : str) :
  get_key d k = JStr s ->
  Forall (Forall (fun c => is_newline c = false))
         (stripped_items rt py_repr (advisory_list rt d k)) /\
  Forall (Forall (fun c => is_line_delimiter c = false))
         (_split_lines_to_list rt py_repr (get_key d k)).
Proof.
  intros Hk. split.
  - destruct s as [|c s].
    + unfold advisory_list, py_or. rewrite Hk. constructor.
    + rewrite (advisory_list_of_string rt py_repr d k (c :: s)) by (discriminate || exact Hk).
      apply stripped_parts_pieces, split_on_pieces.
  - rewrite Hk. cbn [_split_lines_to_list].
    apply stripped_parts_pieces, split_runs_pieces.
Qed.

End CoercionInvariants.

(** ** The JSON object in a reply of the model *)

Section JsonObject.

Variable rt : Runtime.

(** Where a repetition stops, the match goes on with a final segment of
    the subject. *)
Lemma rep_exec_rest {A} (p : N -> bool) (s : str) (k : str -> option A) (r : A) :
  forall lo hi, rep_exec p lo hi s k = Some r ->
  exists pre rest, s = pre ++ rest /\ k rest = Some r.
Proof.
  induction s as [|c s IH]; intros lo hi H.
  - cbn [rep_exec] in H. destruct lo; [|discriminate]. exists [], []. auto.
  - cbn [rep_exec] in H.
    assert (Hstop : match lo with O => k (c :: s) | S _ => None end = Some r ->
                    exists pre rest, c :: s = pre ++ rest /\ k rest = Some r).
    { destruct lo; [|discriminate]. intros Hk. exists [], (c :: s). auto. }
    destruct (p c && negb (bool_decide (hi = Some 0%nat))); [|auto].
    destruct (rep_exec p (pred lo) (pred <$> hi) s k) as [r'|] eqn:E; [|auto].
    injection H as ->. apply IH in E. destruct E as (pre & rest & -> & Hk).
    exists (c :: pre), rest. auto.
Qed.

Lemma re_search_at (r : re) (s : str) (m : list (nat * str)) :
  re_search r s = Some m -> exists pre s0, s = pre ++ s0 /\ re_match r s0 = Some m.
Proof.
  induction s as [|c s IH]; cbn [re_search].
  - destruct (re_match r []) eqn:E; [|discriminate].
    intros [= <-]. exists [], []. auto.
  - destruct (re_match r (c :: s)) eqn:E.
    + intros [= <-]. exists [], (c :: s). auto.
    + intros H. apply IH in H. destruct H as (pre & s0 & -> & Hm).
      exists (c :: pre), s0. auto.
Qed.

Lemma is_char_eq (a : string) (c : N) : is_char a c = true -> [c] = py a.
Proof. apply str_eqb_eq. Qed.

Lemma json_obj_match (s0 : str) (m : list (nat * str)) :
  re_match (_JSON_OBJ_RE) s0 = Some m ->
  exists mid post, s0 = py "{" ++ mid ++ py "}" ++ post /\
                   group 0 m = py "{" ++ mid ++ py "}".
Proof.
  unfold re_match, _JSON_OBJ_RE, re_seq. cbn [fold_right exec].
  destruct s0 as [|c s1]; [discriminate|].
  destruct (is_char "{" c) eqn:Ec; [|discriminate].
  intros H. apply rep_exec_rest in H. destruct H as (mid & rest & -> & H).
  destruct rest as [|c2 post]; [discriminate|].
  destruct (is_char "}" c2) eqn:Ec2; [|discriminate].
  injection H as <-.
  apply is_char_eq in Ec, Ec2.
  change (py "{") with [123%N] in Ec. change (py "}") with [125%N] in Ec2.
  injection Ec as ->. injection Ec2 as ->.
  exists mid, post. split; [reflexivity|].
  cbn [group Nat.eqb].
  change (py "{" ++ mid ++ py "}") with (123%N :: mid ++ [125%N]).
  assert (E : (123%N :: mid ++ 125%N :: post) = (123%N :: mid ++ [125%N]) ++ post)
    by (cbn [app]; rewrite <- app_assoc; reflexivity).
  change (S (length (mid ++ 125%N :: post)))
    with (length (123%N :: mid ++ 125%N :: post)).
  rewrite E, length_app.
  replace (length (123%N :: mid ++ [125%N]) + length post - length post)%nat
    with (length (123%N :: mid ++ [125%N])) by lia.
  apply take_app_length.
Qed.

Lemma extract_json_object_braced (text js : str) :
  _extract_json_object rt text = Some js ->
  starts_with (py "{") js = true /\ ends_with (py "}") js = true /\
  exists pre post, strip rt text = pre ++ js ++ post.
Proof.
  unfold _extract_json_object.
  destruct (negb (nonempty text)); [discriminate|].
  destruct (starts_with (py "{") (strip rt text) && ends_with (py "}") (strip rt text))
    eqn:E.
  - intros [= <-]. apply andb_prop in E. destruct E as [E1 E2].
    split; [exact E1|]. split; [exact E2|].
    exists [], []. rewrite app_nil_r. reflexivity.
  - destruct (re_search _JSON_OBJ_RE (strip rt text)) as [m|] eqn:Em; [|discriminate].
    intros [= <-].
    apply re_search_at in Em. destruct Em as (pre & s0 & Hs & Hm).
    apply json_obj_match in Hm. destruct Hm as (mid & post & -> & ->).
    split; [reflexivity|].
    split.
    + unfold ends_with.
      change (py "{" ++ mid ++ py "}") with (123%N :: mid ++ [125%N]).
      rewrite app_comm_cons, rev_app_distr. reflexivity.
    + exists pre, post. rewrite Hs. rewrite <- !app_assoc. reflexivity.
Qed.

(** X17. What [_extract_json_object] returns is a piece of the trimmed text
    that starts with an opening brace and ends with a closing one. *)
Theorem extracted_object_is_braced (text js : str) :
  _extract_json_object rt text = Some js ->
  starts_with (py "{") js = true /\ ends_with (py "}") js = true /\
  exists pre post, strip rt text = pre ++ js ++ post.
Proof. apply extract_json_object_braced. Qed.

End JsonObject.

(** ** More on the log *)

(** X18. Compaction for any number of entries to keep: what is left is a final
    segment of the log, of the length asked for when the log is longer.
    Asked to keep none, it keeps all: the slice [ms[-0:]] is the whole
    list. *)
Theorem compaction_keeps_the_tail (keep_last : nat) (ms : list message) :
  compacted keep_last ms `suffix_of` ms /\
  length (compacted keep_last ms)
  = (if (keep_last =? 0)%nat then length ms else Nat.min keep_last (length ms)).
Proof.
  unfold compacted, last_items.
  destruct (keep_last <? length ms)%nat eqn:E.
  - apply Nat.ltb_lt in E. destruct keep_last as [|k].
    + split; reflexivity.
    + split; [apply suffix_drop|]. rewrite length_drop. cbn [Nat.eqb]. lia.
  - apply Nat.ltb_ge in E. split; [reflexivity|].
    destruct keep_last; cbn [Nat.eqb]; lia.
Qed.

(** ** The buy step *)

Section BuyFacts.

Variable rt : Runtime.
Variable py_repr : jval -> str.
Variable env : Env.

Lemma buy_data_parses (c : FarmerContext) (h : str) (acts watch : list str)
    (rationale : str) (conf : string) :
  exists adv,
    safe_parse_advisory rt py_repr (buy_data c h acts watch rationale conf) = Ok adv /\
    needs_human_review adv = false /\ safety_notes adv = [] /\
    (length (actions_now adv) <= 5)%nat.
Proof.
  eexists. split; [reflexivity|].
  split; [reflexivity|]. split; [reflexivity|].
  cbn [actions_now]. rewrite length_take. lia.
Qed.

Lemma buy_reply_answers (s : GraphState) (c : FarmerContext) (h : str)
    (acts watch : list str) (rationale : str) (conf : string) :
  exists s' adv,
    buy_reply rt py_repr s (buy_data c h acts watch rationale conf) = Ok s' /\
    advisory s' = Some adv /\
    needs_human_review adv = false /\ safety_notes adv = [] /\
    (length (actions_now adv) <= 5)%nat /\
    messages s' = compacted KEEP_LAST (messages s ++ [assistant_message (headline adv)]) /\
    last_node s' = Some (py "buy").
Proof.
  destruct (buy_data_parses c h acts watch rationale conf) as (adv & E & H1 & H2 & H3).
  unfold buy_reply. rewrite E. cbn [rbind].
  eexists _, adv. split; [reflexivity|]. auto 10.
Qed.

(** X19. The buy step always answers. Unless the provider raises something
    other than a [ToolError], it returns a state with an advisory that is
    not flagged for review, has no safety notes and at most five actions
    (of the six links it formats, the sixth is never shown), whose headline
    is the reply appended to the log. *)
Theorem buy_step_always_answers (i : nat) (s : GraphState) :
  (forall loc crop e, tools_buy_inputs env i loc crop = Raise e -> e = ToolError) ->
  exists s' adv,
    buy_node rt py_repr env i s = Ok s' /\
    advisory s' = Some adv /\
    needs_human_review adv = false /\ safety_notes adv = [] /\
    (length (actions_now adv) <= 5)%nat /\
    messages s' = compacted KEEP_LAST (messages s ++ [assistant_message (headline adv)]) /\
    last_node s' = Some (py "buy").
Proof.
  intros Htool. unfold buy_node.
  destruct (negb (nonempty _)); [apply buy_reply_answers|].
  destruct (negb (nonempty _)); [apply buy_reply_answers|].
  destruct (tools_buy_inputs env i _ _) as [ctx|e] eqn:E.
  - apply buy_reply_answers.
  - rewrite (Htool _ _ _ E). apply buy_reply_answers.
Qed.

(** X20. With no crop in the context, or no location, the buy step consults
    no provider: its result is the same in every world. *)
Theorem buy_step_without_crop_or_location (i : nat) (s : GraphState) (env' : Env) :
  nonempty (lower rt (strip rt (or_empty (crop (context s))))) = false \/
  nonempty (location_or_coordinates rt (context s)) = false ->
  buy_node rt py_repr env i s = buy_node rt py_repr env' i s.
Proof.
  intros H. unfold buy_node.
  destruct (nonempty (lower rt (strip rt (or_empty (crop (context s)))))); [|reflexivity].
  destruct H as [H|H]; [discriminate|]. rewrite H. reflexivity.
Qed.

End BuyFacts.

(** ** The web search of [tools.py] *)

Section WebSearchFacts.

Variable rt : Runtime.
Variable py_repr : jval -> str.
Variable self : ToolBundle.fields.
Variable post : nat -> str -> str -> result jval.
Variable _utc_now_iso : nat -> str.

Lemma NoDup_firstn {A} (n : nat) (l : list A) : NoDup l -> NoDup (take n l).
Proof.
  intros H. rewrite <- (take_drop n l) in H. apply NoDup_app in H. apply H.
Qed.

Lemma nonempty_true (s : str) : nonempty s = true -> s <> [].
Proof. intros H E. rewrite E in H. discriminate. Qed.

Lemma text_of_trimmed (d : list (str * jval)) (k : string) :
  nonempty (text_of rt py_repr d k) = true -> trimmed rt (text_of rt py_repr d k).
Proof.
  intros H. split; [apply nonempty_true, H|]. unfold text_of. apply strip_idemp.
Qed.

Lemma web_items_shape (results : list jval) (acc : list str * list str) :
  Forall (fun x => x <> []) (fst acc) -> Forall (trimmed rt) (snd acc) ->
  Forall (fun x => x <> []) (fst (fold_left (ToolBundle.web_item rt py_repr) results acc)) /\
  Forall (trimmed rt) (snd (fold_left (ToolBundle.web_item rt py_repr) results acc)) /\
  (length (fst (fold_left (ToolBundle.web_item rt py_repr) results acc))
   <= length (fst acc) + length results)%nat /\
  (length (snd (fold_left (ToolBundle.web_item rt py_repr) results acc))
   <= length (snd acc) + length results)%nat.
Proof.
  revert acc. induction results as [|item results IH]; intros acc H1 H2.
  - cbn [fold_left length]. repeat split; try assumption; lia.
  - cbn [fold_left].
    assert (Hstep : Forall (fun x => x <> []) (fst (ToolBundle.web_item rt py_repr acc item)) /\
                    Forall (trimmed rt) (snd (ToolBundle.web_item rt py_repr acc item)) /\
                    (length (fst (ToolBundle.web_item rt py_repr acc item))
                     <= S (length (fst acc)))%nat /\
                    (length (snd (ToolBundle.web_item rt py_repr acc item))
                     <= S (length (snd acc)))%nat).
    { unfold ToolBundle.web_item.
      destruct item; cbv iota; try (repeat split; try assumption; lia).
      cbn [fst snd].
      split; [|split; [|split]].
      - destruct (nonempty (_clean_snippet _ _ _)) eqn:E; [|exact H1].
        apply Forall_app. split; [exact H1|].
        constructor; [apply nonempty_true, E | constructor].
      - destruct (nonempty (text_of rt py_repr d "url")) eqn:E; [|exact H2].
        apply Forall_app. split; [exact H2|].
        constructor; [apply text_of_trimmed, E | constructor].
      - destruct (nonempty (_clean_snippet _ _ _)); [|lia].
        rewrite length_app. cbn [length]. lia.
      - destruct (nonempty (text_of rt py_repr d "url")); [|lia].
        rewrite length_app. cbn [length]. lia. }
    destruct Hstep as (S1 & S2 & S3 & S4).
    destruct (IH _ S1 S2) as (I1 & I2 & I3 & I4).
    cbn [length]. repeat split; try assumption; lia.
Qed.

Lemma add_unseen_shape (P : str -> Prop) (urls acc : list str) :
  NoDup acc -> Forall P acc -> Forall P urls ->
  NoDup (fold_left ToolBundle.add_unseen urls acc) /\
  Forall P (fold_left ToolBundle.add_unseen urls acc).
Proof.
  revert acc. induction urls as [|u urls IH]; intros acc Hn Ha Hu; [auto|].
  inversion Hu; subst. cbn [fold_left]. apply IH; [| |assumption].
  - unfold ToolBundle.add_unseen. destruct (str_in u acc) eqn:E; cbn [negb]; [exact Hn|].
    apply NoDup_app. split; [exact Hn|]. split; [|apply NoDup_singleton].
    intros x Hx Hx'. apply list_elem_of_singleton in Hx'. subst x.
    apply list_elem_of_In, str_in_In in Hx. rewrite Hx in E. discriminate.
  - unfold ToolBundle.add_unseen. destruct (negb _); [|exact Ha].
    apply Forall_app. split; [exact Ha | constructor; [assumption | constructor]].
Qed.

Lemma strip_blank (s : str) : nonempty (strip rt s) = false -> strip rt s = [].
Proof. destruct (strip rt s); [reflexivity | discriminate]. Qed.

(** X21. What a search returns: the trimmed query; at most six snippets, none
    empty; at most six links, trimmed, none empty and none twice. *)
Theorem web_result_shape (call : nat) (query time_range : str) (ctx : WebContext) :
  ToolBundle.web rt py_repr self post _utc_now_iso call query time_range
  = ToolBundle.Returns ctx ->
  web_query ctx = strip rt query /\
  (length (web_snippets ctx) <= 6)%nat /\ (length (web_urls ctx) <= 6)%nat /\
  Forall (fun x => x <> []) (web_snippets ctx) /\
  Forall (trimmed rt) (web_urls ctx) /\ NoDup (web_urls ctx).
Proof.
  unfold ToolBundle.web.
  destruct (nonempty (strip rt query)) eqn:Eq; cbn [negb].
  2:{ intros [= <-]. cbn [web_query web_snippets web_urls length].
      rewrite (strip_blank _ Eq).
      repeat split; try constructor; lia. }
  destruct (negb (nonempty (ToolBundle.tavily_api_key self))); [discriminate|].
  destruct (post call (strip rt query) time_range) as [data|]; [|discriminate].
  destruct (py_or data (JDict [])) as [| | | | | |d]; try discriminate.
  set (found := match get_key d "results" with
                | JList results => _
                | _ => ([], [])
                end).
  assert (Hfound : Forall (fun x => x <> []) (fst found) /\ Forall (trimmed rt) (snd found)).
  { subst found. destruct (get_key d "results"); try (split; constructor).
    destruct (web_items_shape (slice_to (ToolBundle.max_results self) l) ([], [])
                (Forall_nil_2 _) (Forall_nil_2 _)) as (H1 & H2 & _).
    split; assumption. }
  destruct found as [snippets urls]. cbn [fst snd] in Hfound. destruct Hfound as [Hs Hu].
  intros [= <-]. cbn [web_query web_snippets web_urls].
  destruct (add_unseen_shape (trimmed rt) urls [] (NoDup_nil_2 (A:=list N)) (Forall_nil_2 _) Hu)
    as [Hn Hf].
  split; [reflexivity|].
  split; [rewrite length_take; lia|]. split; [rewrite length_take; lia|].
  split; [apply Forall_take, Hs|].
  split; [apply Forall_take, Hf|].
  apply NoDup_firstn, Hn.
Qed.

(** X22. How a search ends. A blank query is answered with an empty context
    before the key is looked at. The search raises [ToolError] exactly
    when the query is not blank and the key is missing or the exchange
    with the service failed; it raises [AttributeError] exactly when the
    query is not blank, the key is there, and the body of the answer is
    neither empty nor an object; and it returns exactly in the cases that
    remain. *)
Theorem web_outcomes (call : nat) (query time_range : str) :
  (nonempty (strip rt query) = false ->
   ToolBundle.web rt py_repr self post _utc_now_iso call query time_range
   = ToolBundle.Returns {| web_fetched_at_utc := _utc_now_iso call; web_query := [];
                           web_snippets := []; web_urls := [] |}) /\
  (ToolBundle.web rt py_repr self post _utc_now_iso call query time_range
   = ToolBundle.Raises ToolBundle.ToolError <->
   nonempty (strip rt query) = true /\
   (ToolBundle.tavily_api_key self = [] \/
    exists e', post call (strip rt query) time_range = Raise e')) /\
  (ToolBundle.web rt py_repr self post _utc_now_iso call query time_range
   = ToolBundle.Raises ToolBundle.AttributeError <->
   nonempty (strip rt query) = true /\
   ToolBundle.tavily_api_key self <> [] /\
   exists data, post call (strip rt query) time_range = Ok data /\
                truthy data = true /\ forall d, data <> JDict d) /\
  ((exists ctx, ToolBundle.web rt py_repr self post _utc_now_iso call query time_range
                = ToolBundle.Returns ctx) <->
   nonempty (strip rt query) = false \/
   (ToolBundle.tavily_api_key self <> [] /\
    exists data, post call (strip rt query) time_range = Ok data /\
                 (truthy data = false \/ exists d, data = JDict d))).
Proof.
  unfold ToolBundle.web.
  destruct (nonempty (strip rt query)) eqn:Eq; cbn [negb].
  2:{ split; [reflexivity|].
      split; [split; [discriminate | intros [H _]; discriminate H]|].
      split; [split; [discriminate | intros [H _]; discriminate H]|].
      split; [intros _; left; reflexivity | intros _; eexists; reflexivity]. }
  split; [discriminate|].
  destruct (ToolBundle.tavily_api_key self) as [|c key] eqn:Ekey; cbn [nonempty negb].
  { split; [split; [intros _; split; [reflexivity | left; reflexivity] | reflexivity]|].
    split; [split; [discriminate | intros (_ & H & _); destruct (H eq_refl)]|].
    split; [intros [ctx H]; discriminate H|].
    intros [H|[H _]]; [discriminate H | destruct (H eq_refl)]. }
  destruct (post call (strip rt query) time_range) as [data|e'].
  2:{ split; [split; [intros _; split; [reflexivity | right; exists e'; reflexivity]
                     | reflexivity]|].
      split; [split; [discriminate | intros (_ & _ & data & H & _); discriminate H]|].
      split; [intros [ctx H]; discriminate H|].
      intros [H|(_ & data & H & _)]; discriminate H. }
  assert (Hraise : forall e', Ok data = Raise (A:=jval) e' -> False) by discriminate.
  unfold py_or. destruct (truthy data) eqn:Et.
  - destruct data; try discriminate Et.
    all: try (split; [split; [discriminate
                             | intros (_ & [H|[e' H]]);
                               [discriminate H | destruct (Hraise e' H)]]|];
              split; [split; [intros _; split; [reflexivity|]; split; [discriminate|];
                              eexists; split; [reflexivity|]; split; [exact Et | discriminate]
                             | reflexivity]|];
              split; [intros [ctx H]; discriminate H|];
              intros [H|(_ & data & [= <-] & [H|[d H]])];
                [discriminate H | rewrite Et in H; discriminate H | discriminate H]).
    match goal with
    | |- context [let '(_, _) := ?p in _] => destruct p as [snippets urls]
    end.
    split; [split; [discriminate
                   | intros (_ & [H|[e' H]]); [discriminate H | destruct (Hraise e' H)]]|].
    split; [split; [discriminate
                   | intros (_ & _ & data & [= <-] & _ & H); destruct (H _ eq_refl)]|].
    split; [intros _; right; split; [discriminate|];
            eexists; split; [reflexivity | right; eexists; reflexivity]
           | intros _; eexists; reflexivity].
  - destruct (match get_key [] "results" with
              | JList results => _
              | _ => _
              end) as [snippets urls].
    split; [split; [discriminate
                   | intros (_ & [H|[e' H]]); [discriminate H | destruct (Hraise e' H)]]|].
    split; [split; [discriminate
                   | intros (_ & _ & data' & [= <-] & H & _);
                     rewrite Et in H; discriminate H]|].
    split; [intros _; right; split; [discriminate|];
            exists data; split; [reflexivity | left; exact Et]
           | intros _; eexists; reflexivity].
Qed.

Lemma buy_searches_failure (call : nat) (queries : list str) (merged : list str * list str)
    (e : ToolBundle.raised) :
  ToolBundle.buy_searches rt py_repr self post _utc_now_iso call queries merged
  = ToolBundle.Raises e ->
  e = ToolBundle.AttributeError.
Proof.
  revert call merged. induction queries as [|q queries IH]; intros call merged;
    cbn [ToolBundle.buy_searches]; [discriminate|].
  destruct (ToolBundle.web _ _ _ _ _ _ _ _) as [ctx|[]]; try apply IH.
  intros [= <-]. reflexivity.
Qed.

Lemma add_link_shape (urls acc : list str) :
  NoDup acc -> Forall (fun x => x <> []) acc ->
  NoDup (fold_left ToolBundle.add_link urls acc) /\
  Forall (fun x => x <> []) (fold_left ToolBundle.add_link urls acc).
Proof.
  revert acc. induction urls as [|u urls IH]; intros acc Hn Ha; [auto|].
  cbn [fold_left]. unfold ToolBundle.add_link at 2 4.
  destruct (nonempty u) eqn:Eu; cbn [andb]; [|apply IH; assumption].
  destruct (str_in u acc) eqn:E; cbn [negb]; [apply IH; assumption|].
  apply IH.
  - apply NoDup_app. split; [exact Hn|]. split; [|apply NoDup_singleton].
    intros x Hx Hx'. apply list_elem_of_singleton in Hx'. subst x.
    apply list_elem_of_In, str_in_In in Hx. rewrite Hx in E. discriminate.
  - apply Forall_app. split; [exact Ha|].
    constructor; [apply nonempty_true, Eu | constructor].
Qed.

Lemma add_snippet_shape (snips : list str) (acc : list str * list str) :
  NoDup (fst acc) -> fst acc = map (fun s => strip rt (lower rt s)) (snd acc) ->
  NoDup (fst (fold_left (ToolBundle.add_snippet rt) snips acc)) /\
  fst (fold_left (ToolBundle.add_snippet rt) snips acc)
  = map (fun s => strip rt (lower rt s)) (snd (fold_left (ToolBundle.add_snippet rt) snips acc)).
Proof.
  revert acc. induction snips as [|s snips IH]; intros acc Hn Hk; [auto|].
  cbn [fold_left]. apply IH.
  - unfold ToolBundle.add_snippet.
    destruct (nonempty _); cbn [andb]; [|exact Hn].
    destruct (str_in _ (fst acc)) eqn:E; cbn [negb fst]; [exact Hn|].
    apply NoDup_app. split; [exact Hn|]. split; [|apply NoDup_singleton].
    intros x Hx Hx'. apply list_elem_of_singleton in Hx'. subst x.
    apply list_elem_of_In, str_in_In in Hx. rewrite Hx in E. discriminate.
  - unfold ToolBundle.add_snippet.
    destruct (nonempty _ && negb _); [|exact Hk].
    cbn [fst snd]. rewrite map_app, Hk. reflexivity.
Qed.

(** X23. [buy_inputs] raises [ToolError] for one reason only, a blank crop: a
    search that fails is skipped, so that three failed searches give an
    empty context and no error. What it returns holds at most eight links,
    none empty and none twice, and at most eight snippets, no two of which
    agree once put in lower case and trimmed. *)
Theorem buy_inputs_outcomes (call : nat) (location_text crop : str) :
  (ToolBundle.buy_inputs rt py_repr self post _utc_now_iso call location_text crop
   = ToolBundle.Raises ToolBundle.ToolError
   <-> nonempty (lower rt (strip rt crop)) = false) /\
  (forall ctx,
     ToolBundle.buy_inputs rt py_repr self post _utc_now_iso call location_text crop
     = ToolBundle.Returns ctx ->
     (length (web_urls ctx) <= 8)%nat /\ NoDup (web_urls ctx) /\
     Forall (fun x => x <> []) (web_urls ctx) /\
     (length (web_snippets ctx) <= 8)%nat /\
     NoDup (map (fun s => strip rt (lower rt s)) (web_snippets ctx))).
Proof.
  unfold ToolBundle.buy_inputs.
  destruct (nonempty (lower rt (strip rt crop))); cbn [negb].
  2:{ split; [split; reflexivity | discriminate]. }
  destruct (ToolBundle.buy_searches _ _ _ _ _ _ _ _) as [[snips urls]|e] eqn:E.
  - split; [split; discriminate|].
    intros ctx [= <-]. cbn [web_urls web_snippets].
    destruct (add_link_shape urls [] (NoDup_nil_2 (A:=list N)) (Forall_nil_2 _)) as [Hn Hf].
    destruct (add_snippet_shape snips ([], []) (NoDup_nil_2 (A:=list N)) eq_refl) as [Hk Hmap].
    split; [rewrite length_take; lia|].
    split; [apply NoDup_firstn, Hn|].
    split; [apply Forall_take, Hf|].
    split; [rewrite length_take; lia|].
    rewrite Hmap in Hk.
    set (kept := snd _) in *.
    rewrite <- (take_drop 8 kept), map_app in Hk.
    apply NoDup_app in Hk. apply Hk.
  - apply buy_searches_failure in E. subst e.
    split; [split; discriminate | discriminate].
Qed.

Lemma alert_lines_shape (l acc : list str) (alerts_in : list jval) :
  Forall (fun x => x <> []) acc ->
  Forall (fun x => x <> [])
    (fold_left (fun alerts_out a =>
                  match alert_line rt py_repr a with
                  | Some line => alerts_out ++ [line]
                  | None => alerts_out
                  end) alerts_in acc) /\
  (length (fold_left (fun alerts_out a =>
                        match alert_line rt py_repr a with
                        | Some line => alerts_out ++ [line]
                        | None => alerts_out
                        end) alerts_in acc) <= length acc + length alerts_in)%nat.
Proof.
  revert acc. induction alerts_in as [|a alerts_in IH]; intros acc Ha.
  - cbn [fold_left length]. split; [exact Ha | lia].
  - cbn [fold_left length].
    destruct (alert_line rt py_repr a) as [line|] eqn:E.
    + destruct (IH (acc ++ [line])) as [I1 I2].
      * apply Forall_app. split; [exact Ha|]. constructor; [|constructor].
        unfold alert_line in E. destruct a; try discriminate.
        destruct (nonempty (text_of rt py_repr d "event")) eqn:Ee; [|discriminate].
        injection E as <-. apply nonempty_true in Ee.
        destruct (text_of rt py_repr d "event"); [congruence | discriminate].
      * split; [exact I1|]. rewrite length_app in I2. cbn [length] in I2. lia.
    + destruct (IH acc Ha) as [I1 I2]. split; [exact I1 | lia].
Qed.

(** X24. The weather alerts: at most three lines, none empty, made from the
    first three alerts of the answer only; a fourth alert is never read,
    also when one of the first three gives no line. *)
Theorem coerce_alerts_reads_three (data : jval) :
  (length (_coerce_alerts rt py_repr data) <= 3)%nat /\
  Forall (fun x => x <> []) (_coerce_alerts rt py_repr data) /\
  (forall d l, data = JDict d -> get_key d "alerts" = JList l ->
     _coerce_alerts rt py_repr data
     = _coerce_alerts rt py_repr (JDict [(py "alerts", JList (take 3 l))])).
Proof.
  split; [|split].
  - unfold _coerce_alerts. destruct data; cbn [length]; try lia.
    destruct (get_key d "alerts"); cbn [length]; try lia.
    destruct (alert_lines_shape [] [] (take 3 l) (Forall_nil_2 _)) as [_ H].
    rewrite length_take in H. cbn [length] in H. lia.
  - unfold _coerce_alerts. destruct data; try constructor.
    destruct (get_key d "alerts"); try constructor.
    apply (alert_lines_shape [] [] (take 3 l) (Forall_nil_2 _)).
  - intros d l -> Hl. unfold _coerce_alerts. rewrite Hl.
    change (get_key [(py "alerts", JList (take 3 l))] "alerts") with (JList (take 3 l)).
    cbv iota. rewrite take_take. reflexivity.
Qed.

End WebSearchFacts.

(** ** Merging the output of the graph into the state *)

Section DeepMergeFacts.

Lemma deep_merge_cons (base upd : list (str * jval)) (k : str) (v : jval) :
  _deep_merge base ((k, v) :: upd)
  = _deep_merge (match v, dict_get base k with
                 | JDict dv, JDict b => dict_set base k (JDict (_deep_merge b dv))
                 | _, _ => dict_set base k v
                 end) upd.
Proof. destruct v; reflexivity. Qed.

Lemma dict_get_set (d : list (str * jval)) (k k' : str) (v : jval) :
  dict_get (dict_set d k v) k' = if str_eqb k k' then v else dict_get d k'.
Proof.
  induction d as [|[k0 v0] d IH]; cbn [dict_set dict_get]; [reflexivity|].
  destruct (str_eqb k0 k) eqn:E0; cbn [dict_get].
  - apply str_eqb_eq in E0. subst k0.
    destruct (str_eqb k k'); reflexivity.
  - rewrite IH. destruct (str_eqb k0 k') eqn:E1; [|reflexivity].
    destruct (str_eqb k k') eqn:E2; [|reflexivity].
    apply str_eqb_eq in E1, E2. subst. rewrite str_eqb_refl in E0. discriminate.
Qed.

Lemma dict_set_keys (d : list (str * jval)) (k : str) (v : jval) :
  map fst d `prefix_of` map fst (dict_set d k v).
Proof.
  induction d as [|[k0 v0] d IH]; cbn [dict_set map fst].
  - apply prefix_nil.
  - destruct (str_eqb k0 k); cbn [map fst]; [reflexivity|].
    apply prefix_cons. exact IH.
Qed.

Lemma has_key_cons (upd : list (str * jval)) (k0 k : str) (v0 : jval) :
  has_key ((k0, v0) :: upd) k = str_eqb k k0 || has_key upd k.
Proof. reflexivity. Qed.

Lemma str_eqb_sym (a b : str) : str_eqb a b = str_eqb b a.
Proof.
  destruct (str_eqb a b) eqn:E.
  - apply str_eqb_eq in E. subst. symmetry. apply str_eqb_refl.
  - destruct (str_eqb b a) eqn:E'; [|reflexivity].
    apply str_eqb_eq in E'. subst. rewrite str_eqb_refl in E. discriminate.
Qed.

(** X25. What the merge leaves under a key, for an update whose keys are
    distinct. A key the update does not have keeps the value of the base.
    A key it has takes the value of the update, a [None] or a list as well
    as a scalar, unless both values are objects, which are merged in turn. *)
Theorem deep_merge_lookup (base upd : list (str * jval)) (k : str) :
  NoDup (map fst upd) ->
  dict_get (_deep_merge base upd) k
  = if has_key upd k then
      match dict_get upd k, dict_get base k with
      | JDict dv, JDict b => JDict (_deep_merge b dv)
      | v, _ => v
      end
    else dict_get base k.
Proof.
  revert base. induction upd as [|[k0 v0] upd IH]; intros base Hnd; [reflexivity|].
  cbn [map fst] in Hnd. apply NoDup_cons in Hnd. destruct Hnd as [Hk0 Hnd].
  rewrite deep_merge_cons, IH by exact Hnd.
  rewrite has_key_cons. cbn [dict_get].
  rewrite (str_eqb_sym k0 k).
  destruct (str_eqb k k0) eqn:E; cbn [orb].
  - apply str_eqb_eq in E. subst k0.
    replace (has_key upd k) with false.
    + destruct v0; try (rewrite dict_get_set, str_eqb_refl; reflexivity).
      destruct (dict_get base k); rewrite dict_get_set, str_eqb_refl; reflexivity.
    + symmetry. apply not_true_is_false. intros H. apply str_in_In in H.
      apply Hk0, list_elem_of_In, H.
  - assert (Hsame : forall x, dict_get (dict_set base k0 x) k = dict_get base k).
    { intros x. rewrite dict_get_set, (str_eqb_sym k0 k), E. reflexivity. }
    assert (Hbase : dict_get (match v0, dict_get base k0 with
                              | JDict dv, JDict b => dict_set base k0 (JDict (_deep_merge b dv))
                              | _, _ => dict_set base k0 v0
                              end) k = dict_get base k).
    { destruct v0; try apply Hsame. destruct (dict_get base k0); apply Hsame. }
    rewrite Hbase. reflexivity.
Qed.

(** X26. The merge loses no key of the base and keeps the keys in their
    order; the new keys of the update come after them. *)
Theorem deep_merge_keeps_the_keys (base upd : list (str * jval)) :
  map fst base `prefix_of` map fst (_deep_merge base upd).
Proof.
  revert base. induction upd as [|[k0 v0] upd IH]; intros base; [reflexivity|].
  rewrite deep_merge_cons. etransitivity; [|apply IH].
  destruct v0; try apply dict_set_keys.
  destruct (dict_get base k0); apply dict_set_keys.
Qed.

End DeepMergeFacts.

(** ** The attempts of [_llm_json] *)

Section LlmJsonFacts.

Variable rt : Runtime.
Variable create : nat -> result (option str).

Lemma llm_json_from_spec (loads : str -> result jval) (tries attempt : nat) :
  match llm_json_from rt create loads attempt tries with
  | Ok d =>
      exists a, (attempt <= a < attempt + tries)%nat /\
                llm_json_attempt rt create loads a = Ok d /\
                forall b, (attempt <= b < a)%nat ->
                          exists e, llm_json_attempt rt create loads b = Raise e
  | Raise e =>
      e = RuntimeError /\
      forall b, (attempt <= b < attempt + tries)%nat ->
                exists e', llm_json_attempt rt create loads b = Raise e'
  end.
Proof.
  revert attempt. induction tries as [|tries IH]; intros attempt; cbn [llm_json_from].
  - split; [reflexivity|]. intros b Hb. lia.
  - destruct (llm_json_attempt rt create loads attempt) as [d|e0] eqn:E.
    + exists attempt. split; [lia|]. split; [exact E|]. intros b Hb. lia.
    + specialize (IH (S attempt)).
      destruct (llm_json_from rt create loads (S attempt) tries) as [d|e].
      * destruct IH as (a & Ha & Hok & Hbefore).
        exists a. split; [lia|]. split; [exact Hok|].
        intros b Hb. destruct (Nat.eq_dec b attempt) as [->|Hne]; [eauto|].
        apply Hbefore. lia.
      * destruct IH as (-> & Hall). split; [reflexivity|].
        intros b Hb. destruct (Nat.eq_dec b attempt) as [->|Hne]; [eauto|].
        apply Hall. lia.
Qed.

(** X27. [_llm_json] returns the object of the first attempt, among attempts 1
    to [max_tries], whose reply parses to an object; when no attempt does,
    and so whenever [max_tries] is not positive, it raises [RuntimeError]
    and nothing else. *)
Theorem llm_json_outcomes (loads : str -> result jval) (max_tries : Z) :
  match _llm_json rt create loads max_tries with
  | Ok d =>
      exists a, (1 <= Z.of_nat a <= max_tries)%Z /\
                llm_json_attempt rt create loads a = Ok d /\
                forall b, (1 <= b < a)%nat ->
                          exists e, llm_json_attempt rt create loads b = Raise e
  | Raise e =>
      e = RuntimeError /\
      forall b, (1 <= Z.of_nat b <= max_tries)%Z ->
                exists e', llm_json_attempt rt create loads b = Raise e'
  end.
Proof.
  unfold _llm_json.
  pose proof (llm_json_from_spec loads (Z.to_nat max_tries) 1) as H.
  destruct (llm_json_from rt create loads 1 (Z.to_nat max_tries)) as [d|e].
  - destruct H as (a & Ha & Hok & Hbefore). exists a.
    split; [lia|]. split; [exact Hok | exact Hbefore].
  - destruct H as (-> & Hall). split; [reflexivity|].
    intros b Hb. apply Hall. lia.
Qed.

(** X28. [json.loads] is handed nothing but the empty text or a text between
    braces: two parsers that agree on these give the same result. *)
Theorem llm_json_parses_braced_text_only (loads loads' : str -> result jval)
    (max_tries : Z) :
  (forall js, js = [] \/ starts_with (py "{") js = true /\ ends_with (py "}") js = true ->
              loads' js = loads js) ->
  _llm_json rt create loads' max_tries = _llm_json rt create loads max_tries.
Proof.
  intros Hagree.
  assert (Hattempt : forall a, llm_json_attempt rt create loads' a
                               = llm_json_attempt rt create loads a).
  { intros a. unfold llm_json_attempt.
    destruct (create a) as [out|]; cbn [rbind]; [|reflexivity].
    rewrite Hagree; [reflexivity|].
    destruct (_extract_json_object rt (strip rt (or_empty out))) as [js|] eqn:E;
      [|left; reflexivity].
    destruct (opt_truthy (Some js)); [|left; reflexivity].
    right. cbn [or_empty default].
    apply extract_json_object_braced in E. split; apply E. }
  unfold _llm_json. generalize 1%nat as attempt.
  induction (Z.to_nat max_tries) as [|tries IH]; intros attempt; [reflexivity|].
  cbn [llm_json_from]. rewrite Hattempt, IH. reflexivity.
Qed.

End LlmJsonFacts.

(** ** When the routing loop ends *)

Section LoopEnds.

Variable rt : Runtime.
Variable py_repr : jval -> str.
Variable env : Env.

(** Destructs the innermost test of the goal, keeping what it was. *)
Ltac split_test :=
  match goal with
  | |- context [if ?b then _ else _] =>
      lazymatch b with
      | context [if _ then _ else _] => fail
      | _ => destruct b eqn:?
      end
  | |- context [rbind ?r _] =>
      lazymatch r with
      | context [rbind _ _] => fail
      | context [if _ then _ else _] => fail
      | _ => destruct r as [[|]|] eqn:?; cbn [rbind]
      end
  end.

(** What a routing decision for a step that is not terminal rests on. *)
Lemma route_reason (now : Z) (s : GraphState) (name : str) :
  _route rt now s = Ok name ->
  match route_edges name with
  | Some Vision => is_some (last_image s) && negb (is_some (image_diagnosis s)) = true
  | Some Weather =>
      both_truthy (lat (context s)) (lon (context s)) = true /\
      _is_weather_stale rt now s WEATHER_MAX_AGE_HOURS = Ok true
  | Some Web => _is_web_stale rt now s WEB_MAX_AGE_HOURS = Ok true
  | Some Schemes =>
      _wants_schemes rt s = true /\
      _is_schemes_stale rt now s SCHEMES_MAX_AGE_DAYS = Ok true
  | Some Market => _is_market_stale rt now s MARKET_MAX_AGE_HOURS = Ok true
  | Some Ask | Some CropReco | Some Buy | Some Advice => True
  | Some Intake | Some Plan | None => False
  end.
Proof.
  unfold _route, and_then.
  repeat split_test; try discriminate; intros [= <-];
    lazymatch goal with
    | |- context [route_edges ?x] =>
        let y := eval vm_compute in (route_edges x) in
        change (route_edges x) with y; cbv iota
    end;
    try exact I; try assumption; try reflexivity; split; (assumption || reflexivity).
Qed.

Lemma fresh_not_stale (fetched : str) (max_age : Z) (j : nat) :
  always_fresh rt env fetched max_age ->
  older_than rt (clock env j) fetched max_age <> Ok true.
Proof. intros H. rewrite (H j). discriminate. Qed.

(** In a world that answers, each of [vision], [weather] and [web]
    settles itself and touches nothing the other two rest on. *)
Lemma vision_node_settles (i : nat) (s : GraphState) :
  refreshing rt env ->
  is_some (last_image s) = true ->
  exists d, vision_node rt py_repr env i s
            = set_last_node (set_image_diagnosis s (Some d)) (Some (py "vision")).
Proof.
  intros (_ & _ & _ & _ & Hread & Hmodel & Hloads) Himg. unfold vision_node.
  destruct (last_image s) as [img|]; [|discriminate].
  destruct (Hread i (file_path img)) as [url ->].
  destruct (Hmodel i s url) as [text ->].
  match goal with
  | |- context [json_loads env ?js] => destruct (Hloads js) as [v ->]
  end.
  eexists. reflexivity.
Qed.

Lemma weather_node_settles (i : nat) (s : GraphState) :
  refreshing rt env ->
  both_truthy (lat (context s)) (lon (context s)) = true ->
  exists snap,
    weather_node env i s
    = Ok (set_last_node (set_context (set_weather s (Some snap)) (context s))
                        (Some (py "weather"))) /\
    always_fresh rt env (weather_fetched_at_utc snap)
                 (timedelta_hours WEATHER_MAX_AGE_HOURS).
Proof.
  intros (Hweather & _) Hll. unfold weather_node. rewrite Hll. cbn [negb andb rbind].
  rewrite Hll. cbn [negb].
  destruct (lat (context s)) as [la|]; [|discriminate].
  destruct (lon (context s)) as [lo|]; [|discriminate].
  destruct (Hweather i la lo) as (snap & -> & Hfresh).
  exists snap. split; [reflexivity | exact Hfresh].
Qed.

Lemma web_node_settles (i : nat) (s : GraphState) :
  refreshing rt env ->
  exists ctx,
    web_node rt env i s = Ok (set_last_node (set_web s (Some ctx)) (Some (py "web"))) /\
    always_fresh rt env (web_fetched_at_utc ctx) (timedelta_hours WEB_MAX_AGE_HOURS).
Proof.
  intros (_ & Hweb & _). unfold web_node.
  destruct (Hweb i (web_query_of rt s) (py "month")) as (ctx & -> & Hfresh).
  exists ctx. split; [reflexivity | exact Hfresh].
Qed.

(** In a world that answers, the schemes search succeeds and its result
    does not validate; so for the market search. *)
Lemma schemes_node_raises (i : nat) (s : GraphState) :
  refreshing rt env ->
  opt_truthy (location_text (context s)) = true ->
  schemes_node env i s = Raise ValidationError.
Proof.
  intros (_ & _ & Hschemes & _) Hloc. unfold schemes_node. rewrite Hloc. cbn [negb].
  destruct (Hschemes i (or_empty (location_text (context s))) (crop (context s)))
    as (ctx & ->).
  reflexivity.
Qed.

Lemma market_node_raises (i : nat) (s : GraphState) :
  refreshing rt env -> market_node env i s = Raise ValidationError.
Proof.
  intros (_ & _ & _ & Hmarket & _). unfold market_node.
  destruct (Hmarket i (or_empty (location_text (context s))) (crop (context s)))
    as (ctx & ->).
  reflexivity.
Qed.

(** The intake never empties the location text. *)
Lemma intake_keeps_location_text (i : nat) (s s1 : GraphState) :
  intake_node rt env i s = Ok s1 ->
  opt_truthy (location_text (context s)) = true ->
  opt_truthy (location_text (context s1)) = true.
Proof.
  unfold intake_node.
  destruct (opt_truthy (_extract_stage_from_text rt (_last_user_text rt s))).
  { intros [= <-]. fields. auto. }
  destruct (_is_action_message (_last_user_text rt s)).
  { intros [= <-]. fields. auto. }
  set (ctx := match extract_lat_lon rt (_last_user_text rt s) with
              | (Some la, Some lo) => _
              | _ => context s
              end).
  assert (Hctx : location_text ctx = location_text (context s))
    by (subst ctx; destruct (extract_lat_lon rt _) as [[la|] [lo|]]; reflexivity).
  destruct (llm_intake env i ctx (observation s) (_last_user_text rt s)) as [upd|e].
  - destruct (_merge_observation rt (observation s) upd); cbn [rbind]; [|discriminate].
    intros [= <-]. fields. rewrite Hctx. intros H. unfold overwrite.
    destruct (upd_location_text upd) as [t|]; [|exact H].
    destruct (nonempty t && nonempty (strip rt t)) eqn:Et; [|exact H].
    cbn [id]. apply andb_prop in Et. destruct Et as [_ Et].
    destruct (strip rt t); [discriminate | reflexivity].
  - intros [= <-]. fields. rewrite Hctx. auto.
Qed.

(** One round: when routing selects [vision], [weather] or [web], the
    step runs, leads back to [plan], and is settled from then on, as is
    every step that was. *)
Lemma round_settles (i : nat) (s : GraphState) (name : str) (n' : node)
    (bv bw bb : bool) :
  refreshing rt env ->
  (bv = true -> vision_settled s) ->
  (bw = true -> weather_settled rt env s) ->
  (bb = true -> web_settled rt env s) ->
  (_wants_schemes rt s = true -> opt_truthy (location_text (context s)) = true) ->
  _route rt (clock env i) (plan_node s) = Ok name ->
  route_edges name = Some n' -> In n' [Vision; Weather; Web] ->
  exists s2 bv' bw' bb',
    run_node rt py_repr env (S i) n' (plan_node s) = Ok s2 /\
    next_node rt env (S i) n' s2 = Ok (Some Plan) /\
    (bv' = true -> vision_settled s2) /\
    (bw' = true -> weather_settled rt env s2) /\
    (bb' = true -> web_settled rt env s2) /\
    (_wants_schemes rt s2 = true -> opt_truthy (location_text (context s2)) = true) /\
    S (unsettled bv' bw' bb') = unsettled bv bw bb.
Proof.
  intros Hworld Hv Hw Hb Hloc Eroute Eedge Hin.
  apply route_reason in Eroute. rewrite Eedge in Eroute.
  destruct Hin as [<-|[<-|[<-|[]]]]; cbn [run_node next_node edge].
  - (* vision *)
    assert (Hbv : bv = false).
    { destruct bv; [|reflexivity]. specialize (Hv eq_refl).
      unfold vision_settled in Hv.
      cbn [last_image image_diagnosis plan_node set_last_node] in Eroute.
      rewrite Hv in Eroute. discriminate. }
    assert (Himg : is_some (last_image (plan_node s)) = true)
      by (apply andb_prop in Eroute; apply Eroute).
    destruct (vision_node_settles (S i) (plan_node s) Hworld Himg) as [d ->].
    subst bv. eexists _, true, bw, bb.
    split; [reflexivity|]. split; [reflexivity|].
    split; [intros _; unfold vision_settled; cbn; apply andb_false_r|].
    repeat split; assumption.
  - (* weather *)
    destruct Eroute as [Hll Hstale].
    assert (Hbw : bw = false).
    { destruct bw; [|reflexivity]. destruct (Hw eq_refl) as (w & Ew & Hfresh).
      unfold _is_weather_stale in Hstale.
      cbn [weather plan_node set_last_node] in Hstale. rewrite Ew in Hstale.
      destruct (fresh_not_stale _ _ i Hfresh Hstale). }
    destruct (weather_node_settles (S i) (plan_node s) Hworld Hll) as (snap & -> & Hfresh).
    subst bw. eexists _, bv, true, bb.
    split; [reflexivity|]. split; [reflexivity|].
    split; [exact Hv|].
    split; [intros _; exists snap; split; [reflexivity | exact Hfresh]|].
    split; [exact Hb|]. split; [exact Hloc|].
    unfold unsettled. cbn [negb Nat.b2n]. lia.
  - (* web *)
    assert (Hbb : bb = false).
    { destruct bb; [|reflexivity]. destruct (Hb eq_refl) as (w & Ew & Hfresh).
      unfold _is_web_stale in Eroute.
      cbn [web plan_node set_last_node] in Eroute. rewrite Ew in Eroute.
      destruct (fresh_not_stale _ _ i Hfresh Eroute). }
    destruct (web_node_settles (S i) (plan_node s) Hworld) as (ctx & -> & Hfresh).
    subst bb. eexists _, bv, bw, true.
    split; [reflexivity|]. split; [reflexivity|].
    split; [exact Hv|]. split; [exact Hw|].
    split; [intros _; exists ctx; split; [reflexivity | exact Hfresh]|].
    split; [exact Hloc|].
    unfold unsettled. cbn [negb Nat.b2n]. lia.
Qed.

Lemma terminal_steps_are (fuel i : nat) (n : node) (s : GraphState) :
  terminal n = true ->
  steps_of rt py_repr env fuel i n s = match fuel with O => [] | S _ => [n] end.
Proof.
  intros Ht. destruct fuel as [|fuel]; [reflexivity|].
  rewrite steps_of_S.
  destruct (run_node rt py_repr env i n s) as [s'|]; [|reflexivity].
  destruct n; try discriminate Ht; reflexivity.
Qed.

(** From [plan] on, in a world that answers: every round through
    [vision], [weather] or [web] settles one more of the three, and a
    round through [schemes] or [market] is the last, because the run
    raises there. *)
Lemma plan_steps_bound (n : nat) :
  refreshing rt env ->
  forall (s : GraphState) (bv bw bb : bool),
    (bv = true -> vision_settled s) ->
    (bw = true -> weather_settled rt env s) ->
    (bb = true -> web_settled rt env s) ->
    (unsettled bv bw bb <= n)%nat ->
    (_wants_schemes rt s = true -> opt_truthy (location_text (context s)) = true) ->
    forall fuel i,
      (length (steps_of rt py_repr env fuel i Plan s) <= 2 * n + 2)%nat /\
      ((2 * n + 2 < fuel)%nat ->
       In Schemes (steps_of rt py_repr env fuel i Plan s) \/
       In Market (steps_of rt py_repr env fuel i Plan s) ->
       run_graph rt py_repr env fuel i Plan s = Raise ValidationError).
Proof.
  intros Hworld. induction n as [|n IH];
    intros s bv bw bb Hv Hw Hb Hcount Hloc fuel i.
  all: destruct fuel as [|fuel]; [split; [cbn [steps_of length]; lia | lia]|].
  all: rewrite steps_of_S, run_graph_S; cbn [run_node length next_node rbind].
  all: destruct (_route rt (clock env i) (plan_node s)) as [name|] eqn:Eroute;
         cbn [rbind length];
         [|split; [lia | intros _ [[H|[]]|[H|[]]]; discriminate H]].
  all: destruct (route_edges name) as [n'|] eqn:Eedge; cbn [rbind length];
         [|split; [lia | intros _ [[H|[]]|[H|[]]]; discriminate H]].
  all: assert (Hterm : terminal n' = true ->
                 (S (length (steps_of rt py_repr env fuel (S i) n' (plan_node s)))
                  <= 2 * 0 + 2)%nat /\
                 (In Schemes (Plan :: steps_of rt py_repr env fuel (S i) n' (plan_node s)) \/
                  In Market (Plan :: steps_of rt py_repr env fuel (S i) n' (plan_node s)) ->
                  False))
         by (intros Ht; rewrite (terminal_steps_are fuel (S i) n' (plan_node s) Ht);
             destruct fuel; cbn [length]; (split; [lia|]);
             intros [[H|H]|[H|H]]; try discriminate H; try destruct H as [H|[]];
             try (destruct H; fail); subst n'; discriminate Ht).
  all: pose proof (route_reason (clock env i) (plan_node s) name Eroute) as Hreason;
         rewrite Eedge in Hreason.
  all: destruct n' eqn:En'; try (destruct Hreason; fail);
         try (destruct (Hterm eq_refl) as [Hlen Hnot];
              split; [lia | intros _ Hin; destruct (Hnot Hin)]); clear Hterm.
  (* vision, weather, web: one more is settled *)
  1-3, 6-8:
    destruct (round_settles i s name n' bv bw bb Hworld Hv Hw Hb Hloc Eroute
                ltac:(rewrite Eedge, En'; reflexivity)
                ltac:(rewrite En'; cbn [In]; auto))
      as (s2 & bv' & bw' & bb' & Erun & Enext & Hv' & Hw' & Hb' & Hloc' & Hless);
    rewrite En' in Erun, Enext;
    (destruct fuel as [|fuel]; [split; [cbn [steps_of length]; lia | lia]|]);
    rewrite steps_of_S, run_graph_S, Erun, Enext; cbn [length rbind].
  1-3: lia.
  1-3: destruct (IH s2 bv' bw' bb' Hv' Hw' Hb' ltac:(lia) Hloc' fuel (S (S i)))
         as [Hlen Hraise];
       (split; [lia|]); intros Hfuel Hin; apply Hraise; [lia|];
       destruct Hin as [[H|[H|H]]|[H|[H|H]]]; try discriminate H; auto.
  (* schemes, market: the run raises *)
  all: destruct fuel as [|fuel]; [split; [cbn [steps_of length]; lia | lia]|].
  all: rewrite steps_of_S, run_graph_S; cbn [run_node].
  1,3: destruct Hreason as [Hwants _];
       rewrite (schemes_node_raises (S i) (plan_node s) Hworld (Hloc Hwants)).
  3,4: rewrite (market_node_raises (S i) (plan_node s) Hworld).
  all: cbn [length rbind]; split; [lia | reflexivity].
Qed.

(** X29. In a world that answers, the routing loop ends, and the schemes and
    the market never arrive. When the weather and the web search return
    fresh snapshots, the photo is read, and a location text is known
    whenever the schemes are asked for, the run is over after at most
    nine steps, whatever the number of steps allowed. And when [schemes]
    or [market] is among these steps, the search succeeded and the run
    ends in [ValidationError]: the step puts the [WebContext] it received
    where the state takes a [SchemesContext] or a [MarketContext]. *)
Theorem refreshing_world_ends_the_turn (s : GraphState) :
  refreshing rt env ->
  (_wants_schemes rt s = true -> opt_truthy (location_text (context s)) = true) ->
  (forall fuel, (length (steps_of rt py_repr env fuel 0 Intake s) <= 9)%nat) /\
  (In Schemes (steps_of rt py_repr env RECURSION_LIMIT 0 Intake s) \/
   In Market (steps_of rt py_repr env RECURSION_LIMIT 0 Intake s) ->
   ainvoke rt py_repr env s = Raise ValidationError).
Proof.
  intros Hworld Hloc.
  assert (Hplan : forall s1, run_node rt py_repr env 0 Intake s = Ok s1 ->
            forall fuel,
              (length (steps_of rt py_repr env fuel 1 Plan s1) <= 8)%nat /\
              ((8 < fuel)%nat ->
               In Schemes (steps_of rt py_repr env fuel 1 Plan s1) \/
               In Market (steps_of rt py_repr env fuel 1 Plan s1) ->
               run_graph rt py_repr env fuel 1 Plan s1 = Raise ValidationError)).
  { intros s1 E fuel. cbn [run_node] in E.
    assert (Hloc1 : _wants_schemes rt s1 = true ->
                    opt_truthy (location_text (context s1)) = true).
    { pose proof (intake_node_effect rt env 0 s s1 E) as (_ & _ & Hmsgs & _).
      intros Hwants. apply (intake_keeps_location_text 0 s s1 E). apply Hloc.
      unfold _wants_schemes, _last_user_text in *. rewrite <- Hmsgs. exact Hwants. }
    apply (plan_steps_bound 3 Hworld s1 false false false
             ltac:(discriminate) ltac:(discriminate) ltac:(discriminate)
             ltac:(cbn; lia) Hloc1 fuel 1%nat). }
  split.
  - intros fuel. destruct fuel as [|fuel]; [cbn [steps_of length]; lia|].
    rewrite steps_of_S. cbn [length next_node edge].
    destruct (run_node rt py_repr env 0 Intake s) as [s1|] eqn:E; [|cbn [length]; lia].
    destruct (Hplan s1 eq_refl fuel) as [Hlen _]. lia.
  - unfold ainvoke. change RECURSION_LIMIT with (S 24).
    rewrite steps_of_S, run_graph_S. cbn [next_node edge].
    destruct (run_node rt py_repr env 0 Intake s) as [s1|] eqn:E; cbn [rbind].
    + destruct (Hplan s1 eq_refl 24%nat) as [_ Hraise].
      intros Hin. apply Hraise; [lia|].
      destruct Hin as [[H|H]|[H|H]]; try discriminate H; auto.
    + intros [[H|[]]|[H|[]]]; discriminate H.
Qed.

End LoopEnds.

(** ** A photo that cannot be read *)

Section PhotoLoop.

Variable rt : Runtime.
Variable py_repr : jval -> str.
Variable env : Env.





End PhotoLoop.

(** ** The further properties at work *)

Lemma route_names_a_step_witness :
  _route ascii_runtime 0 st_buy_pressed = Ok (py "buy") /\
  exists n, route_edges (py "buy") = Some n /\ n <> Intake /\ n <> Plan.
Proof.
  assert (H : _route ascii_runtime 0 st_buy_pressed = Ok (py "buy")) by reflexivity.
  split; [exact H|].
  exact (route_names_a_step ascii_runtime 0 st_buy_pressed (py "buy") H).
Defined.

(** A weather snapshot whose timestamp lacks the offset stops the routing. *)
Lemma route_fails_on_naive_timestamps_only_witness :
  _route ascii_runtime NEW_YEAR_2024 st_naive_weather = Raise TypeError /\
  has_naive_timestamp ascii_runtime st_naive_weather.
Proof.
  assert (H : _route ascii_runtime NEW_YEAR_2024 st_naive_weather = Raise TypeError)
    by (vm_compute; reflexivity).
  split; [exact H|].
  exact (proj2 (route_fails_on_naive_timestamps_only ascii_runtime NEW_YEAR_2024
                  st_naive_weather TypeError H)).
Defined.

(** A photo on an empty profile is looked at before anything is asked. *)
Lemma vision_precedes_ask_witness :
  _needs_profile_questions ascii_runtime st_photo_sent = true /\
  _route ascii_runtime 0 st_photo_sent = Ok (py "vision").
Proof.
  split; [reflexivity|].
  apply (vision_precedes_ask ascii_runtime 0 st_photo_sent);
    [reflexivity | reflexivity | reflexivity | vm_compute; discriminate | reflexivity].
Defined.

(** The digest on an empty profile starts with a web search. *)
Lemma digest_never_asks_witness :
  _needs_profile_questions ascii_runtime st_digest = true /\
  _route ascii_runtime 0 st_digest = Ok (py "web") /\
  In (py "web") (map py ["advice"; "vision"; "weather"; "web"; "schemes"; "market"]%string).
Proof.
  assert (H : _route ascii_runtime 0 st_digest = Ok (py "web")) by (vm_compute; reflexivity).
  split; [reflexivity|]. split; [exact H|].
  exact (digest_never_asks ascii_runtime 0 st_digest (py "web") eq_refl H).
Defined.

(** After a recommendation, a plain message: asked directly, routing would
    put the question; inside the graph it recommends again. *)
Lemma auto_recommendation_after_plan_witness :
  _route ascii_runtime 0 st_after_reco = Ok (py "ask") /\
  _route ascii_runtime 0 (plan_node st_after_reco) = Ok (py "crop_reco").
Proof.
  split; [vm_compute; reflexivity|].
  apply (auto_recommendation_after_plan ascii_runtime 0 st_after_reco);
    [reflexivity | reflexivity | vm_compute; discriminate | vm_compute; discriminate
     | reflexivity].
Defined.

Lemma ask_means_a_profile_question_witness :
  _route ascii_runtime 0 st_reco_pressed_nowhere = Ok (py "ask") /\
  _needs_profile_questions ascii_runtime st_reco_pressed_nowhere = true /\
  ask_question ascii_runtime (context st_reco_pressed_nowhere) = py "Name?".
Proof.
  assert (H : _route ascii_runtime 0 st_reco_pressed_nowhere = Ok (py "ask"))
    by (vm_compute; reflexivity).
  split; [exact H|].
  split; [exact (proj1 (ask_means_a_profile_question ascii_runtime 0
                          st_reco_pressed_nowhere H))|].
  reflexivity.
Defined.

(** The stage statement of Ramesh, with the model out of reach. *)
Lemma graph_run_keeps_the_frame_witness :
  exists out,
    ainvoke ascii_runtime scalar_repr offline st_stage_statement = Ok out /\
    turn_frame st_stage_statement out.
Proof.
  assert (H : exists out, ainvoke ascii_runtime scalar_repr offline st_stage_statement = Ok out)
    by (eexists; vm_compute; reflexivity).
  destruct H as [out H]. exists out. split; [exact H|].
  exact (graph_run_keeps_the_frame ascii_runtime scalar_repr offline st_stage_statement out H).
Defined.

Lemma stage_stays_in_the_enumeration_witness :
  In (stage (context st_stage_statement)) _ALLOWED_STAGES /\
  exists out,
    ainvoke ascii_runtime scalar_repr offline st_stage_statement = Ok out /\
    In (stage (context out)) _ALLOWED_STAGES.
Proof.
  assert (Hin : In (stage (context st_stage_statement)) _ALLOWED_STAGES)
    by (apply str_in_In; reflexivity).
  assert (H : exists out, ainvoke ascii_runtime scalar_repr offline st_stage_statement = Ok out)
    by (eexists; vm_compute; reflexivity).
  split; [exact Hin|].
  destruct H as [out H]. exists out. split; [exact H|].
  exact (stage_stays_in_the_enumeration ascii_runtime scalar_repr offline
           st_stage_statement out Hin H).
Defined.

Lemma completed_run_appends_one_reply_witness :
  exists out,
    ainvoke ascii_runtime scalar_repr offline st_stage_statement = Ok out /\
    reply_appended (messages st_stage_statement) (messages out) /\
    exists t, terminal t = true /\ last_node out = Some (node_name t).
Proof.
  assert (H : exists out, ainvoke ascii_runtime scalar_repr offline st_stage_statement = Ok out)
    by (eexists; vm_compute; reflexivity).
  destruct H as [out H]. exists out. split; [exact H|].
  exact (completed_run_appends_one_reply ascii_runtime scalar_repr offline
           st_stage_statement out H).
Defined.

Lemma stage_statement_is_a_three_step_turn_witness :
  _extract_stage_from_text ascii_runtime (_last_user_text ascii_runtime st_stage_statement)
  = Some (py "flowering") /\
  steps_of ascii_runtime scalar_repr offline RECURSION_LIMIT 0 Intake st_stage_statement
  = [Intake; Plan; Advice].
Proof.
  split; [reflexivity|].
  apply (stage_statement_is_a_three_step_turn ascii_runtime scalar_repr offline
           st_stage_statement (py "flowering"));
    [reflexivity | vm_compute; discriminate | vm_compute; discriminate].
Defined.

(** A turn on the long chat: the returned state is one turn further. *)
Lemma run_turn_outcome_witness :
  exists l' h' out,
    run_turn ascii_runtime scalar_repr offline loc_long_chat
             (py "  My stage is flowering. ") heap_long_chat = Some (Ok l', h') /\
    load_state l' h' = Some out /\
    turn_count out = (turn_count st_long_chat + 1)%Z /\
    _last_user_text ascii_runtime out = py "My stage is flowering.".
Proof.
  assert (Hv : load_state loc_long_chat heap_long_chat = Some st_long_chat)
    by (vm_compute; reflexivity).
  assert (H : exists l' h',
            run_turn ascii_runtime scalar_repr offline loc_long_chat
                     (py "  My stage is flowering. ") heap_long_chat = Some (Ok l', h'))
    by (eexists _, _; vm_compute; reflexivity).
  destruct H as (l' & h' & H).
  destruct (run_turn_outcome ascii_runtime scalar_repr offline heap_long_chat h'
              loc_long_chat l' st_long_chat (py "  My stage is flowering. ") Hv H)
    as (out & Hload & _ & Hcount & _ & _ & Hlast).
  exists l', h', out.
  split; [exact H|]. split; [exact Hload|]. split; [exact Hcount | exact Hlast].
Defined.

Lemma stage_button_sentence_is_understood_witness :
  _extract_stage_from_text ascii_runtime (py "My stage is " ++ py "post_harvest" ++ py ".")
  = Some (py "post_harvest") /\
  _extract_stage_from_text ascii_runtime (py "My stage is " ++ py "ripening" ++ py ".")
  = None.
Proof.
  split.
  - exact (stage_button_sentence_is_understood (py "post_harvest")
             ltac:(vm_compute; discriminate) eq_refl).
  - exact (stage_button_sentence_is_understood (py "ripening")
             ltac:(vm_compute; discriminate) eq_refl).
Defined.

(** The symptom reported twice, in two spellings, is recorded once. *)
Lemma merge_keeps_entries_unique_witness :
  exists O',
    _merge_observation ascii_runtime obs_wilting urgent_update = Ok O' /\
    NoDup (map (lower ascii_runtime) (symptoms O')) /\
    symptoms O' = [py "wilting"; py "Yellow leaves"].
Proof.
  assert (H : exists O', _merge_observation ascii_runtime obs_wilting urgent_update = Ok O' /\
                         symptoms O' = [py "wilting"; py "Yellow leaves"])
    by (eexists; split; vm_compute; reflexivity).
  destruct H as (O' & H & Hs). exists O'. split; [exact H|].
  split; [|exact Hs].
  exact (proj1 (merge_keeps_entries_unique ascii_runtime obs_wilting O' urgent_update
                  (NoDup_singleton _) (NoDup_singleton _) H)).
Defined.

Lemma merge_twice_is_merge_once_witness :
  exists O',
    _merge_observation ascii_runtime obs_wilting urgent_update = Ok O' /\
    _merge_observation ascii_runtime O' urgent_update = Ok O' /\
    _merge_context ascii_runtime (_merge_context ascii_runtime ramesh urgent_update)
                   urgent_update
    = _merge_context ascii_runtime ramesh urgent_update.
Proof.
  assert (H : exists O', _merge_observation ascii_runtime obs_wilting urgent_update = Ok O')
    by (eexists; vm_compute; reflexivity).
  destruct H as (O' & H). exists O'. split; [exact H|].
  destruct (merge_twice_is_merge_once ascii_runtime ramesh obs_wilting O' urgent_update H)
    as [Hc Ho].
  split; [exact Ho | exact Hc].
Defined.

Lemma string_fields_leave_no_delimiter_witness :
  get_key sloppy_reply "actions_now" = JStr two_lines /\
  Forall (Forall (fun c => is_newline c = false))
         (stripped_items ascii_runtime scalar_repr
            (advisory_list ascii_runtime sloppy_reply "actions_now")).
Proof.
  split; [reflexivity|].
  exact (proj1 (string_fields_leave_no_delimiter ascii_runtime scalar_repr sloppy_reply
                  "actions_now" two_lines eq_refl)).
Defined.

Lemma extracted_object_is_braced_witness :
  _extract_json_object ascii_runtime (py "Sure: {a} ok") = Some (py "{a}") /\
  starts_with (py "{") (py "{a}") = true /\ ends_with (py "}") (py "{a}") = true.
Proof.
  assert (H : _extract_json_object ascii_runtime (py "Sure: {a} ok") = Some (py "{a}"))
    by (vm_compute; reflexivity).
  split; [exact H|].
  destruct (extracted_object_is_braced ascii_runtime _ _ H) as (H1 & H2 & _).
  split; [exact H1 | exact H2].
Defined.

(** The buy button with the provider down. *)
Lemma buy_step_always_answers_witness :
  exists s' adv,
    buy_node ascii_runtime scalar_repr offline 2 st_buy_pressed = Ok s' /\
    advisory s' = Some adv /\ needs_human_review adv = false /\
    last_node s' = Some (py "buy").
Proof.
  destruct (buy_step_always_answers ascii_runtime scalar_repr offline 2 st_buy_pressed)
    as (s' & adv & H & Hadv & Hreview & _ & _ & _ & Hlast).
  - intros loc c e [= <-]. reflexivity.
  - exists s', adv. split; [exact H|]. split; [exact Hadv|].
    split; [exact Hreview | exact Hlast].
Defined.

Lemma buy_step_without_crop_or_location_witness :
  buy_node ascii_runtime scalar_repr offline 2 st_buy_pressed
  = buy_node ascii_runtime scalar_repr online 2 st_buy_pressed.
Proof.
  apply (buy_step_without_crop_or_location ascii_runtime scalar_repr offline 2
           st_buy_pressed online).
  left. reflexivity.
Defined.

(** Four results, two of them with the same link, one that is no object
    and one of blanks: two snippets and one link. *)
Lemma web_result_shape_witness :
  exists ctx,
    ToolBundle.web ascii_runtime scalar_repr bundle service_up at_new_year 0
                   (py " rice blast ") (py "month") = ToolBundle.Returns ctx /\
    web_query ctx = py "rice blast" /\
    length (web_snippets ctx) = 2%nat /\
    web_urls ctx = [py "https://example.org/blast"] /\
    NoDup (web_urls ctx).
Proof.
  eexists. split; [vm_compute; reflexivity|].
  split; [reflexivity|]. split; [reflexivity|]. split; [reflexivity|].
  match goal with
  | |- NoDup (web_urls ?ctx) =>
      exact (proj2 (proj2 (proj2 (proj2 (proj2
               (web_result_shape ascii_runtime scalar_repr bundle service_up at_new_year 0
                  (py " rice blast ") (py "month") ctx ltac:(vm_compute; reflexivity)))))))
  end.
Defined.

(** A blank query is answered without a key; any other is not; and a body
    that is a list escapes as an [AttributeError]. *)
Lemma web_outcomes_witness :
  ToolBundle.web ascii_runtime scalar_repr bundle_without_key service_up at_new_year 0
                 (py "   ") (py "month")
  = ToolBundle.Returns {| web_fetched_at_utc := at_new_year 0; web_query := [];
                          web_snippets := []; web_urls := [] |} /\
  ToolBundle.web ascii_runtime scalar_repr bundle_without_key service_up at_new_year 0
                 (py "rice") (py "month")
  = ToolBundle.Raises ToolBundle.ToolError /\
  ToolBundle.web ascii_runtime scalar_repr bundle
                 (fun _ _ _ => Ok (JList [JStr (py "rate limited")])) at_new_year 0
                 (py "rice") (py "month")
  = ToolBundle.Raises ToolBundle.AttributeError.
Proof.
  split; [|split].
  - exact (proj1 (web_outcomes ascii_runtime scalar_repr bundle_without_key service_up
                    at_new_year 0 (py "   ") (py "month")) eq_refl).
  - destruct (web_outcomes ascii_runtime scalar_repr bundle_without_key service_up
                at_new_year 0 (py "rice") (py "month")) as (_ & [_ Htool] & _).
    apply Htool. split; [reflexivity | left; reflexivity].
  - destruct (web_outcomes ascii_runtime scalar_repr bundle
                (fun _ _ _ => Ok (JList [JStr (py "rate limited")])) at_new_year 0
                (py "rice") (py "month")) as (_ & _ & [_ Hattr] & _).
    apply Hattr. split; [reflexivity|]. split; [discriminate|].
    eexists. split; [reflexivity|]. split; [reflexivity | discriminate].
Defined.

(** With the search service down, [buy_inputs] returns an empty context;
    without a crop it raises. *)
Lemma buy_inputs_outcomes_witness :
  ToolBundle.buy_inputs ascii_runtime scalar_repr bundle service_down at_new_year 0
                        (py "Pune") (py "  ")
  = ToolBundle.Raises ToolBundle.ToolError /\
  exists ctx,
    ToolBundle.buy_inputs ascii_runtime scalar_repr bundle service_down at_new_year 0
                          (py "Pune") (py " Rice ")
    = ToolBundle.Returns ctx /\
    (length (web_urls ctx) <= 8)%nat /\ web_query ctx = py "buy inputs rice Pune".
Proof.
  split.
  - exact (proj2 (proj1 (buy_inputs_outcomes ascii_runtime scalar_repr bundle service_down
                           at_new_year 0 (py "Pune") (py "  "))) eq_refl).
  - eexists. split; [vm_compute; reflexivity|].
    split; [|reflexivity].
    match goal with
    | |- (length (web_urls ?ctx) <= 8)%nat =>
        exact (proj1 (proj2 (buy_inputs_outcomes ascii_runtime scalar_repr bundle service_down
                               at_new_year 0 (py "Pune") (py " Rice ")) ctx
                        ltac:(vm_compute; reflexivity)))
    end.
Defined.

(** The fourth alert is not read, although the second gave no line. *)
Lemma coerce_alerts_reads_three_witness :
  _coerce_alerts ascii_runtime scalar_repr four_alerts = [py "Heat wave (IMD)"; py "Flood"] /\
  (length (_coerce_alerts ascii_runtime scalar_repr four_alerts) <= 3)%nat.
Proof.
  split; [vm_compute; reflexivity|].
  exact (proj1 (coerce_alerts_reads_three ascii_runtime scalar_repr four_alerts)).
Defined.

(** The output of the graph clears the advisory, sets the stage inside
    the context and leaves the crop and the turn counter. *)
Lemma deep_merge_lookup_witness :
  NoDup (map fst graph_output) /\
  dict_get (_deep_merge base_dump graph_output) (py "advisory") = JNull /\
  dict_get (_deep_merge base_dump graph_output) (py "context")
  = JDict [(py "crop", JStr (py "rice")); (py "stage", JStr (py "flowering"))] /\
  dict_get (_deep_merge base_dump graph_output) (py "turn_count") = JInt 3.
Proof.
  assert (Hnd : NoDup (map fst graph_output)).
  { apply NoDup_ListNoDup. vm_compute.
    repeat (constructor; [cbn [In]; intros H; repeat (destruct H as [H|H]; [discriminate H|]);
                          exact H|]).
    constructor. }
  split; [exact Hnd|].
  split; [exact (deep_merge_lookup base_dump graph_output (py "advisory") Hnd)|].
  split; [exact (deep_merge_lookup base_dump graph_output (py "context") Hnd)|].
  exact (deep_merge_lookup base_dump graph_output (py "turn_count") Hnd).
Defined.

(** The second attempt is the one that counts. *)
Lemma llm_json_outcomes_witness :
  _llm_json ascii_runtime chatty_model loads_empty_object 2 = Ok [] /\
  _llm_json ascii_runtime chatty_model loads_empty_object 1 = Raise RuntimeError /\
  exists e, llm_json_attempt ascii_runtime chatty_model loads_empty_object 1 = Raise e.
Proof.
  split; [vm_compute; reflexivity|]. split; [vm_compute; reflexivity|].
  pose proof (llm_json_outcomes ascii_runtime chatty_model loads_empty_object 1) as H.
  change (_llm_json ascii_runtime chatty_model loads_empty_object 1)
    with (Raise (A:=list (list N * jval)) RuntimeError) in H.
  destruct H as [_ H]. apply H. split; reflexivity.
Defined.

Lemma llm_json_parses_braced_text_only_witness :
  loads_lenient (py "I cannot answer that.") <> loads_empty_object (py "I cannot answer that.") /\
  _llm_json ascii_runtime chatty_model loads_lenient 2
  = _llm_json ascii_runtime chatty_model loads_empty_object 2.
Proof.
  split; [vm_compute; discriminate|].
  apply (llm_json_parses_braced_text_only ascii_runtime chatty_model
           loads_empty_object loads_lenient 2).
  intros js [->|[Hstart _]]; [reflexivity|].
  unfold loads_lenient, loads_empty_object.
  destruct (str_eqb js (py "{}")); [reflexivity|].
  rewrite Hstart, andb_false_r. reflexivity.
Defined.

(** The digest with a photo waiting and nothing fetched yet: the photo is
    read, the weather and the web are fetched, the schemes are found, and
    the run ends there, at its ninth step, in [ValidationError]. *)
Lemma refreshing_world_ends_the_turn_witness :
  refreshing ascii_runtime online /\
  steps_of ascii_runtime scalar_repr online RECURSION_LIMIT 0 Intake st_digest_with_photo
  = [Intake; Plan; Vision; Plan; Weather; Plan; Web; Plan; Schemes] /\
  (forall fuel,
     (length (steps_of ascii_runtime scalar_repr online fuel 0 Intake st_digest_with_photo)
      <= 9)%nat) /\
  ainvoke ascii_runtime scalar_repr online st_digest_with_photo = Raise ValidationError.
Proof.
  assert (Hworld : refreshing ascii_runtime online).
  { unfold refreshing, always_fresh.
    repeat split; intros; eexists; try split; try reflexivity;
      intros; vm_compute; reflexivity. }
  assert (Hsteps : steps_of ascii_runtime scalar_repr online RECURSION_LIMIT 0 Intake
                            st_digest_with_photo
                   = [Intake; Plan; Vision; Plan; Weather; Plan; Web; Plan; Schemes])
    by (vm_compute; reflexivity).
  destruct (refreshing_world_ends_the_turn ascii_runtime scalar_repr online
              st_digest_with_photo Hworld (fun _ => eq_refl)) as [Hbound Hraise].
  split; [exact Hworld|]. split; [exact Hsteps|]. split; [exact Hbound|].
  apply Hraise. rewrite Hsteps. left. cbn [In]. auto 10.
Defined.


(** ** The program on a few more inputs *)

(** A response body that is a list stops the search with an
    [AttributeError], which no caller catches. *)
Example search_body_not_an_object :
  ToolBundle.web ascii_runtime scalar_repr bundle
                 (fun _ _ _ => Ok (JList [JStr (py "rate limited")])) at_new_year 0
                 (py "rice") (py "month")
  = ToolBundle.Raises ToolBundle.AttributeError.
Proof. reflexivity. Qed.

(** A negative [tavily_max_results] drops results from the end. *)
Example negative_max_results :
  web_urls <$> (match ToolBundle.web ascii_runtime scalar_repr
                        {| ToolBundle.tavily_api_key := py "k";
                           ToolBundle.tavily_max_results := -3 |}
                        service_up at_new_year 0 (py "rice") (py "month") with
                | ToolBundle.Returns ctx => Some ctx
                | ToolBundle.Raises _ => None
                end)
  = Some [py "https://example.org/blast"].
Proof. reflexivity. Qed.

(** Asked to keep no entry, compaction keeps them all. *)
Example compacting_to_none :
  compacted 0 [user_message (py "a"); assistant_message (py "b")]
  = [user_message (py "a"); assistant_message (py "b")].
Proof. reflexivity. Qed.

(** A photo that cannot be read is tried again and again. *)
Example steps_with_photo_unreadable :
  steps_of ascii_runtime scalar_repr offline 7 0 Intake
           (set_messages st_photo_sent [user_message (py "hello")])
  = [Intake; Plan; Vision; Plan; Vision; Plan; Vision].
Proof. reflexivity. Qed.

(** The schemes button in Pune with the search service up: the weather
    is refreshed, the schemes are found, and the turn ends in
    [ValidationError]. *)
Example steps_with_schemes_found :
  steps_of ascii_runtime scalar_repr online RECURSION_LIMIT 0 Intake
           (set_context st_schemes_pressed ramesh)
  = [Intake; Plan; Weather; Plan; Schemes] /\
  ainvoke ascii_runtime scalar_repr online (set_context st_schemes_pressed ramesh)
  = Raise ValidationError.
Proof. split; vm_compute; reflexivity. Qed.
